(** * Flashcards session state: a shallow embedding of js/scripts.js

    The development follows the module-level state of [js/scripts.js]
    (questions, filteredQuestions, currentIndex, the two history stacks,
    showAnswerFlag, the answered and bookmarked id sets and the [filters]
    object) and the functions that read and write it.  Rendering
    (displayCurrentQuestion, updateBookmarkIcon, showToast and the other DOM
    helpers) changes none of these variables and is left out; [Math.random]
    is an explicit argument. *)

From Stdlib Require Import Ascii ZArith Lia.
From Stdlib Require SpecFloat.
From stdpp Require Import base decidable countable strings list sets gmap.

Open Scope Z_scope.
Open Scope string_scope.
Open Scope list_scope.

(** ** Data *)

(** A question id.  [transformSheetsData] and [MOCK_QUESTIONS] use numbers;
    a JSON file (questions or imported bookmarks) may also carry strings.
    A JS [Set] compares both kinds by value and never identifies a number
    with a string. *)
Inductive qid : Type :=
  | IdNum (n : Z)
  | IdStr (s : string).

#[global] Instance qid_eq_dec : EqDecision qid.
Proof. solve_decision. Defined.

Definition qid_to_sum (i : qid) : Z + string :=
  match i with IdNum n => inl n | IdStr s => inr s end.

Definition qid_of_sum (x : Z + string) : qid :=
  match x with inl n => IdNum n | inr s => IdStr s end.

#[global] Instance qid_countable : Countable qid.
Proof.
  refine (inj_countable' qid_to_sum qid_of_sum _).
  intros []; reflexivity.
Defined.

(** A question object, with the fields written by [transformSheetsData].
    [bookmark] and [asked] are kept as the truthiness of the field, which is
    all the code ever uses of them. *)
Record Question : Type := mkQuestion {
  id : qid;
  category : string;
  subCategory : string;
  question : string;
  answer : string;
  questionWithAsterisk : string;
  civicsTestUpdates : string;
  bookmark : bool;
  asked : bool
}.

#[global] Instance Question_eq_dec : EqDecision Question.
Proof. solve_decision. Defined.

(** The [filters] object. *)
Record Filters : Type := mkFilters {
  f_category : string;
  f_subCategory : string;
  f_bookmarked : string;
  f_questionWithAsterisk : string;
  f_civicsTestUpdates : string;
  f_shuffleUnasked : bool
}.

(** The value of [currentIndex] and of the entries of the history stacks: a
    JS number.  Every number the code stores there is an integer, except the
    result of [% 0] on an empty view, which is [NaN]. *)
Inductive jsnum : Type :=
  | Num (z : Z)
  | NaN.

#[global] Instance jsnum_eq_dec : EqDecision jsnum.
Proof. solve_decision. Defined.

(** The module-level variables, together with [CONFIG.SHEET_NAME] and the
    [bookmarks] entry of localStorage (its array read back as the set of its
    elements; an absent entry reads back as no element). *)
Record State : Type := mkState {
  questions : list Question;
  filteredQuestions : list Question;
  currentIndex : jsnum;
  historyBack : list jsnum;
  historyForward : list jsnum;
  showAnswerFlag : bool;
  answeredQuestions : gset qid;
  bookmarkedQuestions : gset qid;
  filters : Filters;
  sheetName : string;
  storedBookmarks : gset qid
}.

(** Assignments to single variables. *)
Definition set_questions (v : list Question) (s : State) : State :=
  mkState v (filteredQuestions s) (currentIndex s) (historyBack s)
    (historyForward s) (showAnswerFlag s) (answeredQuestions s)
    (bookmarkedQuestions s) (filters s) (sheetName s) (storedBookmarks s).

Definition set_filteredQuestions (v : list Question) (s : State) : State :=
  mkState (questions s) v (currentIndex s) (historyBack s)
    (historyForward s) (showAnswerFlag s) (answeredQuestions s)
    (bookmarkedQuestions s) (filters s) (sheetName s) (storedBookmarks s).

Definition set_currentIndex (v : jsnum) (s : State) : State :=
  mkState (questions s) (filteredQuestions s) v (historyBack s)
    (historyForward s) (showAnswerFlag s) (answeredQuestions s)
    (bookmarkedQuestions s) (filters s) (sheetName s) (storedBookmarks s).

Definition set_historyBack (v : list jsnum) (s : State) : State :=
  mkState (questions s) (filteredQuestions s) (currentIndex s) v
    (historyForward s) (showAnswerFlag s) (answeredQuestions s)
    (bookmarkedQuestions s) (filters s) (sheetName s) (storedBookmarks s).

Definition set_historyForward (v : list jsnum) (s : State) : State :=
  mkState (questions s) (filteredQuestions s) (currentIndex s)
    (historyBack s) v (showAnswerFlag s) (answeredQuestions s)
    (bookmarkedQuestions s) (filters s) (sheetName s) (storedBookmarks s).

Definition set_showAnswerFlag (v : bool) (s : State) : State :=
  mkState (questions s) (filteredQuestions s) (currentIndex s)
    (historyBack s) (historyForward s) v (answeredQuestions s)
    (bookmarkedQuestions s) (filters s) (sheetName s) (storedBookmarks s).

Definition set_answeredQuestions (v : gset qid) (s : State) : State :=
  mkState (questions s) (filteredQuestions s) (currentIndex s)
    (historyBack s) (historyForward s) (showAnswerFlag s) v
    (bookmarkedQuestions s) (filters s) (sheetName s) (storedBookmarks s).

Definition set_bookmarkedQuestions (v : gset qid) (s : State) : State :=
  mkState (questions s) (filteredQuestions s) (currentIndex s)
    (historyBack s) (historyForward s) (showAnswerFlag s)
    (answeredQuestions s) v (filters s) (sheetName s) (storedBookmarks s).

Definition set_filters (v : Filters) (s : State) : State :=
  mkState (questions s) (filteredQuestions s) (currentIndex s)
    (historyBack s) (historyForward s) (showAnswerFlag s)
    (answeredQuestions s) (bookmarkedQuestions s) v (sheetName s)
    (storedBookmarks s).

Definition set_sheetName (v : string) (s : State) : State :=
  mkState (questions s) (filteredQuestions s) (currentIndex s)
    (historyBack s) (historyForward s) (showAnswerFlag s)
    (answeredQuestions s) (bookmarkedQuestions s) (filters s) v
    (storedBookmarks s).

Definition set_storedBookmarks (v : gset qid) (s : State) : State :=
  mkState (questions s) (filteredQuestions s) (currentIndex s)
    (historyBack s) (historyForward s) (showAnswerFlag s)
    (answeredQuestions s) (bookmarkedQuestions s) (filters s) (sheetName s)
    v.

(** ** Arrays and numbers *)

(** [arr[i]]: [None] is JS [undefined] (index out of range, negative or
    [NaN]). *)
Definition at_index {A : Type} (arr : list A) (i : jsnum) : option A :=
  match i with
  | Num z => if (0 <=? z)%Z then arr !! Z.to_nat z else None
  | NaN => None
  end.

(** [(i + 1) % len] for an array length [len]: JS [%] truncates like
    [Z.rem], and a zero divisor gives [NaN]. *)
Definition succ_mod (i : jsnum) (len : nat) : jsnum :=
  match i with
  | Num z => if Nat.eqb len 0 then NaN else Num (Z.rem (z + 1) (Z.of_nat len))
  | NaN => NaN
  end.

(** [arr.push(x)] and [arr.pop()]: the top of a stack is the end of the
    array. *)
Definition push {A : Type} (x : A) (arr : list A) : list A := arr ++ [x].

Definition pop {A : Type} (arr : list A) : option (A * list A) :=
  match rev arr with
  | [] => None
  | x :: r => Some (x, rev r)
  end.

(** [arr.findIndex(q => q.id === i)]: the first position, or [-1]. *)
Fixpoint findIndex_from (pos : Z) (i : qid) (arr : list Question) : Z :=
  match arr with
  | [] => -1
  | q :: rest => if bool_decide (id q = i) then pos
                 else findIndex_from (pos + 1) i rest
  end.

Definition findIndex (i : qid) (arr : list Question) : Z :=
  findIndex_from 0 i arr.

(** [Math.floor(Math.random() * n)] for [n > 0]: [Math.random()] lies in
    [0, 1), so the result is one of [0 .. n-1] and each of them can occur.
    A draw is given as an arbitrary natural number and reduced into that
    range. *)
Definition random_below (draw n : nat) : nat := (draw mod n)%nat.

(** ** Filtering and shuffling *)

(** The callback of [questions.filter] in [applyFilters]. *)
Definition passesFilters (f : Filters) (bookmarked : gset qid) (q : Question)
  : bool :=
  if negb (f_category f =? "All") && negb (category q =? f_category f)
  then false
  else if negb (f_subCategory f =? "All")
          && negb (subCategory q =? f_subCategory f)
  then false
  else if (f_bookmarked f =? "Bookmarked")
          && negb (bool_decide (id q ∈ bookmarked))
  then false
  else if (f_questionWithAsterisk f =? "Yes")
          && negb (questionWithAsterisk q =? "Yes")
  then false
  else if (f_civicsTestUpdates f =? "Yes")
          && negb (civicsTestUpdates q =? "Yes")
  then false
  else true.

(** [[a[i], a[j]] = [a[j], a[i]]]: both sides are read first. *)
Definition swap {A : Type} (a : list A) (i j : nat) : list A :=
  match a !! i, a !! j with
  | Some x, Some y => <[j := x]> (<[i := y]> a)
  | _, _ => a
  end.

(** The loop of [shuffleArray], entered with loop variable [i]; it runs
    while [i > 0].  [draws i] is the draw made in the iteration with loop
    variable [i]. *)
Fixpoint shuffleLoop {A : Type} (draws : nat -> nat) (i : nat) (a : list A)
  : list A :=
  match i with
  | O => a
  | S i' => shuffleLoop draws i' (swap a i (random_below (draws i) (i + 1)))
  end.

Definition shuffleArray {A : Type} (draws : nat -> nat) (arr : list A)
  : list A :=
  shuffleLoop draws (length arr - 1)%nat arr.

Definition shuffleUnasked (draws : nat -> nat) (answered : gset qid)
    (l : list Question) : list Question :=
  let unasked := List.filter (fun q => negb (bool_decide (id q ∈ answered))) l in
  let asked := List.filter (fun q => bool_decide (id q ∈ answered)) l in
  shuffleArray draws unasked ++ asked.

(** ** Navigation and filters *)

(** [initHistory]. *)
Definition initHistory (s : State) : State :=
  set_historyForward [] (set_historyBack [currentIndex s] s).

(** The value of [currentIndex] after the test that follows the filtering
    in [applyFilters]: [view] is the array just assigned to
    [filteredQuestions] and [i] the index held so far.  [currentQ] is read
    from [view] itself, and [includes] is given on equal records, which
    agrees with the identity test of JS for an element read from the
    array. *)
Definition retainedIndex (view : list Question) (i : jsnum) : jsnum :=
  if (0 <? length view)%nat then
    match at_index view i with
    | None => Num 0
    | Some currentQ =>
        if negb (bool_decide (currentQ ∈ view)) then Num 0 else i
    end
  else Num 0.

(** [applyFilters]. *)
Definition applyFilters (draws : nat -> nat) (s : State) : State :=
  let kept :=
    List.filter (passesFilters (filters s) (bookmarkedQuestions s))
      (questions s) in
  let view :=
    if f_shuffleUnasked (filters s)
    then shuffleUnasked draws (answeredQuestions s) kept
    else kept in
  initHistory
    (set_showAnswerFlag false
       (set_currentIndex (retainedIndex view (currentIndex s))
          (set_filteredQuestions view s))).

(** [markAnswered(q)], with [q] possibly [undefined]. *)
Definition markAnswered (q : option Question) (s : State) : State :=
  match q with
  | Some q => set_answeredQuestions (answeredQuestions s ∪ {[id q]}) s
  | None => s
  end.

(** [toggleAnswer]. *)
Definition toggleAnswer (s : State) : State :=
  if Nat.eqb (length (filteredQuestions s)) 0 then s
  else
    let s1 := set_showAnswerFlag (negb (showAnswerFlag s)) s in
    if showAnswerFlag s1
    then markAnswered (at_index (filteredQuestions s1) (currentIndex s1)) s1
    else s1.

(** The index chosen by the normal forward step of [nextQuestion]. *)
Definition nextIndex (draw : nat) (s : State) : jsnum :=
  if f_shuffleUnasked (filters s) then
    let unasked :=
      List.filter (fun q => negb (bool_decide (id q ∈ answeredQuestions s)))
        (filteredQuestions s) in
    match unasked with
    | [] => succ_mod (currentIndex s) (length (filteredQuestions s))
    | q0 :: _ =>
        let randomQ := nth (random_below draw (length unasked)) unasked q0 in
        Num (findIndex (id randomQ) (filteredQuestions s))
    end
  else succ_mod (currentIndex s) (length (filteredQuestions s)).

(** [nextQuestion]; [draw] is the value of [Math.random] should the call
    need one. *)
Definition nextQuestion (draw : nat) (s : State) : State :=
  if negb (showAnswerFlag s) then toggleAnswer s
  else
    match pop (historyForward s) with
    | Some (i, rest) =>
        set_showAnswerFlag false
          (set_currentIndex i
             (set_historyForward rest
                (set_historyBack (push (currentIndex s) (historyBack s)) s)))
    | None =>
        let s1 := set_historyBack (push (currentIndex s) (historyBack s)) s in
        set_showAnswerFlag false
          (set_historyForward [] (set_currentIndex (nextIndex draw s1) s1))
    end.

(** [prevQuestion]. *)
Definition prevQuestion (s : State) : State :=
  match pop (historyBack s) with
  | Some (i, rest) =>
      set_showAnswerFlag false
        (set_currentIndex i
           (set_historyBack rest
              (set_historyForward
                 (push (currentIndex s) (historyForward s)) s)))
  | None => s
  end.

(** [validateCurrentQuestion(isBackward)].  The function reads [q.id]
    without a test; its only caller runs it right after [applyFilters], which
    leaves an index inside a non-empty view, and the branch for an index
    outside the view is given as no change. *)
Definition validateCurrentQuestion (isBackward : bool) (draw : nat)
    (s : State) : State :=
  if Nat.eqb (length (filteredQuestions s)) 0 then s
  else
    match at_index (filteredQuestions s) (currentIndex s) with
    | None => s
    | Some q =>
        if negb (passesFilters (filters s) (bookmarkedQuestions s) q)
        then (if isBackward then prevQuestion s else nextQuestion draw s)
        else s
    end.

(** ** Bookmarks *)

(** [saveBookmarks]. *)
Definition saveBookmarks (s : State) : State :=
  set_storedBookmarks (bookmarkedQuestions s) s.

(** [loadBookmarksFromStorage]. *)
Definition loadBookmarksFromStorage (s : State) : State :=
  set_bookmarkedQuestions (bookmarkedQuestions s ∪ storedBookmarks s) s.

(** [initializeBookmarks]. *)
Definition initializeBookmarks (s : State) : State :=
  let flagged := List.filter bookmark (questions s) in
  loadBookmarksFromStorage
    (set_bookmarkedQuestions (list_to_set (map id flagged)) s).

(** [toggleBookmark]. *)
Definition toggleBookmark (draws : nat -> nat) (draw : nat) (s : State)
  : State :=
  match at_index (filteredQuestions s) (currentIndex s) with
  | None => s
  | Some q =>
      let marks :=
        if bool_decide (id q ∈ bookmarkedQuestions s)
        then bookmarkedQuestions s ∖ {[id q]}
        else bookmarkedQuestions s ∪ {[id q]} in
      validateCurrentQuestion false draw
        (applyFilters draws (saveBookmarks (set_bookmarkedQuestions marks s)))
  end.

(** [resetBookmarks]. *)
Definition resetBookmarks (draws : nat -> nat) (s : State) : State :=
  applyFilters draws (saveBookmarks (set_bookmarkedQuestions ∅ s)).

(** [a || "unknown"] on strings: the empty string is the only falsy one. *)
Definition or_unknown (a : string) : string :=
  if (a =? "")%string then "unknown" else a.

(** What the file chooser hands to [handleBookmarkImport]: no file, a text
    that [JSON.parse] rejects, a JSON value without a [bookmarks] array, or
    an object with a [bookmarks] array, whose [set] field is given as a
    string (an absent [set] reads like the empty one under [||]). *)
Inductive ImportFile : Type :=
  | NoFile
  | NotJson
  | WrongShape
  | Payload (set : string) (bookmarks : list qid).

(** The branch [handleBookmarkImport] ends in, named after its toast. *)
Inductive ImportOutcome : Type :=
  | NothingRead
  | FailedToImport
  | InvalidFormat
  | SetMismatch
  | Imported.

(** [handleBookmarkImport], with the [onload] callback run on the file. *)
Definition handleBookmarkImport (file : ImportFile) (draws : nat -> nat)
    (s : State) : ImportOutcome * State :=
  match file with
  | NoFile => (NothingRead, s)
  | NotJson => (FailedToImport, s)
  | WrongShape => (InvalidFormat, s)
  | Payload set bookmarks =>
      let currentSet := or_unknown (sheetName s) in
      let importedSet := or_unknown set in
      if negb (importedSet =? currentSet)%string then (SetMismatch, s)
      else
        (Imported,
         applyFilters draws
           (saveBookmarks
              (set_bookmarkedQuestions
                 (bookmarkedQuestions s ∪ list_to_set bookmarks) s)))
  end.

(** ** Progress *)

(** The three numbers [updateProgress] shows. *)
Record Progress : Type := mkProgress {
  total : nat;
  answered : nat;
  percent : Z
}.

(** JS numbers are IEEE 754 doubles: 53 bits of precision, exponents up to
    1024.  A size or a length is an integer below 2^53, which is a double as
    it stands. *)
Definition double_of_nat (n : nat) : SpecFloat.spec_float :=
  match Z.of_nat n with
  | Zpos p => SpecFloat.S754_finite false p 0
  | _ => SpecFloat.S754_zero false
  end.

(** [Math.round(x)]: the integer nearest to [x], halves going up, that is
    the floor of [x + 1/2], taken exactly on [x = m * 2^e].  A zero gives 0;
    so do here the infinities and NaN, which a size divided by a length
    other than 0 does not give. *)
Definition Math_round (x : SpecFloat.spec_float) : Z :=
  match x with
  | SpecFloat.S754_finite sx m e =>
      let v := if sx then Zneg m else Zpos m in
      if (0 <=? e)%Z then v * Z.pow 2 e
      else (2 * v + Z.pow 2 (- e)) / Z.pow 2 (1 - e)
  | _ => 0
  end.

(** [Math.round((answered / total) * 100)]: the division and the
    multiplication each round to the nearest double, and [Math.round] rounds
    their result, so that 23 of 40 is 57 percent (57.49999999999999 before
    the last rounding) and not 58. *)
Definition round_percent (a t : nat) : Z :=
  Math_round
    (SpecFloat.SFmul 53 1024
       (SpecFloat.SFdiv 53 1024 (double_of_nat a) (double_of_nat t))
       (double_of_nat 100)).

(** [updateProgress]: the values of [total], [answered] and [percent]. *)
Definition updateProgress (s : State) : Progress :=
  let total := length (filteredQuestions s) in
  let answered := size (answeredQuestions s) in
  let percent := if Nat.eqb total 0 then 0 else round_percent answered total in
  mkProgress total answered percent.

(** ** Resets and filter changes *)

(** [resetFilters]. *)
Definition resetFilters (draws : nat -> nat) (s : State) : State :=
  applyFilters draws
    (set_filters
       (mkFilters "All" "All" "All" "All" "All"
          (f_shuffleUnasked (filters s))) s).

(** [resetProgress]. *)
Definition resetProgress (draws : nat -> nat) (s : State) : State :=
  let s1 :=
    set_showAnswerFlag false
      (set_currentIndex (Num 0) (set_answeredQuestions ∅ s)) in
  let s2 :=
    if f_shuffleUnasked (filters s1)
    then set_filteredQuestions
           (shuffleUnasked draws (answeredQuestions s1) (filteredQuestions s1))
           s1
    else s1 in
  initHistory s2.

(** The five select elements of the filter panel. *)
Inductive FilterControl : Type :=
  | CategoryFilter
  | SubcategoryFilter
  | BookmarkFilter
  | AsteriskFilter
  | CivicsFilter.

(** The [value] of each of them when the handler runs. *)
Record Selects : Type := mkSelects {
  cat_value : string;
  sub_value : string;
  bm_value : string;
  ast_value : string;
  civ_value : string
}.

(** [handleFilterChange(event)]: [target] is the element the change event
    comes from, [dom] the selects ([None] when one of them is missing from
    the page). *)
Definition handleFilterChange (target : FilterControl) (dom : option Selects)
    (draws : nat -> nat) (s : State) : State :=
  match dom with
  | None => s
  | Some v =>
      let f1 :=
        mkFilters (cat_value v) (sub_value v) (bm_value v) (ast_value v)
          (civ_value v) (f_shuffleUnasked (filters s)) in
      let f2 :=
        match target with
        | CategoryFilter =>
            mkFilters (f_category f1) "All" (f_bookmarked f1)
              (f_questionWithAsterisk f1) (f_civicsTestUpdates f1)
              (f_shuffleUnasked f1)
        | _ => f1
        end in
      applyFilters draws (set_filters f2 s)
  end.

(** The click handler installed by [initShuffleButton]. *)
Definition shuffleButtonClick (draws : nat -> nat) (s : State) : State :=
  let f := filters s in
  applyFilters draws
    (set_filters
       (mkFilters (f_category f) (f_subCategory f) (f_bookmarked f)
          (f_questionWithAsterisk f) (f_civicsTestUpdates f)
          (negb (f_shuffleUnasked f))) s).

(** ** Rows of a sheet (js/sheets.js) *)

Section Sheets.

(** [String.prototype.trim] and [String.prototype.toLowerCase]. *)
Variable trim : string -> string.
Variable toLowerCase : string -> string.

(** [String(row[k] || "")]: a cell of the Sheets API is a string, and a
    missing cell reads like an empty one. *)
Definition cell (row : list string) (k : nat) : string :=
  default "" (row !! k).

(** [String(row[k] || row[k'] || "")]. *)
Definition cell_or (row : list string) (k k' : nat) : string :=
  if (cell row k =? "")%string then cell row k' else cell row k.

(** [String(row[k] || "").toLowerCase() === "true" ||
    String(row[k] || "") === "1"]. *)
Definition flagCell (row : list string) (k : nat) : bool :=
  (toLowerCase (cell row k) =? "true")%string || (cell row k =? "1")%string.

(** The callback of [dataRows.map] in [transformSheetsData]. *)
Definition rowToQuestion (index : nat) (row : list string) : Question :=
  mkQuestion (IdNum (Z.of_nat index + 1))
    (trim (cell row 0)) (trim (cell row 1)) (trim (cell row 2))
    (trim (cell row 3)) (trim (cell_or row 4 2)) (trim (cell row 5))
    (flagCell row 6) (flagCell row 7).

(** [transformSheetsData(data)]: [values] is [data.values], [None] when
    [data] or [data.values] is missing. *)
Definition transformSheetsData (values : option (list (list string)))
  : list Question :=
  match values with
  | None => []
  | Some rows =>
      if (length rows <? 1)%nat then []
      else
        let hasHeader := (1 <? length rows)%nat in
        let dataRows := if hasHeader then drop 1 rows else rows in
        List.filter (fun item => negb (question item =? "")%string)
          (imap rowToQuestion dataRows)
  end.

End Sheets.

(** ** Loading a question set *)

Section Loading.

(** The built-in table [MOCK_QUESTIONS]. *)
Variable MOCK_QUESTIONS : list Question.

(** [initSheetsDropdown]: [names] is the list of sheet titles, [None] when
    the selector is missing or the titles cannot be fetched. *)
Definition initSheetsDropdown (names : option (list string)) (s : State)
  : State :=
  match names with
  | Some (n :: _) =>
      if (sheetName s =? "")%string then set_sheetName n s else s
  | _ => s
  end.

(** [loadQuestionsFromSelectedSheet]: [fetched] is the result of
    [transformSheetsData] on the response, [None] when the request
    fails. *)
Definition loadQuestionsFromSelectedSheet (fetched : option (list Question))
    (s : State) : list Question :=
  if (sheetName s =? "")%string then MOCK_QUESTIONS
  else match fetched with
       | Some l => l
       | None => MOCK_QUESTIONS
       end.

(** The value of [questions] after the two fallbacks of
    [initSheetsAndData]: [localJson] is the content of data/questions.json,
    [None] when it cannot be read. *)
Definition loadQuestions (fetched localJson : option (list Question))
    (s : State) : list Question :=
  let q1 := loadQuestionsFromSelectedSheet fetched s in
  let q2 :=
    if Nat.eqb (length q1) 0
    then match localJson with Some l => l | None => q1 end
    else q1 in
  if Nat.eqb (length q2) 0 then MOCK_QUESTIONS else q2.

(** The [try] block of [initSheetsAndData], in a run where no collaborator
    raises.  [rnd k] holds the draws of the [k]-th shuffle. *)
Definition initSheetsAndData (names : option (list string))
    (fetched localJson : option (list Question)) (rnd : nat -> nat -> nat)
    (s : State) : State :=
  let s0 := initSheetsDropdown names s in
  let s1 := set_questions (loadQuestions fetched localJson s0) s0 in
  let s2 := saveBookmarks (set_bookmarkedQuestions ∅ s1) in
  let s3 := initializeBookmarks s2 in
  let s4 := applyFilters (rnd 0%nat) s3 in
  let s5 := resetFilters (rnd 1%nat) s4 in
  let s6 := resetBookmarks (rnd 2%nat) s5 in
  resetProgress (rnd 3%nat) s6.

(** The change handler of the sheet selector.  The array returned by
    [loadQuestionsFromSelectedSheet] is truthy even when empty, so the
    [|| [...MOCK_QUESTIONS]] alternative is never taken. *)
Definition sheetSelectorChange (value : string)
    (fetched : option (list Question)) (rnd : nat -> nat -> nat)
    (s : State) : State :=
  let s0 := set_sheetName value s in
  let s1 := set_questions (loadQuestionsFromSelectedSheet fetched s0) s0 in
  let s2 := initializeBookmarks s1 in
  let s3 := resetFilters (rnd 0%nat) s2 in
  let s4 := resetBookmarks (rnd 1%nat) s3 in
  let s5 := resetProgress (rnd 2%nat) s4 in
  applyFilters (rnd 3%nat) s5.

(** The variables as the script declares them; [name] is
    [CONFIG.SHEET_NAME] and [stored] what localStorage holds from an
    earlier visit. *)
Definition initialState (name : string) (stored : gset qid) : State :=
  mkState [] [] (Num 0) [] [] false ∅ ∅
    (mkFilters "All" "All" "All" "All" "All" false) name stored.

(** The state once the [DOMContentLoaded] handler has run. *)
Definition pageLoaded (name : string) (stored : gset qid)
    (names : option (list string))
    (fetched localJson : option (list Question)) (rnd : nat -> nat -> nat)
  : State :=
  loadBookmarksFromStorage
    (initSheetsAndData names fetched localJson rnd
       (initialState name stored)).

(** The user actions the page binds to the functions above. *)
Inductive Event : Type :=
  | Next (draw : nat)
  | Prev
  | ShowAnswer
  | Bookmark (draws : nat -> nat) (draw : nat)
  | FilterChange (target : FilterControl) (dom : option Selects)
      (draws : nat -> nat)
  | ShuffleClick (draws : nat -> nat)
  | ResetFilters (draws : nat -> nat)
  | ResetProgress (draws : nat -> nat)
  | ResetBookmarks (draws : nat -> nat)
  | Import (file : ImportFile) (draws : nat -> nat)
  | SheetChange (value : string) (fetched : option (list Question))
      (rnd : nat -> nat -> nat).

Definition handle (e : Event) (s : State) : State :=
  match e with
  | Next draw => nextQuestion draw s
  | Prev => prevQuestion s
  | ShowAnswer => toggleAnswer s
  | Bookmark draws draw => toggleBookmark draws draw s
  | FilterChange target dom draws => handleFilterChange target dom draws s
  | ShuffleClick draws => shuffleButtonClick draws s
  | ResetFilters draws => resetFilters draws s
  | ResetProgress draws => resetProgress draws s
  | ResetBookmarks draws => resetBookmarks draws s
  | Import file draws => snd (handleBookmarkImport file draws s)
  | SheetChange value fetched rnd => sheetSelectorChange value fetched rnd s
  end.

(** The states a session can be in. *)
Inductive Reachable : State -> Prop :=
  | reach_load name stored names fetched localJson rnd :
      Reachable (pageLoaded name stored names fetched localJson rnd)
  | reach_event e s :
      Reachable s -> Reachable (handle e s).

End Loading.

(** ** Sample data

    Five entries of [MOCK_QUESTIONS] (ids 1, 3, 62, 66 and 99).  Their
    [bookmark] and [asked] fields hold the string "No", which is truthy. *)

Definition mock1 : Question :=
  mkQuestion (IdNum 1) "American Government"
    "A: Principles of American Government"
    "1. What is the supreme law of the land?" "- the Constitution"
    "No" "No" true true.

Definition mock3 : Question :=
  mkQuestion (IdNum 3) "American Government"
    "A: Principles of American Government"
    "3. The idea of self-government is in the first three words of the Constitution. What are these words?"
    "- We the People" "No" "No" true true.

Definition mock62 : Question :=
  mkQuestion (IdNum 62) "American History"
    "A: Colonial Period and Independence"
    "62. Who wrote the Declaration of Independence?"
    "- (Thomas) Jefferson" "No" "No" true true.

Definition mock66 : Question :=
  mkQuestion (IdNum 66) "American History"
    "A: Colonial Period and Independence"
    "66. When was the Constitution written?" "- 1787" "No" "No" true true.

Definition mock99 : Question :=
  mkQuestion (IdNum 99) "Integrated Civics" "C: Holidays"
    "99. When do we celebrate Independence Day?*" "- July 4"
    "Yes" "No" true true.

Definition sampleMock : list Question :=
  [mock1; mock3; mock62; mock66; mock99].

(** A question set with the ids 1, 2 and 3, as a data/questions.json could
    hold it. *)
Definition card (n : Z) : Question :=
  mkQuestion (IdNum n) "History" "Dates" "When?" "Then." "No" "No"
    false false.

Definition threeCards : list Question := [card 1; card 2; card 3].

(** No draw is ever needed while shuffleUnasked is off; these stand for
    [Math.random] always returning 0. *)
Definition zeroDraws : nat -> nat := fun _ => 0%nat.

Definition zeroRnd : nat -> nat -> nat := fun _ _ => 0%nat.

(** The page loaded with the configuration of config/config.js (no sheet
    name), which falls back to the built-in table. *)
Definition sampleLoaded : State :=
  pageLoaded sampleMock "" ∅ None None None zeroRnd.

(** ** The filter as the specification words it *)

(** A record satisfies the configuration when it satisfies every active
    dimension; a dimension is active when it holds one of its selecting
    values (a category, a subcategory, ["Bookmarked"], ["Yes"]) and is a
    no-op at ["All"]. *)
Definition Matches (f : Filters) (bookmarked : gset qid) (q : Question)
  : Prop :=
  (f_category f = "All" ∨ category q = f_category f) ∧
  (f_subCategory f = "All" ∨ subCategory q = f_subCategory f) ∧
  (f_bookmarked f = "Bookmarked" → id q ∈ bookmarked) ∧
  (f_questionWithAsterisk f = "Yes" → questionWithAsterisk q = "Yes") ∧
  (f_civicsTestUpdates f = "Yes" → civicsTestUpdates q = "Yes").

#[global] Instance Matches_dec f bookmarked q :
  Decision (Matches f bookmarked q).
Proof. unfold Matches. apply _. Defined.

(** Every dimension at ["All"]. *)
Definition allDimensionsAll (f : Filters) : Prop :=
  f_category f = "All" ∧ f_subCategory f = "All" ∧ f_bookmarked f = "All" ∧
  f_questionWithAsterisk f = "All" ∧ f_civicsTestUpdates f = "All".

(** The count of the records of a view whose id is in the answered set, as
    the specification defines the answered figure of the statistics. *)
Definition answeredInView (answered : gset qid) (view : list Question)
  : nat :=
  length (filter (λ q, id q ∈ answered) view).

(** [nextQuestion] called once per element of [ds], in order. *)
Definition nextQuestions (ds : list nat) (s : State) : State :=
  fold_left (fun st d => nextQuestion d st) ds s.

(** A sequential session between two pairs of calls of [nextQuestion]:
    shuffleUnasked off, the answer hidden, nothing to replay, and the [n]-th
    record of [view] current. *)
Definition sequentialAt (view : list Question) (n : nat) (s : State) : Prop :=
  filteredQuestions s = view ∧ f_shuffleUnasked (filters s) = false ∧
  currentIndex s = Num (Z.of_nat n) ∧ showAnswerFlag s = false ∧
  historyForward s = [].

(** The selects show the filters in force: outside the change event of
    the category select itself, whose value is the new choice, the value of
    the category select is [filters.category] (the page writes the select
    and the filter together, in [resetFilters] and
    [populateCategoryFilter]). *)
Definition selectsInSync (e : Event) (s : State) : Prop :=
  match e with
  | FilterChange target (Some v) _ =>
      target ≠ CategoryFilter -> cat_value v = f_category (filters s)
  | _ => True
  end.

(** The page loaded with a sheet named "2020" whose request fails. *)
Definition sheet2020 : State :=
  pageLoaded sampleMock "2020" ∅ None None None zeroRnd.

(** The page loaded with a sheet named "unknown" whose request fails. *)
Definition sheetUnknown : State :=
  pageLoaded sampleMock "unknown" ∅ None None None zeroRnd.

(** Two records with the id 1. *)
Definition twins : list Question := [card 1; mock1].

(** The page loaded with the three cards as the rows of sheet "2020". *)
Definition threeCardsLoaded : State :=
  pageLoaded sampleMock "2020" ∅ None (Some threeCards) None zeroRnd.

(** The sample page with "American History" chosen in the category
    select. *)
Definition historyChosen : State :=
  handleFilterChange CategoryFilter
    (Some (mkSelects "American History" "All" "All" "All" "All")) zeroDraws
    sampleLoaded.

(** The sample page with a subcategory chosen while the category is
    "All". *)
Definition subCategoryChosen : State :=
  handleFilterChange SubcategoryFilter
    (Some (mkSelects "All" "A: Principles of American Government" "All"
             "All" "All")) zeroDraws sampleLoaded.

(** The sample page with "Bookmarked" chosen while nothing is bookmarked:
    the view is empty. *)
Definition nothingBookmarked : State :=
  handleFilterChange BookmarkFilter
    (Some (mkSelects "All" "All" "Bookmarked" "All" "All")) zeroDraws
    sampleLoaded.

(** An answer is shown only while the view holds a record. *)
Definition shownOnlyOnRecord (s : State) : Prop :=
  showAnswerFlag s = true -> filteredQuestions s ≠ [].

(** ** Conditions a session keeps *)

(** A number that addresses a record of a view of [len] records, or that is
    0 when the view is empty. *)
Definition validIndex (len : nat) (i : jsnum) : Prop :=
  match i with
  | Num z => (0 ≤ z)%Z ∧ ((z < Z.of_nat len)%Z ∨ (len = 0%nat ∧ z = 0%Z))
  | NaN => False
  end.

(** [currentIndex] and every entry of the two history stacks are such
    numbers for the current view. *)
Definition indicesValid (s : State) : Prop :=
  validIndex (length (filteredQuestions s)) (currentIndex s) ∧
  Forall (validIndex (length (filteredQuestions s))) (historyBack s) ∧
  Forall (validIndex (length (filteredQuestions s))) (historyForward s).

(** While an answer is shown, the current record exists and its id is in
    [answeredQuestions]. *)
Definition revealedIsAnswered (s : State) : Prop :=
  showAnswerFlag s = true ->
  ∃ q, at_index (filteredQuestions s) (currentIndex s) = Some q ∧
       id q ∈ answeredQuestions s.

(** localStorage holds the bookmarks of the session. *)
Definition bookmarksPersisted (s : State) : Prop :=
  storedBookmarks s = bookmarkedQuestions s.

(** The records of [questions] that pass the filter callback under the
    filters and bookmarks of the state. *)
Definition matchingQuestions (s : State) : list Question :=
  List.filter (passesFilters (filters s) (bookmarkedQuestions s))
    (questions s).

(** The view is a rearrangement of the matching records, and is the list of
    them in the order of [questions] while shuffleUnasked is off. *)
Definition viewConsistent (s : State) : Prop :=
  filteredQuestions s ≡ₚ matchingQuestions s ∧
  (f_shuffleUnasked (filters s) = false ->
   filteredQuestions s = matchingQuestions s).

(** The variables that [toggleAnswer], [nextQuestion] and [prevQuestion]
    never write. *)
Definition sameSetup (s s' : State) : Prop :=
  questions s' = questions s ∧ filteredQuestions s' = filteredQuestions s ∧
  filters s' = filters s ∧ bookmarkedQuestions s' = bookmarkedQuestions s ∧
  storedBookmarks s' = storedBookmarks s ∧ sheetName s' = sheetName s.

(** The five conditions together. *)
Definition sessionInvariant (s : State) : Prop :=
  shownOnlyOnRecord s ∧ indicesValid s ∧ revealedIsAnswered s ∧
  bookmarksPersisted s ∧ viewConsistent s.

(** ** Export of the bookmarks *)

(** The object [exportBookmarks] serialises, as [JSON.parse] gives it back
    to [handleBookmarkImport]: the sheet name or "unknown", and the ids of
    the set (the array lists them in the insertion order of the JS set,
    here in the order of [elements]).  The name of the downloaded file is
    left out. *)
Definition exportBookmarks (s : State) : ImportFile :=
  Payload (or_unknown (sheetName s)) (elements (bookmarkedQuestions s)).

(** The events after which [answeredQuestions] is emptied. *)
Definition clearsAnswered (e : Event) : bool :=
  match e with
  | ResetProgress _ | SheetChange _ _ _ => true
  | _ => false
  end.

(** The sample page with record 1 bookmarked and the bookmark filter at
    "Bookmarked". *)
Definition bookmarkedOnly : State :=
  handleFilterChange BookmarkFilter
    (Some (mkSelects "All" "All" "Bookmarked" "All" "All")) zeroDraws
    (toggleBookmark zeroDraws 0 sampleLoaded).

(** The sample page with shuffleUnasked switched on and the first answer
    shown. *)
Definition shuffledShown : State :=
  nextQuestion 0 (shuffleButtonClick zeroDraws sampleLoaded).

(** ** Options of the category and subcategory selects *)

Section Options.

(** [Array.prototype.sort] without a comparator. *)
Variable sort : list string -> list string.

(** [[...new Set(l)]]: each value once, at its first occurrence. *)
Definition uniq (l : list string) : list string :=
  fold_left
    (fun seen x => if bool_decide (x ∈ seen) then seen else seen ++ [x])
    l [].

(** The callback [Boolean] on a string: only the empty string is falsy. *)
Definition truthy (x : string) : bool := negb (x =? "")%string.

(** The option values [populateCategoryFilter] leaves in the category
    select (when the select is on the page). *)
Definition populateCategoryFilter (s : State) : list string :=
  "All" :: sort (uniq (List.filter truthy (map category (questions s)))).

(** The option values [updateSubCategories] leaves in the subcategory
    select (when the select is on the page). *)
Definition updateSubCategories (s : State) : list string :=
  let filtered :=
    if (f_category (filters s) =? "All")%string then questions s
    else List.filter
           (fun q => (category q =? f_category (filters s))%string)
           (questions s) in
  "All" :: sort (uniq (List.filter truthy (map subCategory filtered))).

End Options.

(** ** Escaping for the badges *)

(** The replacement [escapeHtml] makes for one character: the ampersand,
    the two angle brackets, the double quote (character 34) and the
    apostrophe go to their entity, any other character stays. *)
Definition escapeChar (c : Ascii.ascii) : string :=
  if Ascii.eqb c "&"%char then "&amp;"
  else if Ascii.eqb c "<"%char then "&lt;"
  else if Ascii.eqb c ">"%char then "&gt;"
  else if Ascii.eqb c "034"%char then "&quot;"
  else if Ascii.eqb c "'"%char then "&#39;"
  else String c "".

(** [escapeHtml(str)]. *)
Fixpoint escapeHtml (str : string) : string :=
  match str with
  | EmptyString => ""
  | String c rest => (escapeChar c ++ escapeHtml rest)%string
  end.

(** The character [c] occurs in [str]. *)
Definition occurs (c : Ascii.ascii) (str : string) : Prop :=
  In c (String.list_ascii_of_string str).

(** ** Text for speech

    The functions below look at single characters, lengths and slices, so a
    JS string is taken as the list of its UTF-16 code units. *)

Definition isDigit (c : N) : bool := ((48 <=? c) && (c <=? 57))%N.

(** The class [\s], which is also what [trim] removes. *)
Definition isSpace (c : N) : bool :=
  existsb (N.eqb c)
    [9; 10; 11; 12; 13; 32; 160; 5760; 8232; 8233; 8239; 8287; 12288;
     65279]%N
  || ((8192 <=? c) && (c <=? 8202))%N.

Fixpoint dropWhile {A : Type} (p : A -> bool) (l : list A) : list A :=
  match l with
  | [] => []
  | c :: rest => if p c then dropWhile p rest else l
  end.

(** [text.replace(/<[^>]*>/g, "")].  A match starts at a [<] that has a
    [>] somewhere after it and runs to the first such [>]; [inTag] says
    that the scan is inside a match. *)
Fixpoint stripTags (inTag : bool) (text : list N) : list N :=
  match text with
  | [] => []
  | c :: rest =>
      if inTag then
        if (c =? 62)%N then stripTags false rest else stripTags true rest
      else if (c =? 60)%N && existsb (N.eqb 62) rest then stripTags true rest
      else c :: stripTags false rest
  end.

(** [text.replace(/^\d+\.\s*/, "")]: digits at the very start, a dot right
    after the last of them, and the white space that follows. *)
Definition stripLeadingNumber (text : list N) : list N :=
  match text with
  | c :: _ =>
      if isDigit c then
        match dropWhile isDigit text with
        | d :: rest => if (d =? 46)%N then dropWhile isSpace rest else text
        | [] => text
        end
      else text
  | [] => text
  end.

(** [text.trim()]. *)
Definition trim (text : list N) : list N :=
  rev (dropWhile isSpace (rev (dropWhile isSpace text))).

(** [sanitizeTextForSpeech(text)]. *)
Definition sanitizeTextForSpeech (text : list N) : list N :=
  match text with
  | [] => []
  | _ => trim (stripLeadingNumber (stripTags false text))
  end.

(** The loop of [speakText] that fills [chunks], entered with loop variable
    [i]; [fuel] bounds the number of iterations. *)
Fixpoint chunkLoop {A : Type} (size fuel i : nat) (text : list A)
  : list (list A) :=
  match fuel with
  | O => []
  | S fuel' =>
      if (i <? length text)%nat
      then take size (drop i text) :: chunkLoop size fuel' (i + size) text
      else []
  end.

Definition CHUNK_SIZE : nat := 200.

(** The array [chunks] of [speakText] for the sanitized text [plainText];
    the loop makes at most one iteration per character. *)
Definition speechChunks {A : Type} (plainText : list A) : list (list A) :=
  chunkLoop CHUNK_SIZE (length plainText) 0 plainText.

(** There is no [<] in [text] with a [>] after it. *)
Definition noTag (text : list N) : Prop :=
  ∀ l1 l2 l3 : list N, text ≠ l1 ++ 60%N :: l2 ++ 62%N :: l3.

(** ** Theme *)

(** The [data-theme] attribute of the document ([None] while it is not
    set) and the [theme] entry of localStorage. *)
Record Theme : Type := mkTheme {
  dataTheme : option string;
  storedTheme : option string
}.

(** [initTheme]. *)
Definition initTheme (t : Theme) : Theme :=
  let theme :=
    match storedTheme t with
    | Some v => if (v =? "")%string then "light" else v
    | None => "light"
    end in
  mkTheme (Some theme) (storedTheme t).

(** [toggleTheme]. *)
Definition toggleTheme (t : Theme) : Theme :=
  let theme :=
    match dataTheme t with
    | Some v => if (v =? "dark")%string then "light" else "dark"
    | None => "dark"
    end in
  mkTheme (Some theme) (Some theme).

(** * Properties *)

(** ** Lists *)

Lemma List_filter_as_filter {A : Type} (p : A -> bool) (P : A -> Prop)
    `{!∀ x, Decision (P x)} (l : list A) :
  (∀ x, p x = true ↔ P x) -> List.filter p l = filter P l.
Proof.
  intros Hp. induction l as [|x l IH]; [reflexivity|].
  cbn [List.filter]. rewrite filter_cons, IH.
  destruct (p x) eqn:E; destruct (decide (P x)) as [HP|HP]; try reflexivity.
  - apply Hp in E. contradiction.
  - apply Hp in HP. congruence.
Qed.

Lemma List_filter_all {A : Type} (p : A -> bool) (l : list A) :
  (∀ x, p x = true) -> List.filter p l = l.
Proof.
  intros Hp. induction l as [|x l IH]; [reflexivity|].
  cbn [List.filter]. rewrite Hp, IH. reflexivity.
Qed.

Lemma List_filter_partition {A : Type} (p : A -> bool) (l : list A) :
  List.filter (fun x => negb (p x)) l ++ List.filter p l ≡ₚ l.
Proof.
  induction l as [|x l IH]; [reflexivity|].
  cbn [List.filter]. destruct (p x); cbn [negb].
  - rewrite <- Permutation_middle. constructor. exact IH.
  - cbn [app]. constructor. exact IH.
Qed.

Lemma pop_push {A : Type} (x : A) (arr : list A) :
  pop (push x arr) = Some (x, arr).
Proof.
  unfold pop, push. rewrite rev_app_distr. cbn. rewrite rev_involutive.
  reflexivity.
Qed.

Lemma pop_nil {A : Type} : pop (@nil A) = None.
Proof. reflexivity. Qed.

Lemma pop_None {A : Type} (arr : list A) : pop arr = None -> arr = [].
Proof.
  unfold pop. destruct (rev arr) eqn:E; [|discriminate].
  intros _. apply (f_equal (@rev A)) in E. rewrite rev_involutive in E.
  exact E.
Qed.

(** ** Shuffling *)

Lemma insert_head_Permutation {A : Type} (t : list A) (j : nat) (h y : A) :
  t !! j = Some y -> y :: <[j := h]> t ≡ₚ h :: t.
Proof.
  revert j. induction t as [|a t IH]; intros j Hj; [discriminate|].
  destruct j as [|j]; cbn in *.
  - injection Hj as ->. apply Permutation_swap.
  - rewrite (Permutation_swap a y). rewrite (IH j Hj). apply Permutation_swap.
Qed.

Lemma swap_Permutation {A : Type} (a : list A) (i j : nat) : swap a i j ≡ₚ a.
Proof.
  unfold swap.
  destruct (a !! i) as [x|] eqn:Hi; [|reflexivity].
  destruct (a !! j) as [y|] eqn:Hj; [|reflexivity].
  revert i j Hi Hj. induction a as [|h t IH]; intros i j Hi Hj; [discriminate|].
  destruct i as [|i], j as [|j]; cbn in *.
  - injection Hi as ->. reflexivity.
  - injection Hi as ->. apply insert_head_Permutation. exact Hj.
  - injection Hj as ->. apply insert_head_Permutation. exact Hi.
  - constructor. apply IH; assumption.
Qed.

Lemma shuffleLoop_Permutation {A : Type} (draws : nat -> nat) (i : nat)
    (a : list A) :
  shuffleLoop draws i a ≡ₚ a.
Proof.
  revert a. induction i as [|i IH]; intros a; [reflexivity|].
  cbn [shuffleLoop]. rewrite IH. apply swap_Permutation.
Qed.

Lemma shuffleArray_Permutation {A : Type} (draws : nat -> nat) (arr : list A) :
  shuffleArray draws arr ≡ₚ arr.
Proof. apply shuffleLoop_Permutation. Qed.

(** ** Filtering *)

Lemma dimension_value (sel want have : string) :
  negb (sel =? "All")%string && negb (have =? want)%string = false ↔
  (sel = "All" ∨ have = want).
Proof.
  destruct (String.eqb_spec sel "All") as [E|E];
    destruct (String.eqb_spec have want) as [E'|E']; cbn;
    split; intros H; try reflexivity; try discriminate; auto.
  destruct H; contradiction.
Qed.

Lemma dimension_flag (sel on : string) (b : bool) (P : Prop) :
  (b = true ↔ P) ->
  (sel =? on)%string && negb b = false ↔ (sel = on -> P).
Proof.
  intros Hb. destruct (String.eqb_spec sel on) as [E|E]; destruct b; cbn;
    split; intros H; try reflexivity; try discriminate.
  - intros _. apply Hb. reflexivity.
  - apply H in E. apply Hb in E. discriminate.
  - intros E'. contradiction.
  - intros E'. contradiction.
Qed.

Lemma passesFilters_Matches f bookmarked q :
  passesFilters f bookmarked q = true ↔ Matches f bookmarked q.
Proof.
  unfold passesFilters, Matches.
  pose proof (dimension_value (f_category f) (f_category f) (category q))
    as H1.
  pose proof (dimension_value (f_subCategory f) (f_subCategory f)
                (subCategory q)) as H2.
  pose proof (dimension_flag (f_bookmarked f) "Bookmarked"
                (bool_decide (id q ∈ bookmarked)) (id q ∈ bookmarked)
                (bool_decide_eq_true _)) as H3.
  pose proof (dimension_flag (f_questionWithAsterisk f) "Yes"
                (questionWithAsterisk q =? "Yes")%string
                (questionWithAsterisk q = "Yes")
                (String.eqb_eq _ _)) as H4.
  pose proof (dimension_flag (f_civicsTestUpdates f) "Yes"
                (civicsTestUpdates q =? "Yes")%string
                (civicsTestUpdates q = "Yes")
                (String.eqb_eq _ _)) as H5.
  destruct (negb (f_category f =? "All") &&
            negb (category q =? f_category f))%string;
    [split; [discriminate | intros (M & _); apply H1 in M; discriminate]|].
  destruct (negb (f_subCategory f =? "All") &&
            negb (subCategory q =? f_subCategory f))%string;
    [split; [discriminate | intros (_ & M & _); apply H2 in M; discriminate]|].
  destruct ((f_bookmarked f =? "Bookmarked")%string &&
            negb (bool_decide (id q ∈ bookmarked)));
    [split; [discriminate
            | intros (_ & _ & M & _); apply H3 in M; discriminate]|].
  destruct ((f_questionWithAsterisk f =? "Yes")%string &&
            negb (questionWithAsterisk q =? "Yes")%string);
    [split; [discriminate
            | intros (_ & _ & _ & M & _); apply H4 in M; discriminate]|].
  destruct ((f_civicsTestUpdates f =? "Yes")%string &&
            negb (civicsTestUpdates q =? "Yes")%string);
    [split; [discriminate
            | intros (_ & _ & _ & _ & M); apply H5 in M; discriminate]|].
  split; [intros _ | reflexivity].
  repeat split; [apply H1 | apply H2 | apply H3 | apply H4 | apply H5];
    reflexivity.
Qed.

Lemma passesFilters_allDimensionsAll f bookmarked q :
  allDimensionsAll f -> passesFilters f bookmarked q = true.
Proof.
  intros (H1 & H2 & H3 & H4 & H5). apply passesFilters_Matches.
  unfold Matches. rewrite H1, H2, H3, H4, H5.
  repeat split; auto; discriminate.
Qed.

Lemma filteredQuestions_applyFilters draws s :
  filteredQuestions (applyFilters draws s) =
  let kept :=
    List.filter (passesFilters (filters s) (bookmarkedQuestions s))
      (questions s) in
  if f_shuffleUnasked (filters s)
  then shuffleUnasked draws (answeredQuestions s) kept
  else kept.
Proof. reflexivity. Qed.

(** C1. With shuffleUnasked off, [applyFilters] leaves in
    [filteredQuestions] exactly the records of [questions] that satisfy
    every active dimension (category, subCategory, bookmarked,
    questionWithAsterisk, civicsTestUpdates; a dimension at "All" being a
    no-op), each as often as it occurs in [questions] and in the order of
    [questions]; with every dimension at "All" the view is [questions]
    itself. *)
Theorem applyFilters_exact (draws : nat -> nat) (s : State) :
  f_shuffleUnasked (filters s) = false ->
  let out := filteredQuestions (applyFilters draws s) in
  out = filter (Matches (filters s) (bookmarkedQuestions s)) (questions s) ∧
  (∀ q, q ∈ out ↔
        q ∈ questions s ∧ Matches (filters s) (bookmarkedQuestions s) q) ∧
  out `sublist_of` questions s ∧
  (allDimensionsAll (filters s) -> out = questions s).
Proof.
  intros Hoff out.
  assert (Hout : out =
    filter (Matches (filters s) (bookmarkedQuestions s)) (questions s)).
  { subst out. rewrite filteredQuestions_applyFilters. cbv zeta.
    rewrite Hoff. apply List_filter_as_filter.
    intros q. apply passesFilters_Matches. }
  split; [exact Hout|]. split; [|split].
  - intros q. rewrite Hout, list_elem_of_filter. tauto.
  - rewrite Hout. apply sublist_filter.
  - intros Hall. subst out. rewrite filteredQuestions_applyFilters. cbv zeta.
    rewrite Hoff. apply List_filter_all.
    intros q. apply passesFilters_allDimensionsAll. exact Hall.
Qed.

(** C2. [shuffleUnasked] returns a permutation of its argument that ends
    with the records whose id is in the answered set, in the order they had
    in the argument, and begins with the records whose id is not in the
    answered set, in some order. *)
Theorem shuffleUnasked_partition (draws : nat -> nat) (answered : gset qid)
    (l : list Question) :
  let out := shuffleUnasked draws answered l in
  out ≡ₚ l ∧
  ∃ pre : list Question,
    out = pre ++ filter (λ q, id q ∈ answered) l ∧
    pre ≡ₚ filter (λ q, id q ∉ answered) l ∧
    Forall (λ q, id q ∉ answered) pre.
Proof.
  intros out. subst out. unfold shuffleUnasked.
  assert (Hasked :
    List.filter (fun q => bool_decide (id q ∈ answered)) l =
    filter (λ q, id q ∈ answered) l).
  { apply List_filter_as_filter. intros q. apply bool_decide_eq_true. }
  assert (Hunasked :
    List.filter (fun q => negb (bool_decide (id q ∈ answered))) l =
    filter (λ q, id q ∉ answered) l).
  { apply List_filter_as_filter. intros q.
    rewrite negb_true_iff. apply bool_decide_eq_false. }
  split.
  - rewrite shuffleArray_Permutation. apply List_filter_partition.
  - exists (shuffleArray draws
              (List.filter
                 (fun q => negb (bool_decide (id q ∈ answered))) l)).
    rewrite Hasked. split; [reflexivity|].
    assert (Hperm := shuffleArray_Permutation draws
              (List.filter
                 (fun q => negb (bool_decide (id q ∈ answered))) l)).
    rewrite Hunasked in Hperm at 2.
    split; [exact Hperm|].
    apply Forall_forall. intros q Hq.
    rewrite Hperm in Hq. apply list_elem_of_filter in Hq. tauto.
Qed.

(** ** Navigation *)

Lemma at_index_Num {A : Type} (arr : list A) (n : nat) :
  at_index arr (Num (Z.of_nat n)) = arr !! n.
Proof.
  unfold at_index. destruct (Z.leb_spec 0 (Z.of_nat n)); [|lia].
  rewrite Nat2Z.id. reflexivity.
Qed.

Lemma succ_mod_Num (n len : nat) :
  (0 < len)%nat ->
  succ_mod (Num (Z.of_nat n)) len = Num (Z.of_nat ((n + 1) mod len)).
Proof.
  intros Hlen. unfold succ_mod.
  destruct (Nat.eqb_spec len 0); [lia|].
  f_equal. rewrite Z.rem_mod_nonneg by lia.
  rewrite Nat2Z.inj_mod. f_equal. lia.
Qed.

Lemma length_nonempty {A : Type} (l : list A) : l ≠ [] -> (0 < length l)%nat.
Proof. destruct l; [congruence | cbn; lia]. Qed.

(** The reveal step: [nextQuestion] on a question whose answer is hidden. *)
Lemma nextQuestion_reveal (draw : nat) (s : State) :
  filteredQuestions s ≠ [] ->
  showAnswerFlag s = false ->
  nextQuestion draw s =
  markAnswered (at_index (filteredQuestions s) (currentIndex s))
    (set_showAnswerFlag true s).
Proof.
  intros Hview Hflag. unfold nextQuestion, toggleAnswer. rewrite Hflag.
  cbn [negb]. apply length_nonempty in Hview.
  destruct (Nat.eqb_spec (length (filteredQuestions s)) 0); [lia|].
  reflexivity.
Qed.

(** The replay step: a shown answer and a non-empty forward stack. *)
Lemma nextQuestion_replay (draw : nat) (s : State) (i : jsnum)
    (rest : list jsnum) :
  showAnswerFlag s = true ->
  historyForward s = push i rest ->
  nextQuestion draw s =
  set_showAnswerFlag false
    (set_currentIndex i
       (set_historyForward rest
          (set_historyBack (push (currentIndex s) (historyBack s)) s))).
Proof.
  intros Hflag Hfwd. unfold nextQuestion. rewrite Hflag, Hfwd, pop_push.
  reflexivity.
Qed.

(** The normal forward step: a shown answer and an empty forward stack. *)
Lemma nextQuestion_forward (draw : nat) (s : State) :
  showAnswerFlag s = true ->
  historyForward s = [] ->
  nextQuestion draw s =
  let s1 := set_historyBack (push (currentIndex s) (historyBack s)) s in
  set_showAnswerFlag false
    (set_historyForward [] (set_currentIndex (nextIndex draw s1) s1)).
Proof.
  intros Hflag Hfwd. unfold nextQuestion. rewrite Hflag, Hfwd. reflexivity.
Qed.

(** [prevQuestion] right after a move of [nextQuestion]. *)
Lemma prevQuestion_pushed (s : State) (i : jsnum) (rest : list jsnum) :
  historyBack s = push i rest ->
  prevQuestion s =
  set_showAnswerFlag false
    (set_currentIndex i
       (set_historyBack rest
          (set_historyForward (push (currentIndex s) (historyForward s)) s))).
Proof. intros Hback. unfold prevQuestion. rewrite Hback, pop_push. reflexivity. Qed.

Lemma reveal_then_move (view : list Question) (n d1 d2 : nat) (s : State) :
  (n < length view)%nat ->
  sequentialAt view n s ->
  let revealed := nextQuestion d1 s in
  let moved := nextQuestion d2 revealed in
  (currentIndex revealed = Num (Z.of_nat n) ∧
   showAnswerFlag revealed = true ∧
   ∃ q, view !! n = Some q ∧
        answeredQuestions revealed = answeredQuestions s ∪ {[id q]}) ∧
  sequentialAt view ((n + 1) mod length view) moved.
Proof.
  intros Hn (Hview & Hoff & Hidx & Hflag & Hfwd) revealed moved.
  assert (Hne : filteredQuestions s ≠ []).
  { rewrite Hview. destruct view; [cbn in Hn; lia | discriminate]. }
  destruct (lookup_lt_is_Some_2 view n Hn) as [q Hq].
  assert (Hrev : revealed =
    set_answeredQuestions (answeredQuestions s ∪ {[id q]})
      (set_showAnswerFlag true s)).
  { subst revealed. rewrite nextQuestion_reveal by assumption.
    rewrite Hidx, Hview, at_index_Num, Hq. reflexivity. }
  split.
  - rewrite Hrev. cbn. rewrite Hidx. split; [reflexivity|].
    split; [reflexivity|]. exists q. split; [exact Hq | reflexivity].
  - subst moved. rewrite nextQuestion_forward.
    2: { rewrite Hrev. reflexivity. }
    2: { rewrite Hrev. cbn. exact Hfwd. }
    rewrite Hrev. unfold sequentialAt, nextIndex. cbn.
    rewrite Hoff, Hidx, Hview.
    rewrite succ_mod_Num by lia. repeat split; reflexivity.
Qed.

Lemma nextQuestions_pairs (view : list Question) (k : nat) :
  ∀ (ds : list nat) (n : nat) (s : State),
    view ≠ [] ->
    (n < length view)%nat ->
    sequentialAt view n s ->
    length ds = (2 * k)%nat ->
    sequentialAt view ((n + k) mod length view) (nextQuestions ds s).
Proof.
  induction k as [|k IH]; intros ds n s Hne Hn Hs Hlen.
  - destruct ds; [|discriminate]. cbn.
    rewrite Nat.add_0_r, Nat.mod_small by exact Hn. exact Hs.
  - destruct ds as [|d1 [|d2 ds]]; cbn in Hlen; try lia.
    cbn [nextQuestions fold_left].
    destruct (reveal_then_move view n d1 d2 s Hn Hs) as [_ Hmoved].
    assert (Hlt : ((n + 1) mod length view < length view)%nat).
    { apply Nat.mod_upper_bound. lia. }
    specialize (IH ds _ _ Hne Hlt Hmoved ltac:(lia)).
    unfold nextQuestions in IH.
    replace ((n + S k) mod length view)%nat
      with (((n + 1) mod length view + k) mod length view)%nat.
    + exact IH.
    + rewrite Nat.Div0.add_mod_idemp_l. f_equal. lia.
Qed.

(** C3. On a non-empty view of [N] records with shuffleUnasked off, started
    at index 0 with the answer hidden and no forward history (the state
    [initHistory] leaves), and with nothing but calls of [nextQuestion]:
    after the first [2k] calls the index is [k mod N] and the answer is
    hidden; call [2k+1] shows the answer of that record, adds its id to
    [answeredQuestions] and keeps the index; call [2k+2] moves to
    [(index + 1) mod N] and hides the answer.  So the first [2N] calls go
    through 0, 1, ..., N-1 in reveal-then-move pairs and end at index 0. *)
Theorem nextQuestion_round_robin (s : State) (ds : list nat) (k d1 d2 : nat) :
  filteredQuestions s ≠ [] ->
  f_shuffleUnasked (filters s) = false ->
  currentIndex s = Num 0 ->
  showAnswerFlag s = false ->
  historyForward s = [] ->
  length ds = (2 * k)%nat ->
  let N := length (filteredQuestions s) in
  let before := nextQuestions ds s in
  let revealed := nextQuestion d1 before in
  let moved := nextQuestion d2 revealed in
  (filteredQuestions before = filteredQuestions s ∧
   currentIndex before = Num (Z.of_nat (k mod N)) ∧
   showAnswerFlag before = false) ∧
  (currentIndex revealed = currentIndex before ∧
   showAnswerFlag revealed = true ∧
   ∃ q, filteredQuestions s !! (k mod N)%nat = Some q ∧
        answeredQuestions revealed = answeredQuestions before ∪ {[id q]}) ∧
  (currentIndex moved =
     Num ((Z.of_nat (k mod N) + 1) mod Z.of_nat N) ∧
   showAnswerFlag moved = false) ∧
  ((k < N)%nat -> currentIndex before = Num (Z.of_nat k)) ∧
  (k = N -> currentIndex before = Num 0).
Proof.
  intros Hne Hoff Hidx Hflag Hfwd Hlen N before revealed moved.
  assert (HN : (0 < N)%nat) by (apply length_nonempty; exact Hne).
  assert (Hstart : sequentialAt (filteredQuestions s) 0 s).
  { unfold sequentialAt. rewrite Hidx. repeat split; assumption. }
  pose proof (nextQuestions_pairs (filteredQuestions s) k ds 0 s Hne HN
                Hstart Hlen) as Hbefore.
  cbn [Nat.add] in Hbefore. fold N before in Hbefore.
  assert (Hlt : (k mod N < N)%nat) by (apply Nat.mod_upper_bound; lia).
  destruct (reveal_then_move (filteredQuestions s) (k mod N) d1 d2 before
              Hlt Hbefore) as [(Hr1 & Hr2 & Hr3) Hmoved].
  fold revealed moved in Hr1, Hr2, Hr3, Hmoved.
  destruct Hbefore as (Hb1 & Hb2 & Hb3 & Hb4 & Hb5).
  destruct Hmoved as (Hm1 & Hm2 & Hm3 & Hm4 & Hm5).
  split; [repeat split; assumption|].
  split; [split; [congruence | split; assumption]|].
  split.
  - split; [|exact Hm4]. rewrite Hm3. fold N. f_equal.
    rewrite Nat2Z.inj_mod. f_equal. lia.
  - split.
    + intros Hk. rewrite Hb3, Nat.mod_small by exact Hk. reflexivity.
    + intros Hk. rewrite Hb3, Hk, Nat.Div0.mod_same. reflexivity.
Qed.

(** ** An invariant of the session: a shown answer belongs to a record *)

Lemma showAnswerFlag_applyFilters draws s :
  showAnswerFlag (applyFilters draws s) = false.
Proof. reflexivity. Qed.

Lemma showAnswerFlag_resetProgress draws s :
  showAnswerFlag (resetProgress draws s) = false.
Proof. unfold resetProgress. cbn. destruct (f_shuffleUnasked (filters s)); reflexivity. Qed.

Lemma showAnswerFlag_loadBookmarksFromStorage s :
  showAnswerFlag (loadBookmarksFromStorage s) = showAnswerFlag s.
Proof. reflexivity. Qed.

Lemma showAnswerFlag_pageLoaded MOCK name stored names fetched localJson rnd :
  showAnswerFlag (pageLoaded MOCK name stored names fetched localJson rnd)
  = false.
Proof.
  unfold pageLoaded. rewrite showAnswerFlag_loadBookmarksFromStorage.
  unfold initSheetsAndData. rewrite showAnswerFlag_resetProgress.
  reflexivity.
Qed.

Lemma hidden_shownOnlyOnRecord s :
  showAnswerFlag s = false -> shownOnlyOnRecord s.
Proof. unfold shownOnlyOnRecord. congruence. Qed.

Lemma toggleAnswer_shownOnlyOnRecord s :
  shownOnlyOnRecord s -> shownOnlyOnRecord (toggleAnswer s).
Proof.
  intros Hs. unfold toggleAnswer.
  destruct (Nat.eqb_spec (length (filteredQuestions s)) 0) as [E|E];
    [exact Hs|].
  assert (Hne : filteredQuestions s ≠ []).
  { intros H. rewrite H in E. cbn in E. lia. }
  cbn. destruct (negb (showAnswerFlag s)); unfold shownOnlyOnRecord.
  - destruct (at_index (filteredQuestions s) (currentIndex s));
      intros _; exact Hne.
  - intros _. exact Hne.
Qed.

Lemma nextQuestion_shownOnlyOnRecord draw s :
  shownOnlyOnRecord s -> shownOnlyOnRecord (nextQuestion draw s).
Proof.
  intros Hs. unfold nextQuestion.
  destruct (negb (showAnswerFlag s));
    [apply toggleAnswer_shownOnlyOnRecord; exact Hs|].
  destruct (pop (historyForward s)) as [[i rest]|];
    apply hidden_shownOnlyOnRecord; reflexivity.
Qed.

Lemma prevQuestion_shownOnlyOnRecord s :
  shownOnlyOnRecord s -> shownOnlyOnRecord (prevQuestion s).
Proof.
  intros Hs. unfold prevQuestion.
  destruct (pop (historyBack s)) as [[i rest]|]; [|exact Hs].
  apply hidden_shownOnlyOnRecord. reflexivity.
Qed.

Lemma validateCurrentQuestion_shownOnlyOnRecord back draw s :
  shownOnlyOnRecord s ->
  shownOnlyOnRecord (validateCurrentQuestion back draw s).
Proof.
  intros Hs. unfold validateCurrentQuestion.
  destruct (Nat.eqb (length (filteredQuestions s)) 0); [exact Hs|].
  destruct (at_index (filteredQuestions s) (currentIndex s)); [|exact Hs].
  destruct (negb (passesFilters _ _ _)); [|exact Hs].
  destruct back;
    [apply prevQuestion_shownOnlyOnRecord
    | apply nextQuestion_shownOnlyOnRecord]; exact Hs.
Qed.

Lemma handle_shownOnlyOnRecord MOCK (e : Event) (s : State) :
  shownOnlyOnRecord s -> shownOnlyOnRecord (handle MOCK e s).
Proof.
  intros Hs. destruct e; cbn [handle].
  - apply nextQuestion_shownOnlyOnRecord. exact Hs.
  - apply prevQuestion_shownOnlyOnRecord. exact Hs.
  - apply toggleAnswer_shownOnlyOnRecord. exact Hs.
  - unfold toggleBookmark.
    destruct (at_index (filteredQuestions s) (currentIndex s)); [|exact Hs].
    apply validateCurrentQuestion_shownOnlyOnRecord.
    apply hidden_shownOnlyOnRecord, showAnswerFlag_applyFilters.
  - unfold handleFilterChange. destruct dom; [|exact Hs].
    apply hidden_shownOnlyOnRecord, showAnswerFlag_applyFilters.
  - apply hidden_shownOnlyOnRecord, showAnswerFlag_applyFilters.
  - apply hidden_shownOnlyOnRecord, showAnswerFlag_applyFilters.
  - apply hidden_shownOnlyOnRecord, showAnswerFlag_resetProgress.
  - apply hidden_shownOnlyOnRecord, showAnswerFlag_applyFilters.
  - unfold handleBookmarkImport. destruct file; try exact Hs.
    destruct (negb _); [exact Hs|].
    apply hidden_shownOnlyOnRecord, showAnswerFlag_applyFilters.
  - apply hidden_shownOnlyOnRecord, showAnswerFlag_applyFilters.
Qed.

Lemma Reachable_shownOnlyOnRecord MOCK (s : State) :
  Reachable MOCK s -> shownOnlyOnRecord s.
Proof.
  induction 1 as [name stored names fetched localJson rnd | e s _ IH].
  - apply hidden_shownOnlyOnRecord. apply showAnswerFlag_pageLoaded.
  - apply handle_shownOnlyOnRecord. exact IH.
Qed.

Lemma Reachable_nextQuestion MOCK (draw : nat) (s : State) :
  Reachable MOCK s -> Reachable MOCK (nextQuestion draw s).
Proof. intros H. exact (reach_event MOCK (Next draw) s H). Qed.

Lemma Reachable_prevQuestion MOCK (s : State) :
  Reachable MOCK s -> Reachable MOCK (prevQuestion s).
Proof. intros H. exact (reach_event MOCK Prev s H). Qed.

Lemma Reachable_handleFilterChange MOCK target dom draws (s : State) :
  Reachable MOCK s -> Reachable MOCK (handleFilterChange target dom draws s).
Proof. intros H. exact (reach_event MOCK (FilterChange target dom draws) s H). Qed.

Lemma Reachable_sampleLoaded : Reachable sampleMock sampleLoaded.
Proof. exact (reach_load sampleMock "" ∅ None None None zeroRnd). Qed.

(** Back and forward again, from a state showing an answer on a non-empty
    view. *)
Lemma back_and_forth (s : State) (d1 d2 d3 : nat) :
  filteredQuestions s ≠ [] ->
  showAnswerFlag s = true ->
  let moved := nextQuestion d1 s in
  let back := prevQuestion moved in
  let shown := nextQuestion d2 back in
  let replayed := nextQuestion d3 shown in
  showAnswerFlag moved = false ∧
  (currentIndex back = currentIndex s ∧ showAnswerFlag back = false) ∧
  (currentIndex shown = currentIndex s ∧ showAnswerFlag shown = true) ∧
  (currentIndex replayed = currentIndex moved ∧
   showAnswerFlag replayed = false).
Proof.
  intros Hne Hflag moved back shown replayed.
  assert (Hmoved : showAnswerFlag moved = false ∧
                   filteredQuestions moved = filteredQuestions s ∧
                   historyBack moved = push (currentIndex s) (historyBack s)).
  { subst moved. unfold nextQuestion. rewrite Hflag. cbn [negb].
    destruct (pop (historyForward s)) as [[i rest]|]; cbn; auto. }
  destruct Hmoved as (Hm1 & Hm2 & Hm3).
  assert (Hback : back =
    set_showAnswerFlag false
      (set_currentIndex (currentIndex s)
         (set_historyBack (historyBack s)
            (set_historyForward
               (push (currentIndex moved) (historyForward moved)) moved)))).
  { subst back. apply prevQuestion_pushed. exact Hm3. }
  assert (Hshown : shown =
    markAnswered (at_index (filteredQuestions back) (currentIndex back))
      (set_showAnswerFlag true back)).
  { subst shown. apply nextQuestion_reveal.
    - rewrite Hback. cbn. rewrite Hm2. exact Hne.
    - rewrite Hback. reflexivity. }
  assert (Hshown' : currentIndex shown = currentIndex s ∧
                    showAnswerFlag shown = true ∧
                    historyForward shown =
                      push (currentIndex moved) (historyForward moved)).
  { rewrite Hshown.
    destruct (at_index (filteredQuestions back) (currentIndex back));
      rewrite Hback; cbn; auto. }
  destruct Hshown' as (Hs1 & Hs2 & Hs3).
  split; [exact Hm1|].
  split; [rewrite Hback; cbn; auto|].
  split; [auto|].
  subst replayed. rewrite (nextQuestion_replay d3 shown _ _ Hs2 Hs3).
  cbn. auto.
Qed.

(** C4 (as amended).  In every reachable state that shows an answer,
    [prevQuestion] right after the move made by [nextQuestion] brings back
    the index held before the move, with the answer hidden; the forward
    replay then takes two calls of [nextQuestion]: the first shows the
    answer at the restored index without moving, the second returns to the
    index that was current before the back-step, with the answer hidden. *)
Theorem prevQuestion_restores_then_replay MOCK (s : State) (d1 d2 d3 : nat) :
  Reachable MOCK s ->
  showAnswerFlag s = true ->
  let moved := nextQuestion d1 s in
  let back := prevQuestion moved in
  let shown := nextQuestion d2 back in
  let replayed := nextQuestion d3 shown in
  showAnswerFlag moved = false ∧
  (currentIndex back = currentIndex s ∧ showAnswerFlag back = false) ∧
  (currentIndex shown = currentIndex s ∧ showAnswerFlag shown = true) ∧
  (currentIndex replayed = currentIndex moved ∧
   showAnswerFlag replayed = false).
Proof.
  intros Hreach Hflag. apply back_and_forth; [|exact Hflag].
  apply (Reachable_shownOnlyOnRecord MOCK s Hreach Hflag).
Qed.

(** C4, the claim as it stands: after the back-step a single call of
    [nextQuestion] does not return to the index left by the back-step; it
    shows the answer and stays.  Here on the five sample records, after one
    reveal at index 0. *)
Lemma single_call_after_back_only_reveals :
  let s := nextQuestion 0 sampleLoaded in
  let moved := nextQuestion 0 s in
  let back := prevQuestion moved in
  let again := nextQuestion 0 back in
  Reachable sampleMock s ∧ showAnswerFlag s = true ∧
  currentIndex s = Num 0 ∧ currentIndex moved = Num 1 ∧
  currentIndex back = Num 0 ∧ showAnswerFlag back = false ∧
  currentIndex again = Num 0 ∧ showAnswerFlag again = true ∧
  currentIndex again ≠ currentIndex moved.
Proof.
  cbv zeta. split.
  - apply Reachable_nextQuestion. exact Reachable_sampleLoaded.
  - vm_compute. repeat split; try reflexivity. discriminate.
Qed.

(** ** Progress *)

(** Nothing answered is 0 percent of any total. *)
Lemma round_percent_none (t : nat) : t ≠ 0%nat -> round_percent 0 t = 0.
Proof. destruct t; [contradiction | reflexivity]. Qed.

(** Everything answered, once or twice over, on small totals; and two
    totals where the two roundings of the quotient show. *)
Lemma round_percent_doubles :
  Forall (λ t, round_percent t t = 100 ∧ round_percent (2 * t) t = 200)
    (seq 1 128) ∧
  round_percent 23 40 = 57 ∧ round_percent 29 200 = 14 ∧
  round_percent 1 3 = 33 ∧ round_percent 1 8 = 13.
Proof.
  split; [|vm_compute; repeat split].
  apply Forall_forall. intros t Ht.
  repeat (apply elem_of_cons in Ht as [-> | Ht];
          [vm_compute; split; reflexivity|]).
  apply elem_of_nil in Ht. contradiction.
Qed.

Lemma updateProgress_fields (s : State) :
  total (updateProgress s) = length (filteredQuestions s) ∧
  answered (updateProgress s) = size (answeredQuestions s) ∧
  percent (updateProgress s) =
    if Nat.eqb (length (filteredQuestions s)) 0 then 0
    else round_percent (size (answeredQuestions s))
           (length (filteredQuestions s)).
Proof. repeat split. Qed.

(** The state of the example for C5: on the five sample records the answers
    of ids 1 and 3 are shown, then the category select is set to
    "Integrated Civics". *)
Lemma two_answered_then_filtered :
  let s3 := nextQuestion 0 (nextQuestion 0 (nextQuestion 0 sampleLoaded)) in
  let s := handleFilterChange CategoryFilter
             (Some (mkSelects "Integrated Civics" "All" "All" "All" "All"))
             zeroDraws s3 in
  Reachable sampleMock s ∧
  filteredQuestions s = [mock99] ∧
  answeredQuestions s = {[IdNum 1; IdNum 3]}.
Proof.
  cbv zeta. split.
  - apply Reachable_handleFilterChange.
    do 3 apply Reachable_nextQuestion. exact Reachable_sampleLoaded.
  - split; vm_compute; reflexivity.
Qed.

(** C5, the code at that state: [updateProgress] reports
    [answeredQuestions.size], the count of all answered ids, so a view of one
    unanswered record is shown as total 1, answered 2, 200 percent, where the
    count over the view is 0. *)
Theorem updateProgress_counts_all_answered :
  let s3 := nextQuestion 0 (nextQuestion 0 (nextQuestion 0 sampleLoaded)) in
  let s := handleFilterChange CategoryFilter
             (Some (mkSelects "Integrated Civics" "All" "All" "All" "All"))
             zeroDraws s3 in
  updateProgress s = mkProgress 1 2 200 ∧
  answeredInView (answeredQuestions s) (filteredQuestions s) = 0%nat ∧
  answered (updateProgress s) ≠
    answeredInView (answeredQuestions s) (filteredQuestions s).
Proof.
  cbv zeta. vm_compute. repeat split; try reflexivity. discriminate.
Qed.

(** ** The index kept by [applyFilters] *)

Lemma at_index_elem_of {A : Type} (arr : list A) (i : jsnum) (x : A) :
  at_index arr i = Some x -> x ∈ arr.
Proof.
  unfold at_index. destruct i as [z|]; [|discriminate].
  destruct (0 <=? z)%Z; [|discriminate].
  intros E. apply list_elem_of_lookup. eauto.
Qed.

(** The index is kept when it addresses a record of the new view and is 0
    otherwise; which record was current plays no part. *)
Lemma retainedIndex_position (view : list Question) (i : jsnum) :
  retainedIndex view i =
  match at_index view i with
  | Some _ => i
  | None => Num 0
  end.
Proof.
  unfold retainedIndex.
  destruct (at_index view i) as [q|] eqn:E.
  - rewrite (bool_decide_eq_true_2 _ (at_index_elem_of _ _ _ E)). cbn.
    destruct view as [|q0 view]; [|reflexivity].
    apply at_index_elem_of in E. inversion E.
  - destruct (0 <? length view)%nat; reflexivity.
Qed.

Lemma currentIndex_applyFilters draws s :
  currentIndex (applyFilters draws s) =
  retainedIndex (filteredQuestions (applyFilters draws s)) (currentIndex s).
Proof. reflexivity. Qed.

(** C6, the code on two filter changes over the five sample records.  With
    record 3 current (index 1), choosing "American History" gives the view
    [62; 66]: record 3 is gone, yet the index stays 1 and now shows record
    66.  With record 66 current (index 3), the same choice keeps record 66
    in the view at position 1, yet the index is reset to 0, record 62. *)
Theorem applyFilters_keeps_position_not_question :
  let history := Some (mkSelects "American History" "All" "All" "All" "All") in
  let at3 := nextQuestion 0 (nextQuestion 0 sampleLoaded) in
  let at66 := nextQuestions [0; 0; 0; 0; 0; 0]%nat sampleLoaded in
  let gone := handleFilterChange CategoryFilter history zeroDraws at3 in
  let kept := handleFilterChange CategoryFilter history zeroDraws at66 in
  (at_index (filteredQuestions at3) (currentIndex at3) = Some mock3 ∧
   filteredQuestions gone = [mock62; mock66] ∧
   currentIndex gone = Num 1 ∧
   at_index (filteredQuestions gone) (currentIndex gone) = Some mock66) ∧
  (at_index (filteredQuestions at66) (currentIndex at66) = Some mock66 ∧
   filteredQuestions kept = [mock62; mock66] ∧
   currentIndex kept = Num 0 ∧
   at_index (filteredQuestions kept) (currentIndex kept) = Some mock62).
Proof. cbv zeta. vm_compute. repeat split; reflexivity. Qed.

(** ** Bookmark import *)

(** C7 (as amended).  When the set name of a well-formed payload and the
    active sheet name, each read as "unknown" when empty or absent, differ,
    the import ends in the set-mismatch branch and changes nothing: the
    whole state, bookmarks and stored bookmarks included, is as before. *)
Theorem import_set_mismatch_no_mutation (set : string) (bookmarks : list qid)
    (draws : nat -> nat) (s : State) :
  or_unknown set ≠ or_unknown (sheetName s) ->
  handleBookmarkImport (Payload set bookmarks) draws s = (SetMismatch, s).
Proof.
  intros Hne. unfold handleBookmarkImport.
  destruct (String.eqb_spec (or_unknown set) (or_unknown (sheetName s)));
    [contradiction | reflexivity].
Qed.

(** C7 at the scenario of the specification: set "2008", bookmarks 2 and 5,
    active sheet "2020". *)
Lemma import_2008_into_2020 :
  or_unknown "2008" ≠ or_unknown (sheetName sheet2020) ∧
  handleBookmarkImport (Payload "2008" [IdNum 2; IdNum 5]) zeroDraws sheet2020
  = (SetMismatch, sheet2020).
Proof.
  split.
  - vm_compute. discriminate.
  - apply (import_set_mismatch_no_mutation "2008" [IdNum 2; IdNum 5]
             zeroDraws sheet2020).
    vm_compute. discriminate.
Defined.

(** C7, the claim as it stands: two payloads whose set name differs from the
    active sheet name and whose bookmarks are merged all the same, because
    an empty name reads as "unknown".  First the file that [exportBookmarks]
    writes under the configuration of config/config.js (no sheet name),
    then a file with an empty set name on a sheet named "unknown". *)
Lemma import_merges_when_names_differ :
  let ids := [IdNum 2; IdNum 5] in
  let r1 := handleBookmarkImport (Payload "unknown" ids) zeroDraws
              sampleLoaded in
  let r2 := handleBookmarkImport (Payload "" ids) zeroDraws sheetUnknown in
  ("unknown" ≠ sheetName sampleLoaded ∧
   bookmarkedQuestions sampleLoaded = ∅ ∧
   fst r1 = Imported ∧
   bookmarkedQuestions (snd r1) = {[IdNum 2; IdNum 5]}) ∧
  ("" ≠ sheetName sheetUnknown ∧
   bookmarkedQuestions sheetUnknown = ∅ ∧
   fst r2 = Imported ∧
   bookmarkedQuestions (snd r2) = {[IdNum 2; IdNum 5]}).
Proof.
  cbv zeta. vm_compute. repeat split; try reflexivity; discriminate.
Qed.

(** ** Loading *)

Lemma questions_applyFilters draws s :
  questions (applyFilters draws s) = questions s.
Proof. reflexivity. Qed.

Lemma questions_resetFilters draws s :
  questions (resetFilters draws s) = questions s.
Proof. reflexivity. Qed.

Lemma questions_resetBookmarks draws s :
  questions (resetBookmarks draws s) = questions s.
Proof. reflexivity. Qed.

Lemma questions_resetProgress draws s :
  questions (resetProgress draws s) = questions s.
Proof.
  unfold resetProgress. cbn.
  destruct (f_shuffleUnasked (filters s)); reflexivity.
Qed.

Lemma questions_initializeBookmarks s :
  questions (initializeBookmarks s) = questions s.
Proof. reflexivity. Qed.

Lemma questions_loadBookmarksFromStorage s :
  questions (loadBookmarksFromStorage s) = questions s.
Proof. reflexivity. Qed.

Lemma questions_initSheetsAndData MOCK names fetched localJson rnd s :
  questions (initSheetsAndData MOCK names fetched localJson rnd s) =
  loadQuestions MOCK fetched localJson (initSheetsDropdown names s).
Proof.
  unfold initSheetsAndData.
  rewrite questions_resetProgress, questions_resetBookmarks,
    questions_resetFilters, questions_applyFilters,
    questions_initializeBookmarks.
  reflexivity.
Qed.

Lemma questions_sheetSelectorChange MOCK value fetched rnd s :
  questions (sheetSelectorChange MOCK value fetched rnd s) =
  loadQuestionsFromSelectedSheet MOCK fetched (set_sheetName value s).
Proof.
  unfold sheetSelectorChange.
  rewrite questions_applyFilters, questions_resetProgress,
    questions_resetBookmarks, questions_resetFilters,
    questions_initializeBookmarks.
  reflexivity.
Qed.

Lemma loadQuestions_sheet MOCK recs localJson s :
  sheetName s ≠ "" -> recs ≠ [] ->
  loadQuestions MOCK (Some recs) localJson s = recs.
Proof.
  intros Hname Hrecs. unfold loadQuestions, loadQuestionsFromSelectedSheet.
  destruct (String.eqb_spec (sheetName s) ""); [contradiction|].
  destruct recs; [contradiction | reflexivity].
Qed.

Lemma loadQuestions_localJson MOCK recs s :
  sheetName s ≠ "" -> recs ≠ [] ->
  loadQuestions MOCK (Some []) (Some recs) s = recs.
Proof.
  intros Hname Hrecs. unfold loadQuestions, loadQuestionsFromSelectedSheet.
  destruct (String.eqb_spec (sheetName s) ""); [contradiction|].
  destruct recs; [contradiction | reflexivity].
Qed.

Lemma loadQuestions_mock MOCK fetched localJson s :
  sheetName s = "" ∨ fetched = None ∨
  (fetched = Some [] ∧ (localJson = None ∨ localJson = Some [])) ->
  MOCK ≠ [] ->
  loadQuestions MOCK fetched localJson s = MOCK.
Proof.
  intros Hcase Hmock. unfold loadQuestions, loadQuestionsFromSelectedSheet.
  destruct MOCK as [|m MOCK]; [contradiction|].
  destruct (String.eqb_spec (sheetName s) ""); [reflexivity|].
  destruct Hcase as [H | [-> | [-> [-> | ->]]]];
    [contradiction | reflexivity..].
Qed.

(** C8 (as amended).  Loading never rejects a record list.  The page load
    stores, wholesale and without looking at the ids, the records of the
    sheet when there are some, else those of data/questions.json when there
    are some, else [MOCK_QUESTIONS]; the sheet selector stores, in the same
    way, the records of the chosen sheet when there are some. *)
Theorem load_stores_records_unchecked MOCK (name : string)
    (stored : gset qid) (names : option (list string))
    (fetched localJson : option (list Question)) (rnd : nat -> nat -> nat) :
  let s0 := initSheetsDropdown names (initialState name stored) in
  let loaded := pageLoaded MOCK name stored names fetched localJson rnd in
  (∀ recs, sheetName s0 ≠ "" -> recs ≠ [] -> fetched = Some recs ->
           questions loaded = recs) ∧
  (∀ recs, sheetName s0 ≠ "" -> recs ≠ [] -> fetched = Some [] ->
           localJson = Some recs -> questions loaded = recs) ∧
  (sheetName s0 = "" ∨ fetched = None ∨
   (fetched = Some [] ∧ (localJson = None ∨ localJson = Some [])) ->
   MOCK ≠ [] -> questions loaded = MOCK) ∧
  (∀ value recs rnd' s, value ≠ "" -> recs ≠ [] ->
     questions (sheetSelectorChange MOCK value (Some recs) rnd' s) = recs).
Proof.
  intros s0 loaded.
  assert (Hq : questions loaded = loadQuestions MOCK fetched localJson s0).
  { subst loaded. unfold pageLoaded.
    rewrite questions_loadBookmarksFromStorage.
    apply questions_initSheetsAndData. }
  repeat split.
  - intros recs Hname Hrecs ->. rewrite Hq.
    apply loadQuestions_sheet; assumption.
  - intros recs Hname Hrecs -> ->. rewrite Hq.
    apply loadQuestions_localJson; assumption.
  - intros Hcase Hmock. rewrite Hq. apply loadQuestions_mock; assumption.
  - intros value recs rnd' s Hvalue _. rewrite questions_sheetSelectorChange.
    unfold loadQuestionsFromSelectedSheet. cbn [sheetName set_sheetName].
    destruct (String.eqb_spec value ""); [contradiction | reflexivity].
Qed.

(** C8, the claim as it stands: two records with the same id, read from
    data/questions.json because the sheet "2020" has no rows, are stored
    and shown without any failure. *)
Lemma duplicate_ids_are_stored :
  let loaded :=
    pageLoaded sampleMock "2020" ∅ None (Some []) (Some twins) zeroRnd in
  map id twins = [IdNum 1; IdNum 1] ∧ ¬ NoDup (map id twins) ∧
  questions loaded = twins ∧ filteredQuestions loaded = twins.
Proof.
  cbv zeta. split; [reflexivity | split].
  - intros H. inversion H as [|x l Hx _]; subst. apply Hx. left.
  - vm_compute. split; reflexivity.
Qed.

(** C8 on an instance: the twins are stored from the sheet, from
    data/questions.json and through the sheet selector, and the built-in
    table is stored when nothing else is there. *)
Lemma load_stores_twins :
  (questions (pageLoaded sampleMock "2020" ∅ None (Some twins) None zeroRnd)
   = twins) ∧
  (questions
     (pageLoaded sampleMock "2020" ∅ None (Some []) (Some twins) zeroRnd)
   = twins) ∧
  (questions (pageLoaded sampleMock "2020" ∅ None None None zeroRnd)
   = sampleMock) ∧
  (questions
     (sheetSelectorChange sampleMock "2020" (Some twins) zeroRnd sampleLoaded)
   = twins).
Proof.
  pose proof (load_stores_records_unchecked sampleMock "2020" ∅ None
                (Some twins) None zeroRnd) as (H1 & _ & _ & H4).
  pose proof (load_stores_records_unchecked sampleMock "2020" ∅ None
                (Some []) (Some twins) zeroRnd) as (_ & H2 & _ & _).
  pose proof (load_stores_records_unchecked sampleMock "2020" ∅ None
                None None zeroRnd) as (_ & _ & H3 & _).
  split; [|split; [|split]].
  - apply H1; [vm_compute; discriminate | discriminate | reflexivity].
  - apply H2;
      [vm_compute; discriminate | discriminate | reflexivity | reflexivity].
  - apply H3; [right; left; reflexivity | discriminate].
  - apply H4; discriminate.
Defined.

(** ** Filter changes *)

Lemma filters_applyFilters draws s :
  filters (applyFilters draws s) = filters s.
Proof. reflexivity. Qed.

Lemma filters_resetProgress draws s :
  filters (resetProgress draws s) = filters s.
Proof.
  unfold resetProgress. cbn.
  destruct (f_shuffleUnasked (filters s)); reflexivity.
Qed.

Lemma filters_toggleAnswer s : filters (toggleAnswer s) = filters s.
Proof.
  unfold toggleAnswer.
  destruct (Nat.eqb (length (filteredQuestions s)) 0); [reflexivity|].
  cbn. destruct (negb (showAnswerFlag s)); [|reflexivity].
  destruct (at_index (filteredQuestions s) (currentIndex s)); reflexivity.
Qed.

Lemma filters_nextQuestion draw s : filters (nextQuestion draw s) = filters s.
Proof.
  unfold nextQuestion.
  destruct (negb (showAnswerFlag s)); [apply filters_toggleAnswer|].
  destruct (pop (historyForward s)) as [[i rest]|]; reflexivity.
Qed.

Lemma filters_prevQuestion s : filters (prevQuestion s) = filters s.
Proof.
  unfold prevQuestion.
  destruct (pop (historyBack s)) as [[i rest]|]; reflexivity.
Qed.

Lemma filters_validateCurrentQuestion back draw s :
  filters (validateCurrentQuestion back draw s) = filters s.
Proof.
  unfold validateCurrentQuestion.
  destruct (Nat.eqb (length (filteredQuestions s)) 0); [reflexivity|].
  destruct (at_index (filteredQuestions s) (currentIndex s)); [|reflexivity].
  destruct (negb (passesFilters _ _ _)); [|reflexivity].
  destruct back; [apply filters_prevQuestion | apply filters_nextQuestion].
Qed.

Lemma filters_toggleBookmark draws draw s :
  filters (toggleBookmark draws draw s) = filters s.
Proof.
  unfold toggleBookmark.
  destruct (at_index (filteredQuestions s) (currentIndex s)); [|reflexivity].
  rewrite filters_validateCurrentQuestion. reflexivity.
Qed.

Lemma filters_handleBookmarkImport file draws s :
  filters (snd (handleBookmarkImport file draws s)) = filters s.
Proof.
  unfold handleBookmarkImport. destruct file; try reflexivity.
  destruct (negb _); reflexivity.
Qed.

Lemma filters_sheetSelectorChange MOCK value fetched rnd s :
  f_subCategory (filters (sheetSelectorChange MOCK value fetched rnd s))
  = "All".
Proof.
  unfold sheetSelectorChange.
  rewrite filters_applyFilters, filters_resetProgress.
  unfold resetBookmarks. rewrite filters_applyFilters.
  cbn [saveBookmarks set_storedBookmarks set_bookmarkedQuestions filters].
  unfold resetFilters. rewrite filters_applyFilters. reflexivity.
Qed.

(** C9.  The change event of the category select leaves
    [filters.subCategory] at "All" whatever subcategory was chosen before
    and whatever the subcategory select shows, with [filters.category] at
    the chosen value; and no handler of the page changes
    [filters.category] without leaving [filters.subCategory] at "All". *)
Theorem category_change_resets_subCategory MOCK (s : State) :
  (∀ (v : Selects) (draws : nat -> nat),
     let s' := handleFilterChange CategoryFilter (Some v) draws s in
     f_category (filters s') = cat_value v ∧
     f_subCategory (filters s') = "All") ∧
  (∀ e : Event,
     selectsInSync e s ->
     f_category (filters (handle MOCK e s)) ≠ f_category (filters s) ->
     f_subCategory (filters (handle MOCK e s)) = "All").
Proof.
  split.
  - intros v draws s'. subst s'. unfold handleFilterChange.
    rewrite filters_applyFilters. split; reflexivity.
  - intros e Hsync Hchanged. destruct e; cbn [handle] in *.
    + rewrite filters_nextQuestion in Hchanged. contradiction.
    + rewrite filters_prevQuestion in Hchanged. contradiction.
    + rewrite filters_toggleAnswer in Hchanged. contradiction.
    + rewrite filters_toggleBookmark in Hchanged. contradiction.
    + unfold handleFilterChange in *. destruct dom as [v|];
        [|contradiction].
      rewrite filters_applyFilters in *.
      destruct target; try reflexivity;
        cbn in Hchanged, Hsync; exfalso; apply Hchanged, Hsync; discriminate.
    + unfold shuffleButtonClick in Hchanged.
      rewrite filters_applyFilters in Hchanged. cbn in Hchanged.
      contradiction.
    + unfold resetFilters. rewrite filters_applyFilters. reflexivity.
    + rewrite filters_resetProgress in Hchanged. contradiction.
    + unfold resetBookmarks in Hchanged.
      rewrite filters_applyFilters in Hchanged. cbn in Hchanged.
      contradiction.
    + rewrite filters_handleBookmarkImport in Hchanged. contradiction.
    + apply filters_sheetSelectorChange.
Qed.

(** C9 on the scenario of the specification: a subcategory is in force, the
    category select goes from "All" to "American History" while the
    subcategory select still shows the old choice. *)
Lemma category_change_resets_chosen_subCategory :
  let e := FilterChange CategoryFilter
             (Some (mkSelects "American History"
                      "A: Principles of American Government" "All" "All"
                      "All")) zeroDraws in
  f_category (filters subCategoryChosen) = "All" ∧
  f_subCategory (filters subCategoryChosen) =
    "A: Principles of American Government" ∧
  f_subCategory (filters (handle sampleMock e subCategoryChosen)) = "All".
Proof.
  cbv zeta. split; [reflexivity|]. split; [reflexivity|].
  pose proof (category_change_resets_subCategory sampleMock subCategoryChosen)
    as [_ H].
  apply H.
  - cbn. intros Habs. contradiction.
  - vm_compute. discriminate.
Defined.

(** ** Bookmark toggle *)

Lemma at_index_nil {A : Type} (i : jsnum) : at_index (@nil A) i = None.
Proof. destruct i as [z|]; [|reflexivity]. cbn. destruct (0 <=? z)%Z; reflexivity. Qed.

(** C10.  When the view is empty, or when [currentIndex] addresses no
    record of it, [toggleBookmark] returns at its first test: the state,
    and with it the bookmarks, the answered ids, the index and the answer
    flag, is the one it was called in. *)
Theorem toggleBookmark_without_record (draws : nat -> nat) (draw : nat)
    (s : State) :
  filteredQuestions s = [] ∨
  at_index (filteredQuestions s) (currentIndex s) = None ->
  toggleBookmark draws draw s = s ∧
  bookmarkedQuestions (toggleBookmark draws draw s) = bookmarkedQuestions s ∧
  answeredQuestions (toggleBookmark draws draw s) = answeredQuestions s ∧
  currentIndex (toggleBookmark draws draw s) = currentIndex s ∧
  showAnswerFlag (toggleBookmark draws draw s) = showAnswerFlag s.
Proof.
  intros Hnone.
  assert (Hat : at_index (filteredQuestions s) (currentIndex s) = None).
  { destruct Hnone as [Hempty | Hat]; [|exact Hat].
    rewrite Hempty. apply at_index_nil. }
  assert (Hsame : toggleBookmark draws draw s = s).
  { unfold toggleBookmark. rewrite Hat. reflexivity. }
  rewrite Hsame. repeat split.
Qed.

(** C10 on an empty view. *)
Lemma toggleBookmark_on_empty_view :
  filteredQuestions nothingBookmarked = [] ∧
  toggleBookmark zeroDraws 0 nothingBookmarked = nothingBookmarked.
Proof.
  assert (Hempty : filteredQuestions nothingBookmarked = []).
  { vm_compute. reflexivity. }
  split; [exact Hempty|].
  apply (toggleBookmark_without_record zeroDraws 0 nothingBookmarked).
  left. exact Hempty.
Defined.

(** ** Instances *)

(** C1 on the sample page with "American History" chosen. *)
Lemma applyFilters_exact_history :
  f_shuffleUnasked (filters historyChosen) = false ∧
  filteredQuestions (applyFilters zeroDraws historyChosen) =
    filter (Matches (filters historyChosen)
              (bookmarkedQuestions historyChosen))
      (questions historyChosen) ∧
  filteredQuestions (applyFilters zeroDraws historyChosen) = [mock62; mock66].
Proof.
  assert (Hoff : f_shuffleUnasked (filters historyChosen) = false).
  { vm_compute. reflexivity. }
  split; [exact Hoff|]. split.
  - apply (applyFilters_exact zeroDraws historyChosen Hoff).
  - vm_compute. reflexivity.
Defined.

(** C3 on the scenario of the specification: three records with the ids 1,
    2 and 3, none answered; the first call shows the answer of id 1, the
    second moves to index 1. *)
Lemma round_robin_three_cards :
  let revealed := nextQuestion 0 threeCardsLoaded in
  let moved := nextQuestion 0 revealed in
  map id (filteredQuestions threeCardsLoaded) = [IdNum 1; IdNum 2; IdNum 3] ∧
  answeredQuestions threeCardsLoaded = ∅ ∧
  (currentIndex revealed = currentIndex threeCardsLoaded ∧
   showAnswerFlag revealed = true ∧
   answeredQuestions revealed = {[IdNum 1]}) ∧
  (currentIndex moved = Num 1 ∧ showAnswerFlag moved = false).
Proof.
  cbv zeta.
  assert (Hne : filteredQuestions threeCardsLoaded ≠ []).
  { vm_compute. discriminate. }
  assert (Hoff : f_shuffleUnasked (filters threeCardsLoaded) = false).
  { vm_compute. reflexivity. }
  assert (Hidx : currentIndex threeCardsLoaded = Num 0).
  { vm_compute. reflexivity. }
  assert (Hflag : showAnswerFlag threeCardsLoaded = false).
  { vm_compute. reflexivity. }
  assert (Hfwd : historyForward threeCardsLoaded = []).
  { vm_compute. reflexivity. }
  pose proof (nextQuestion_round_robin threeCardsLoaded [] 0 0 0
                Hne Hoff Hidx Hflag Hfwd eq_refl) as H.
  cbv zeta in H. cbn [nextQuestions fold_left] in H.
  destruct H as (_ & (Hr1 & Hr2 & _) & (Hm1 & Hm2) & _).
  split; [vm_compute; reflexivity|].
  split; [vm_compute; reflexivity|].
  split.
  - split; [exact Hr1|]. split; [exact Hr2|]. vm_compute. reflexivity.
  - split; [|exact Hm2]. rewrite Hm1. vm_compute. reflexivity.
Defined.

(** C4 on the sample page, after one reveal at index 0. *)
Lemma back_then_two_calls_replay :
  let s := nextQuestion 0 sampleLoaded in
  let moved := nextQuestion 0 s in
  let back := prevQuestion moved in
  let shown := nextQuestion 0 back in
  let replayed := nextQuestion 0 shown in
  showAnswerFlag s = true ∧
  currentIndex moved = Num 1 ∧
  (currentIndex back = currentIndex s ∧ showAnswerFlag back = false) ∧
  (currentIndex shown = currentIndex s ∧ showAnswerFlag shown = true) ∧
  (currentIndex replayed = currentIndex moved ∧
   showAnswerFlag replayed = false).
Proof.
  cbv zeta.
  assert (Hflag : showAnswerFlag (nextQuestion 0 sampleLoaded) = true).
  { vm_compute. reflexivity. }
  pose proof (prevQuestion_restores_then_replay sampleMock
                (nextQuestion 0 sampleLoaded) 0 0 0
                (Reachable_nextQuestion sampleMock 0 sampleLoaded
                   Reachable_sampleLoaded) Hflag) as H.
  cbv zeta in H. destruct H as (_ & Hb & Hs & Hr).
  split; [exact Hflag|]. split; [vm_compute; reflexivity|].
  split; [exact Hb|]. split; [exact Hs | exact Hr].
Defined.

(** ** Ids of the records of a sheet *)

Lemma ids_imap_rowToQuestion trim lower (rows : list (list string)) :
  ∀ k : nat,
    map id (imap (fun i => rowToQuestion trim lower (k + i)) rows) =
    map (fun i => IdNum (Z.of_nat i + 1)) (seq k (length rows)).
Proof.
  induction rows as [|row rows IH]; intros k; [reflexivity|].
  cbn [imap map length seq]. f_equal.
  - cbn. rewrite Nat.add_0_r. reflexivity.
  - rewrite <- (IH (S k)). f_equal. apply imap_ext.
    intros i x _. cbn. f_equal. lia.
Qed.

(** The records [transformSheetsData] returns carry pairwise distinct ids:
    two records with one id can only come from data/questions.json. *)
Lemma transformSheetsData_NoDup trim lower values :
  NoDup (map id (transformSheetsData trim lower values)).
Proof.
  unfold transformSheetsData. destruct values as [rows|]; [|constructor].
  destruct (length rows <? 1)%nat; [constructor|]. cbv zeta.
  set (dataRows := if (1 <? length rows)%nat then drop 1 rows else rows).
  apply (sublist_NoDup _ (map id (imap (rowToQuestion trim lower) dataRows))).
  - pose proof (ids_imap_rowToQuestion trim lower dataRows 0) as H.
    cbn [Nat.add] in H.
    change (map id (imap (rowToQuestion trim lower) dataRows))
      with (map id (imap (fun i => rowToQuestion trim lower i) dataRows)).
    rewrite H.
    change (NoDup ((fun i => IdNum (Z.of_nat i + 1))
                     <$> seq 0 (length dataRows))).
    apply NoDup_fmap_2; [|apply NoDup_seq].
    intros i j Hij. injection Hij as Hij. lia.
  - change (id <$> List.filter (fun item => negb (question item =? "")%string)
                     (imap (rowToQuestion trim lower) dataRows)
            `sublist_of` id <$> imap (rowToQuestion trim lower) dataRows).
    apply fmap_sublist.
    rewrite (List_filter_as_filter _ (λ item, question item ≠ "")).
    + apply sublist_filter.
    + intros item. rewrite negb_true_iff. apply String.eqb_neq.
Qed.

(** A header row and one data row give one record, with id 1; a single row
    is taken as data. *)
Example transformSheetsData_sample :
  let ident := fun x : string => x in
  transformSheetsData ident ident
    (Some [["Category"; "Sub"; "Question"; "Answer"];
           ["History"; "Dates"; "When?"; "Then."; "Yes"; ""; "1"]])
  = [mkQuestion (IdNum 1) "History" "Dates" "When?" "Then." "Yes" "" true
       false] ∧
  map id (transformSheetsData ident ident (Some [["a"; "b"; "c"; "d"]]))
  = [IdNum 1] ∧
  transformSheetsData ident ident (Some [["h"]; ["a"; "b"; ""; "d"]]) = [].
Proof. cbv zeta. vm_compute. repeat split; reflexivity. Qed.

(** * Further properties of the session *)

(** ** Stacks, positions and shuffles *)

Lemma pop_Some {A : Type} (arr rest : list A) (x : A) :
  pop arr = Some (x, rest) -> arr = push x rest.
Proof.
  unfold pop, push. destruct (rev arr) as [|y r] eqn:E; [discriminate|].
  intros H. injection H as -> <-.
  apply (f_equal (@rev A)) in E. rewrite rev_involutive in E.
  rewrite E. reflexivity.
Qed.

Lemma Forall_push {A : Type} (P : A -> Prop) (x : A) (l : list A) :
  Forall P (push x l) ↔ Forall P l ∧ P x.
Proof.
  unfold push. rewrite Forall_app, Forall_singleton. reflexivity.
Qed.

Lemma findIndex_from_range (i : qid) (arr : list Question) :
  ∀ pos : Z,
    (∃ q, q ∈ arr ∧ id q = i) ->
    (pos ≤ findIndex_from pos i arr < pos + Z.of_nat (length arr))%Z.
Proof.
  induction arr as [|q0 arr IH]; intros pos (q & Hin & Hid).
  - inversion Hin.
  - cbn [findIndex_from length]. case_bool_decide as Hq0; [lia|].
    apply elem_of_cons in Hin as [-> | Hin]; [contradiction|].
    specialize (IH (pos + 1) (ex_intro _ q (conj Hin Hid))). lia.
Qed.

Lemma findIndex_from_id (i : qid) (arr : list Question) :
  ∀ pos : Z,
    (∃ q, q ∈ arr ∧ id q = i) ->
    ∃ q, arr !! Z.to_nat (findIndex_from pos i arr - pos) = Some q ∧
         id q = i.
Proof.
  induction arr as [|q0 arr IH]; intros pos (q & Hin & Hid).
  - inversion Hin.
  - cbn [findIndex_from]. case_bool_decide as Hq0.
    + exists q0. rewrite Z.sub_diag. split; [reflexivity | exact Hq0].
    + apply elem_of_cons in Hin as [-> | Hin]; [contradiction|].
      pose proof (findIndex_from_range i arr (pos + 1)
                    (ex_intro _ q (conj Hin Hid))) as Hr.
      destruct (IH (pos + 1) (ex_intro _ q (conj Hin Hid))) as (q' & Hq' & Hi').
      exists q'. split; [|exact Hi'].
      replace (Z.to_nat (findIndex_from (pos + 1) i arr - pos))
        with (S (Z.to_nat (findIndex_from (pos + 1) i arr - (pos + 1))))
        by lia.
      exact Hq'.
Qed.

Lemma shuffleUnasked_Permutation draws answered (l : list Question) :
  shuffleUnasked draws answered l ≡ₚ l.
Proof.
  unfold shuffleUnasked. rewrite shuffleArray_Permutation.
  apply List_filter_partition.
Qed.

Lemma validIndex_at_index (view : list Question) (i : jsnum) :
  validIndex (length view) i -> view ≠ [] -> is_Some (at_index view i).
Proof.
  destruct i as [z|]; [|contradiction]. intros [Hz Hlt] Hne. cbn.
  destruct (Z.leb_spec 0 z); [|lia].
  apply lookup_lt_is_Some_2.
  destruct Hlt as [Hlt | [Hlen _]]; [lia|].
  destruct view; [contradiction | discriminate].
Qed.

Lemma at_index_validIndex (view : list Question) (i : jsnum) (q : Question) :
  at_index view i = Some q -> validIndex (length view) i.
Proof.
  destruct i as [z|]; [|discriminate]. cbn.
  destruct (Z.leb_spec 0 z); [|discriminate].
  intros Hq. apply lookup_lt_Some in Hq. split; [assumption|]. left. lia.
Qed.

Lemma validIndex_zero (len : nat) : validIndex len (Num 0).
Proof. cbn. split; [lia|]. destruct len; [right; split; reflexivity | left; lia]. Qed.

Lemma retainedIndex_valid (view : list Question) (i : jsnum) :
  validIndex (length view) (retainedIndex view i).
Proof.
  rewrite retainedIndex_position.
  destruct (at_index view i) as [q|] eqn:E.
  - eapply at_index_validIndex. exact E.
  - apply validIndex_zero.
Qed.

Lemma succ_mod_valid (len : nat) (i : jsnum) :
  validIndex len i -> len ≠ 0%nat -> validIndex len (succ_mod i len).
Proof.
  destruct i as [z|]; [|contradiction]. intros [Hz _] Hlen. cbn.
  destruct (Nat.eqb_spec len 0); [contradiction|].
  rewrite Z.rem_mod_nonneg by lia.
  pose proof (Z.mod_pos_bound (z + 1) (Z.of_nat len) ltac:(lia)).
  split; [lia|]. left. lia.
Qed.

(** ** What each handler keeps *)

Ltac fields :=
  cbn [questions filteredQuestions currentIndex historyBack historyForward
       showAnswerFlag answeredQuestions bookmarkedQuestions filters sheetName
       storedBookmarks set_questions set_filteredQuestions set_currentIndex
       set_historyBack set_historyForward set_showAnswerFlag
       set_answeredQuestions set_bookmarkedQuestions set_filters
       set_sheetName set_storedBookmarks initHistory saveBookmarks
       markAnswered loadBookmarksFromStorage] in *.

Lemma sameSetup_refl s : sameSetup s s.
Proof. repeat split. Qed.

Lemma toggleAnswer_sameSetup s : sameSetup s (toggleAnswer s).
Proof.
  unfold toggleAnswer.
  destruct (Nat.eqb (length (filteredQuestions s)) 0);
    [apply sameSetup_refl|].
  destruct s as [qs view idx back fwd flag ans bm f name stored]. fields.
  destruct (negb flag); [|repeat split].
  destruct (at_index view idx); repeat split.
Qed.

Lemma nextQuestion_sameSetup draw s : sameSetup s (nextQuestion draw s).
Proof.
  unfold nextQuestion.
  destruct (negb (showAnswerFlag s)); [apply toggleAnswer_sameSetup|].
  destruct (pop (historyForward s)) as [[i rest]|]; repeat split.
Qed.

Lemma prevQuestion_sameSetup s : sameSetup s (prevQuestion s).
Proof.
  unfold prevQuestion.
  destruct (pop (historyBack s)) as [[i rest]|]; repeat split.
Qed.

Lemma viewConsistent_sameSetup s s' :
  sameSetup s s' -> viewConsistent s -> viewConsistent s'.
Proof.
  intros (Hq & Hv & Hf & Hb & _ & _). unfold viewConsistent, matchingQuestions.
  rewrite Hq, Hv, Hf, Hb. trivial.
Qed.

Lemma bookmarksPersisted_sameSetup s s' :
  sameSetup s s' -> bookmarksPersisted s -> bookmarksPersisted s'.
Proof.
  intros (_ & _ & _ & Hb & Hs & _). unfold bookmarksPersisted.
  rewrite Hb, Hs. trivial.
Qed.

(** [applyFilters] *)

Lemma applyFilters_viewConsistent draws s :
  viewConsistent (applyFilters draws s).
Proof.
  destruct s as [qs view idx back fwd flag ans bm f name stored].
  unfold viewConsistent, matchingQuestions, applyFilters. fields.
  split.
  - destruct (f_shuffleUnasked f); [apply shuffleUnasked_Permutation|].
    reflexivity.
  - intros ->. reflexivity.
Qed.

Lemma applyFilters_indicesValid draws s : indicesValid (applyFilters draws s).
Proof.
  destruct s as [qs view idx back fwd flag ans bm f name stored].
  unfold indicesValid, applyFilters. fields.
  split; [apply retainedIndex_valid|]. split; [|constructor].
  constructor; [apply retainedIndex_valid | constructor].
Qed.

Lemma applyFilters_bookmarksPersisted draws s :
  bookmarksPersisted s -> bookmarksPersisted (applyFilters draws s).
Proof. intros H. exact H. Qed.

Lemma hidden_revealedIsAnswered s :
  showAnswerFlag s = false -> revealedIsAnswered s.
Proof. unfold revealedIsAnswered. congruence. Qed.

(** [toggleAnswer] *)

Lemma toggleAnswer_indicesValid s :
  indicesValid s -> indicesValid (toggleAnswer s).
Proof.
  unfold toggleAnswer.
  destruct (Nat.eqb (length (filteredQuestions s)) 0); [trivial|].
  destruct s as [qs view idx back fwd flag ans bm f name stored].
  unfold indicesValid. fields.
  destruct (negb flag); [|trivial].
  destruct (at_index view idx); trivial.
Qed.

Lemma toggleAnswer_revealedIsAnswered s :
  indicesValid s -> revealedIsAnswered s -> revealedIsAnswered (toggleAnswer s).
Proof.
  intros Hiv Hra. unfold toggleAnswer.
  destruct (Nat.eqb_spec (length (filteredQuestions s)) 0) as [E|E];
    [exact Hra|].
  assert (Hne : filteredQuestions s ≠ []).
  { intros H. rewrite H in E. apply E. reflexivity. }
  destruct Hiv as (Hidx & _ & _).
  destruct (validIndex_at_index _ _ Hidx Hne) as [q Hq].
  destruct s as [qs view idx back fwd flag ans bm f name stored]. fields.
  destruct flag; cbn [negb].
  - apply hidden_revealedIsAnswered. reflexivity.
  - rewrite Hq. unfold revealedIsAnswered. fields. intros _.
    exists q. split; [exact Hq | set_solver].
Qed.

(** [nextQuestion] and [prevQuestion] *)

Lemma nextIndex_valid draw s :
  filteredQuestions s ≠ [] ->
  validIndex (length (filteredQuestions s)) (currentIndex s) ->
  validIndex (length (filteredQuestions s)) (nextIndex draw s).
Proof.
  intros Hne Hidx.
  assert (Hlen : length (filteredQuestions s) ≠ 0%nat).
  { destruct (filteredQuestions s); [contradiction | discriminate]. }
  unfold nextIndex.
  destruct (f_shuffleUnasked (filters s)); [|apply succ_mod_valid; assumption].
  destruct (List.filter _ (filteredQuestions s)) as [|q0 unasked] eqn:E;
    [apply succ_mod_valid; assumption|].
  set (randomQ := nth _ (q0 :: unasked) q0).
  assert (Hin : randomQ ∈ filteredQuestions s).
  { assert (Hr : In randomQ (q0 :: unasked)).
    { apply nth_In. unfold random_below.
      apply Nat.mod_upper_bound. discriminate. }
    rewrite <- E in Hr. apply filter_In in Hr as [Hr _].
    apply list_elem_of_In. exact Hr. }
  pose proof (findIndex_from_range (id randomQ) (filteredQuestions s) 0
                (ex_intro _ randomQ (conj Hin eq_refl))) as Hr.
  unfold findIndex, validIndex. split; [lia|]. left. lia.
Qed.

Lemma nextQuestion_indicesValid draw s :
  shownOnlyOnRecord s -> indicesValid s -> indicesValid (nextQuestion draw s).
Proof.
  intros Hshown Hiv. unfold nextQuestion.
  destruct (showAnswerFlag s) eqn:Hflag; cbn [negb];
    [|apply toggleAnswer_indicesValid; exact Hiv].
  specialize (Hshown Hflag).
  destruct (pop (historyForward s)) as [[i rest]|] eqn:Hpop.
  - apply pop_Some in Hpop.
    destruct s as [qs view idx back fwd flag ans bm f name stored].
    unfold indicesValid in *. fields. subst fwd.
    destruct Hiv as (Hidx & Hback & Hfwd).
    apply Forall_push in Hfwd as [Hrest Hi].
    split; [exact Hi|]. split; [|exact Hrest].
    apply Forall_push. split; assumption.
  - pose proof (nextIndex_valid draw
                  (set_historyBack (push (currentIndex s) (historyBack s)) s))
      as Hnext.
    destruct s as [qs view idx back fwd flag ans bm f name stored].
    unfold indicesValid in *. fields.
    destruct Hiv as (Hidx & Hback & Hfwd).
    split; [apply Hnext; assumption|]. split; [|constructor].
    apply Forall_push. split; assumption.
Qed.

Lemma prevQuestion_indicesValid s :
  indicesValid s -> indicesValid (prevQuestion s).
Proof.
  intros Hiv. unfold prevQuestion.
  destruct (pop (historyBack s)) as [[i rest]|] eqn:Hpop; [|exact Hiv].
  apply pop_Some in Hpop.
  destruct s as [qs view idx back fwd flag ans bm f name stored].
  unfold indicesValid in *. fields. subst back.
  destruct Hiv as (Hidx & Hback & Hfwd).
  apply Forall_push in Hback as [Hrest Hi].
  split; [exact Hi|]. split; [exact Hrest|].
  apply Forall_push. split; assumption.
Qed.

Lemma nextQuestion_revealedIsAnswered draw s :
  indicesValid s -> revealedIsAnswered s ->
  revealedIsAnswered (nextQuestion draw s).
Proof.
  intros Hiv Hra. unfold nextQuestion.
  destruct (negb (showAnswerFlag s));
    [apply toggleAnswer_revealedIsAnswered; assumption|].
  destruct (pop (historyForward s)) as [[i rest]|];
    apply hidden_revealedIsAnswered; reflexivity.
Qed.

Lemma prevQuestion_revealedIsAnswered s :
  revealedIsAnswered s -> revealedIsAnswered (prevQuestion s).
Proof.
  intros Hra. unfold prevQuestion.
  destruct (pop (historyBack s)) as [[i rest]|]; [|exact Hra].
  apply hidden_revealedIsAnswered. reflexivity.
Qed.

(** [validateCurrentQuestion] finds nothing to do on a consistent view. *)
Lemma validateCurrentQuestion_consistent back draw s :
  viewConsistent s -> validateCurrentQuestion back draw s = s.
Proof.
  intros [Hperm _]. unfold validateCurrentQuestion.
  destruct (Nat.eqb (length (filteredQuestions s)) 0); [reflexivity|].
  destruct (at_index (filteredQuestions s) (currentIndex s)) as [q|] eqn:E;
    [|reflexivity].
  apply at_index_elem_of in E. rewrite Hperm in E.
  unfold matchingQuestions in E. apply list_elem_of_In, filter_In in E.
  destruct E as [_ ->]. reflexivity.
Qed.

(** [toggleBookmark] on a record: the flip, the save and [applyFilters]. *)
Lemma toggleBookmark_on_record draws draw s q :
  at_index (filteredQuestions s) (currentIndex s) = Some q ->
  toggleBookmark draws draw s =
  applyFilters draws
    (saveBookmarks
       (set_bookmarkedQuestions
          (if bool_decide (id q ∈ bookmarkedQuestions s)
           then bookmarkedQuestions s ∖ {[id q]}
           else bookmarkedQuestions s ∪ {[id q]}) s)).
Proof.
  intros Hq. unfold toggleBookmark. rewrite Hq.
  apply validateCurrentQuestion_consistent, applyFilters_viewConsistent.
Qed.

(** [resetProgress] *)

Lemma resetProgress_sameSetup_off draws s :
  f_shuffleUnasked (filters s) = false -> sameSetup s (resetProgress draws s).
Proof.
  destruct s as [qs view idx back fwd flag ans bm f name stored].
  unfold resetProgress. fields. intros ->. repeat split.
Qed.

Lemma resetProgress_fields draws s :
  let s' := resetProgress draws s in
  questions s' = questions s ∧ filters s' = filters s ∧
  bookmarkedQuestions s' = bookmarkedQuestions s ∧
  storedBookmarks s' = storedBookmarks s ∧ sheetName s' = sheetName s ∧
  answeredQuestions s' = ∅ ∧ currentIndex s' = Num 0 ∧
  showAnswerFlag s' = false ∧ historyBack s' = [Num 0] ∧
  historyForward s' = [] ∧
  filteredQuestions s' =
    (if f_shuffleUnasked (filters s)
     then shuffleUnasked draws ∅ (filteredQuestions s)
     else filteredQuestions s).
Proof.
  destruct s as [qs view idx back fwd flag ans bm f name stored].
  unfold resetProgress. fields. destruct (f_shuffleUnasked f); fields;
    repeat split.
Qed.

Lemma resetProgress_indicesValid draws s :
  indicesValid (resetProgress draws s).
Proof.
  destruct (resetProgress_fields draws s)
    as (_ & _ & _ & _ & _ & _ & Hi & _ & Hb & Hf & _).
  unfold indicesValid. rewrite Hi, Hb, Hf.
  split; [apply validIndex_zero|]. split; [|constructor].
  constructor; [apply validIndex_zero | constructor].
Qed.

Lemma resetProgress_viewConsistent draws s :
  viewConsistent s -> viewConsistent (resetProgress draws s).
Proof.
  intros [Hperm Hoff].
  destruct (resetProgress_fields draws s)
    as (Hq & Hfl & Hbm & _ & _ & _ & _ & _ & _ & _ & Hv).
  unfold viewConsistent, matchingQuestions in *. rewrite Hq, Hfl, Hbm, Hv.
  destruct (f_shuffleUnasked (filters s)).
  - split; [|discriminate]. rewrite shuffleUnasked_Permutation. exact Hperm.
  - split; [exact Hperm | exact Hoff].
Qed.

Lemma resetProgress_bookmarksPersisted draws s :
  bookmarksPersisted s -> bookmarksPersisted (resetProgress draws s).
Proof.
  destruct (resetProgress_fields draws s) as (_ & _ & Hbm & Hst & _).
  unfold bookmarksPersisted. rewrite Hbm, Hst. trivial.
Qed.

Lemma resetProgress_sessionInvariant draws s :
  bookmarksPersisted s -> viewConsistent s ->
  sessionInvariant (resetProgress draws s).
Proof.
  intros Hp Hv. split; [|split; [|split; [|split]]].
  - apply hidden_shownOnlyOnRecord, showAnswerFlag_resetProgress.
  - apply resetProgress_indicesValid.
  - apply hidden_revealedIsAnswered, showAnswerFlag_resetProgress.
  - apply resetProgress_bookmarksPersisted. exact Hp.
  - apply resetProgress_viewConsistent. exact Hv.
Qed.

Lemma applyFilters_sessionInvariant draws s :
  bookmarksPersisted s -> sessionInvariant (applyFilters draws s).
Proof.
  intros Hp. split; [|split; [|split; [|split]]].
  - apply hidden_shownOnlyOnRecord, showAnswerFlag_applyFilters.
  - apply applyFilters_indicesValid.
  - apply hidden_revealedIsAnswered, showAnswerFlag_applyFilters.
  - exact Hp.
  - apply applyFilters_viewConsistent.
Qed.

Lemma resetBookmarks_bookmarksPersisted draws s :
  bookmarksPersisted (resetBookmarks draws s).
Proof. destruct s. reflexivity. Qed.

Lemma loadBookmarksFromStorage_persisted s :
  bookmarksPersisted s -> loadBookmarksFromStorage s = s.
Proof.
  destruct s as [qs view idx back fwd flag ans bm f name stored].
  unfold bookmarksPersisted. fields. intros ->.
  unfold loadBookmarksFromStorage, set_bookmarkedQuestions. fields. f_equal.
  apply leibniz_equiv. set_solver.
Qed.

Lemma pageLoaded_sessionInvariant MOCK name stored names fetched localJson
    rnd :
  sessionInvariant (pageLoaded MOCK name stored names fetched localJson rnd).
Proof.
  unfold pageLoaded, initSheetsAndData.
  set (s5 := resetFilters _ _).
  assert (H : sessionInvariant
                (resetProgress (rnd 3%nat) (resetBookmarks (rnd 2%nat) s5))).
  { apply resetProgress_sessionInvariant.
    - apply resetBookmarks_bookmarksPersisted.
    - unfold resetBookmarks. apply applyFilters_viewConsistent. }
  rewrite loadBookmarksFromStorage_persisted; [exact H|].
  destruct H as (_ & _ & _ & Hp & _). exact Hp.
Qed.

Lemma handle_sessionInvariant MOCK (e : Event) (s : State) :
  sessionInvariant s -> sessionInvariant (handle MOCK e s).
Proof.
  intros Hall. pose proof Hall as (Hshown & Hiv & Hra & Hp & Hv).
  destruct e; cbn [handle].
  - split; [|split; [|split; [|split]]].
    + apply nextQuestion_shownOnlyOnRecord; assumption.
    + apply nextQuestion_indicesValid; assumption.
    + apply nextQuestion_revealedIsAnswered; assumption.
    + eapply bookmarksPersisted_sameSetup;
        [apply nextQuestion_sameSetup | assumption].
    + eapply viewConsistent_sameSetup;
        [apply nextQuestion_sameSetup | assumption].
  - split; [|split; [|split; [|split]]].
    + apply prevQuestion_shownOnlyOnRecord; assumption.
    + apply prevQuestion_indicesValid; assumption.
    + apply prevQuestion_revealedIsAnswered; assumption.
    + eapply bookmarksPersisted_sameSetup;
        [apply prevQuestion_sameSetup | assumption].
    + eapply viewConsistent_sameSetup;
        [apply prevQuestion_sameSetup | assumption].
  - split; [|split; [|split; [|split]]].
    + apply toggleAnswer_shownOnlyOnRecord; assumption.
    + apply toggleAnswer_indicesValid; assumption.
    + apply toggleAnswer_revealedIsAnswered; assumption.
    + eapply bookmarksPersisted_sameSetup;
        [apply toggleAnswer_sameSetup | assumption].
    + eapply viewConsistent_sameSetup;
        [apply toggleAnswer_sameSetup | assumption].
  - destruct (at_index (filteredQuestions s) (currentIndex s)) as [q|] eqn:E.
    + rewrite (toggleBookmark_on_record _ _ _ _ E).
      apply applyFilters_sessionInvariant. reflexivity.
    + unfold toggleBookmark. rewrite E. exact Hall.
  - unfold handleFilterChange. destruct dom as [v|];
      [|exact Hall].
    apply applyFilters_sessionInvariant. exact Hp.
  - apply applyFilters_sessionInvariant. exact Hp.
  - apply applyFilters_sessionInvariant. exact Hp.
  - apply resetProgress_sessionInvariant; assumption.
  - apply applyFilters_sessionInvariant. reflexivity.
  - unfold handleBookmarkImport. destruct file; cbn [snd];
      try exact Hall.
    destruct (negb _); cbn [snd]; [exact Hall|].
    apply applyFilters_sessionInvariant. reflexivity.
  - unfold sheetSelectorChange. apply applyFilters_sessionInvariant.
    apply resetProgress_bookmarksPersisted.
    apply resetBookmarks_bookmarksPersisted.
Qed.

Lemma Reachable_sessionInvariant MOCK (s : State) :
  Reachable MOCK s -> sessionInvariant s.
Proof.
  induction 1 as [name stored names fetched localJson rnd | e s _ IH].
  - apply pageLoaded_sessionInvariant.
  - apply handle_sessionInvariant. exact IH.
Qed.

(** ** Properties of every reachable state *)

(** X1.  In every reachable state [currentIndex] is a whole number, never
    [NaN]; it addresses a record of the view whenever the view is not empty
    and is 0 when it is; and every entry of [historyBack] and
    [historyForward] is such a number too.  So the unguarded reads
    [filteredQuestions[currentIndex]] of the rendering find a record. *)
Theorem reachable_indices_address_records MOCK (s : State) :
  Reachable MOCK s ->
  currentIndex s ≠ NaN ∧
  (filteredQuestions s ≠ [] ->
   is_Some (at_index (filteredQuestions s) (currentIndex s))) ∧
  (filteredQuestions s = [] -> currentIndex s = Num 0) ∧
  Forall (validIndex (length (filteredQuestions s))) (historyBack s) ∧
  Forall (validIndex (length (filteredQuestions s))) (historyForward s).
Proof.
  intros Hreach.
  destruct (Reachable_sessionInvariant MOCK s Hreach)
    as (_ & (Hidx & Hback & Hfwd) & _).
  split; [|split; [|split; [|split]]]; try assumption.
  - intros E. rewrite E in Hidx. exact Hidx.
  - intros Hne. apply validIndex_at_index; assumption.
  - intros Hempty. rewrite Hempty in Hidx.
    destruct (currentIndex s) as [z|]; [|contradiction].
    destruct Hidx as [Hz [Hlt | [_ ->]]]; [cbn in Hlt; lia | reflexivity].
Qed.

(** X2.  In every reachable state that shows an answer, the current record
    exists and its id is in [answeredQuestions]. *)
Theorem reachable_shown_answer_is_marked MOCK (s : State) :
  Reachable MOCK s ->
  showAnswerFlag s = true ->
  ∃ q, at_index (filteredQuestions s) (currentIndex s) = Some q ∧
       id q ∈ answeredQuestions s.
Proof.
  intros Hreach.
  destruct (Reachable_sessionInvariant MOCK s Hreach) as (_ & _ & Hra & _).
  exact Hra.
Qed.

(** X3.  In every reachable state the [bookmarks] entry of localStorage
    holds exactly the ids of [bookmarkedQuestions]. *)
Theorem reachable_bookmarks_are_stored MOCK (s : State) :
  Reachable MOCK s -> storedBookmarks s = bookmarkedQuestions s.
Proof.
  intros Hreach.
  destruct (Reachable_sessionInvariant MOCK s Hreach)
    as (_ & _ & _ & Hp & _).
  exact Hp.
Qed.

(** X4.  In every reachable state the view holds exactly the loaded
    questions that satisfy the filters in force under the bookmarks in
    force: it is a rearrangement of them, and the list of them in the order
    of [questions] while shuffleUnasked is off. *)
Theorem reachable_view_matches_filters MOCK (s : State) :
  Reachable MOCK s ->
  let matching :=
    filter (Matches (filters s) (bookmarkedQuestions s)) (questions s) in
  (∀ q, q ∈ filteredQuestions s ↔
        q ∈ questions s ∧ Matches (filters s) (bookmarkedQuestions s) q) ∧
  filteredQuestions s ≡ₚ matching ∧
  (f_shuffleUnasked (filters s) = false -> filteredQuestions s = matching).
Proof.
  intros Hreach matching.
  destruct (Reachable_sessionInvariant MOCK s Hreach)
    as (_ & _ & _ & _ & Hperm & Hoff).
  assert (Hm : matchingQuestions s = matching).
  { apply List_filter_as_filter. intros q. apply passesFilters_Matches. }
  rewrite Hm in Hperm, Hoff.
  split; [|split; assumption].
  intros q. rewrite Hperm. subst matching. rewrite list_elem_of_filter. tauto.
Qed.

(** X5.  On the empty view of a reachable state, [nextQuestion] and
    [toggleAnswer] change nothing, [prevQuestion] keeps the index at 0 and
    the view empty, and the progress shown is 0 of 0, 0 percent. *)
Theorem reachable_empty_view_is_inert MOCK (s : State) (draw : nat) :
  Reachable MOCK s ->
  filteredQuestions s = [] ->
  nextQuestion draw s = s ∧ toggleAnswer s = s ∧
  currentIndex (prevQuestion s) = Num 0 ∧
  filteredQuestions (prevQuestion s) = [] ∧
  showAnswerFlag (prevQuestion s) = false ∧
  total (updateProgress s) = 0%nat ∧ percent (updateProgress s) = 0.
Proof.
  intros Hreach Hempty.
  pose proof (Reachable_sessionInvariant MOCK s Hreach)
    as (Hshown & Hiv & _).
  assert (Hflag : showAnswerFlag s = false).
  { destruct (showAnswerFlag s) eqn:E; [|reflexivity].
    exfalso. apply (Hshown E). exact Hempty. }
  assert (Htoggle : toggleAnswer s = s).
  { unfold toggleAnswer. rewrite Hempty. reflexivity. }
  pose proof (prevQuestion_indicesValid s Hiv) as (Hidx & _ & _).
  destruct (prevQuestion_sameSetup s) as (_ & Hview & _).
  rewrite Hview, Hempty in Hidx.
  split; [unfold nextQuestion; rewrite Hflag; exact Htoggle|].
  split; [exact Htoggle|].
  split.
  { destruct (currentIndex (prevQuestion s)) as [z|]; [|contradiction].
    destruct Hidx as [Hz [Hlt | [_ ->]]]; [cbn in Hlt; lia | reflexivity]. }
  split; [rewrite Hview; exact Hempty|].
  split.
  { unfold prevQuestion.
    destruct (pop (historyBack s)) as [[i rest]|]; [reflexivity | exact Hflag]. }
  unfold updateProgress. rewrite Hempty. split; reflexivity.
Qed.

(** ** The session a page load starts *)

Ltac setters :=
  repeat
    (progress
       (unfold set_questions, set_filteredQuestions, set_currentIndex,
          set_historyBack, set_historyForward, set_showAnswerFlag,
          set_answeredQuestions, set_bookmarkedQuestions, set_filters,
          set_sheetName, set_storedBookmarks, initHistory, saveBookmarks,
          loadBookmarksFromStorage;
        cbn [questions filteredQuestions currentIndex historyBack
             historyForward showAnswerFlag answeredQuestions
             bookmarkedQuestions filters sheetName storedBookmarks])).

Lemma retainedIndex_zero (view : list Question) :
  retainedIndex view (Num 0) = Num 0.
Proof.
  rewrite retainedIndex_position.
  destruct (at_index view (Num 0)); reflexivity.
Qed.

Lemma applyFilters_defaults draws qs view idx back fwd flag ans bm name st :
  applyFilters draws
    (mkState qs view idx back fwd flag ans bm
       (mkFilters "All" "All" "All" "All" "All" false) name st) =
  mkState qs qs (retainedIndex qs idx) [retainedIndex qs idx] [] false ans bm
    (mkFilters "All" "All" "All" "All" "All" false) name st.
Proof.
  unfold applyFilters. setters. cbn [f_shuffleUnasked].
  rewrite List_filter_all; [reflexivity|].
  intros q. apply passesFilters_allDimensionsAll. repeat split.
Qed.

Lemma resetProgress_off draws qs view idx back fwd flag ans bm f name st :
  f_shuffleUnasked f = false ->
  resetProgress draws (mkState qs view idx back fwd flag ans bm f name st) =
  mkState qs view (Num 0) [Num 0] [] false ∅ bm f name st.
Proof. intros Hoff. unfold resetProgress. fields. rewrite Hoff. reflexivity. Qed.

Lemma initSheetsDropdown_initialState names name stored :
  initSheetsDropdown names (initialState name stored) =
  initialState (sheetName (initSheetsDropdown names (initialState name stored)))
    stored.
Proof.
  unfold initSheetsDropdown, initialState.
  destruct names as [[|n names]|]; try reflexivity.
  cbn [sheetName]. destruct (name =? "")%string; reflexivity.
Qed.

(** The state once the page is loaded, in full. *)
Lemma pageLoaded_state MOCK name stored names fetched localJson rnd :
  let s0 := initSheetsDropdown names (initialState name stored) in
  let loaded := loadQuestions MOCK fetched localJson s0 in
  pageLoaded MOCK name stored names fetched localJson rnd =
  mkState loaded loaded (Num 0) [Num 0] [] false ∅ ∅
    (mkFilters "All" "All" "All" "All" "All" false) (sheetName s0) ∅.
Proof.
  intros s0 loaded. unfold pageLoaded, initSheetsAndData. fold s0. fold loaded.
  assert (Hs0 : s0 = initialState (sheetName s0) stored).
  { apply initSheetsDropdown_initialState. }
  generalize dependent loaded. intros loaded.
  rewrite Hs0 at 1. unfold initialState.
  assert (H4 :
    applyFilters (rnd 0%nat)
      (initializeBookmarks
         (saveBookmarks
            (set_bookmarkedQuestions ∅
               (set_questions loaded
                  (mkState [] [] (Num 0) [] [] false ∅ ∅
                     (mkFilters "All" "All" "All" "All" "All" false)
                     (sheetName s0) stored))))) =
    mkState loaded loaded (Num 0) [Num 0] [] false ∅
      (list_to_set (map id (List.filter bookmark loaded)) ∪ ∅)
      (mkFilters "All" "All" "All" "All" "All" false) (sheetName s0) ∅).
  { unfold initializeBookmarks. setters. rewrite applyFilters_defaults.
    rewrite retainedIndex_zero. reflexivity. }
  rewrite H4. clear H4.
  unfold resetFilters. setters. cbn [f_shuffleUnasked].
  rewrite applyFilters_defaults, retainedIndex_zero.
  unfold resetBookmarks. setters.
  rewrite applyFilters_defaults, retainedIndex_zero.
  rewrite resetProgress_off by reflexivity.
  reflexivity.
Qed.

Lemma loadQuestions_nonempty MOCK fetched localJson s :
  MOCK ≠ [] -> loadQuestions MOCK fetched localJson s ≠ [].
Proof.
  intros Hmock. unfold loadQuestions. cbv zeta.
  match goal with
  | |- (if Nat.eqb (length ?q2) 0 then _ else _) ≠ [] =>
      destruct q2 as [|q rest]; [exact Hmock | discriminate]
  end.
Qed.

(** X6.  Whatever localStorage held, whatever [bookmark] fields the records
    carry and whichever source the records come from, the page load leaves
    a session with every loaded question in the view in load order, the
    first one current, its answer hidden, every filter at "All" with
    shuffleUnasked off, the history holding index 0 alone, nothing
    answered, and no bookmark in the session or in localStorage. *)
Theorem page_load_starts_fresh_session MOCK (name : string)
    (stored : gset qid) (names : option (list string))
    (fetched localJson : option (list Question)) (rnd : nat -> nat -> nat) :
  let s := pageLoaded MOCK name stored names fetched localJson rnd in
  filteredQuestions s = questions s ∧
  currentIndex s = Num 0 ∧ showAnswerFlag s = false ∧
  historyBack s = [Num 0] ∧ historyForward s = [] ∧
  filters s = mkFilters "All" "All" "All" "All" "All" false ∧
  answeredQuestions s = ∅ ∧
  bookmarkedQuestions s = ∅ ∧ storedBookmarks s = ∅.
Proof.
  intros s. subst s. rewrite pageLoaded_state. repeat split.
Qed.

(** X7.  With a non-empty built-in table, the page load never leaves the
    question set empty, and a first question is there to be shown, whether
    the sheet and data/questions.json give records, give none, or cannot
    be read. *)
Theorem page_load_always_has_a_question MOCK (name : string)
    (stored : gset qid) (names : option (list string))
    (fetched localJson : option (list Question)) (rnd : nat -> nat -> nat) :
  MOCK ≠ [] ->
  let s := pageLoaded MOCK name stored names fetched localJson rnd in
  questions s ≠ [] ∧
  ∃ q, at_index (filteredQuestions s) (currentIndex s) = Some q ∧
       head (questions s) = Some q.
Proof.
  intros Hmock s. subst s. rewrite pageLoaded_state. fields.
  pose proof (loadQuestions_nonempty MOCK fetched localJson
                (initSheetsDropdown names (initialState name stored)) Hmock)
    as Hne.
  split; [exact Hne|].
  destruct (loadQuestions MOCK fetched localJson _) as [|q rest];
    [contradiction|].
  exists q. split; reflexivity.
Qed.

(** X7 on the sample table, with a sheet that has no rows and no
    data/questions.json. *)
Lemma page_load_falls_back_to_sample :
  sampleMock ≠ [] ∧
  questions (pageLoaded sampleMock "2020" ∅ None (Some []) None zeroRnd)
  ≠ [].
Proof.
  assert (Hmock : sampleMock ≠ []) by discriminate.
  split; [exact Hmock|].
  apply (page_load_always_has_a_question sampleMock "2020" ∅ None (Some [])
           None zeroRnd Hmock).
Defined.

(** Witnesses of X1 to X5 on the sample page. *)

Lemma sample_indices_address_records :
  currentIndex (nextQuestion 0 (nextQuestion 0 sampleLoaded)) ≠ NaN.
Proof.
  apply (reachable_indices_address_records sampleMock
           (nextQuestion 0 (nextQuestion 0 sampleLoaded))).
  do 2 apply Reachable_nextQuestion. exact Reachable_sampleLoaded.
Defined.

Lemma sample_shown_answer_is_marked :
  showAnswerFlag (nextQuestion 0 sampleLoaded) = true ∧
  ∃ q, at_index (filteredQuestions (nextQuestion 0 sampleLoaded))
         (currentIndex (nextQuestion 0 sampleLoaded)) = Some q ∧
       id q ∈ answeredQuestions (nextQuestion 0 sampleLoaded).
Proof.
  assert (Hflag : showAnswerFlag (nextQuestion 0 sampleLoaded) = true).
  { vm_compute. reflexivity. }
  split; [exact Hflag|].
  apply (reachable_shown_answer_is_marked sampleMock
           (nextQuestion 0 sampleLoaded)); [|exact Hflag].
  apply Reachable_nextQuestion. exact Reachable_sampleLoaded.
Defined.

Lemma sample_bookmarks_are_stored :
  storedBookmarks (handle sampleMock (Bookmark zeroDraws 0) sampleLoaded) =
  bookmarkedQuestions (handle sampleMock (Bookmark zeroDraws 0) sampleLoaded).
Proof.
  apply (reachable_bookmarks_are_stored sampleMock).
  apply reach_event. exact Reachable_sampleLoaded.
Defined.

Lemma sample_view_matches_filters :
  filteredQuestions historyChosen ≡ₚ
  filter (Matches (filters historyChosen) (bookmarkedQuestions historyChosen))
    (questions historyChosen).
Proof.
  apply (reachable_view_matches_filters sampleMock historyChosen).
  unfold historyChosen. apply Reachable_handleFilterChange.
  exact Reachable_sampleLoaded.
Defined.

Lemma sample_empty_view_is_inert :
  filteredQuestions nothingBookmarked = [] ∧
  nextQuestion 0 nothingBookmarked = nothingBookmarked.
Proof.
  assert (Hempty : filteredQuestions nothingBookmarked = []).
  { vm_compute. reflexivity. }
  split; [exact Hempty|].
  apply (reachable_empty_view_is_inert sampleMock nothingBookmarked 0);
    [|exact Hempty].
  unfold nothingBookmarked. apply Reachable_handleFilterChange.
  exact Reachable_sampleLoaded.
Defined.

(** ** Bookmarks *)

Lemma applyFilters_off draws qs view idx back fwd flag ans bm f name st :
  f_shuffleUnasked f = false ->
  applyFilters draws (mkState qs view idx back fwd flag ans bm f name st) =
  let kept := List.filter (passesFilters f bm) qs in
  mkState qs kept (retainedIndex kept idx) [retainedIndex kept idx] [] false
    ans bm f name st.
Proof. intros Hoff. unfold applyFilters. fields. rewrite Hoff. reflexivity. Qed.

Lemma retainedIndex_kept (view : list Question) (i : jsnum) (q : Question) :
  at_index view i = Some q -> retainedIndex view i = i.
Proof. intros E. rewrite retainedIndex_position, E. reflexivity. Qed.

Lemma Matches_bookmarks_unused f bm bm' q :
  f_bookmarked f ≠ "Bookmarked" -> Matches f bm q ↔ Matches f bm' q.
Proof. unfold Matches. intros Hf. tauto. Qed.

Lemma passesFilters_bookmarks_unused f bm bm' qs :
  f_bookmarked f ≠ "Bookmarked" ->
  List.filter (passesFilters f bm) qs = List.filter (passesFilters f bm') qs.
Proof.
  intros Hf.
  rewrite (List_filter_as_filter _ (Matches f bm))
    by (intros q; apply passesFilters_Matches).
  rewrite (List_filter_as_filter _ (Matches f bm'))
    by (intros q; apply passesFilters_Matches).
  apply list_filter_iff. intros q. apply Matches_bookmarks_unused. exact Hf.
Qed.

Lemma passesFilters_unbookmarked f bm x qs :
  f_bookmarked f = "Bookmarked" ->
  List.filter (passesFilters f (bm ∖ {[x]})) qs =
  filter (λ q, id q ≠ x) (List.filter (passesFilters f bm) qs).
Proof.
  intros Hf.
  rewrite (List_filter_as_filter _ (Matches f (bm ∖ {[x]})))
    by (intros q; apply passesFilters_Matches).
  rewrite (List_filter_as_filter _ (Matches f bm))
    by (intros q; apply passesFilters_Matches).
  rewrite list_filter_filter. apply list_filter_iff.
  intros q. unfold Matches. rewrite Hf. split.
  - intros (H1 & H2 & H3 & H4 & H5). specialize (H3 eq_refl).
    split; [set_solver|]. repeat split; try assumption. set_solver.
  - intros (Hx & H1 & H2 & H3 & H4 & H5). specialize (H3 eq_refl).
    repeat split; try assumption. set_solver.
Qed.

Lemma flip_twice (bm : gset qid) (x : qid) :
  let once := if bool_decide (x ∈ bm) then bm ∖ {[x]} else bm ∪ {[x]} in
  (if bool_decide (x ∈ once) then once ∖ {[x]} else once ∪ {[x]}) = bm.
Proof.
  cbv zeta. destruct (decide (x ∈ bm)) as [Hin|Hout].
  - rewrite (bool_decide_eq_true_2 _ Hin).
    rewrite bool_decide_eq_false_2 by set_solver.
    apply leibniz_equiv. intros y. destruct (decide (y = x)); set_solver.
  - rewrite (bool_decide_eq_false_2 _ Hout).
    rewrite bool_decide_eq_true_2 by set_solver.
    apply leibniz_equiv. set_solver.
Qed.

(** X8.  On a current record, [toggleBookmark] flips the membership of its
    id in [bookmarkedQuestions] and of no other id, writes the result to
    localStorage, and leaves the questions, the filters and the answered
    ids alone; it also hides the answer and restarts the history at the
    index it leaves. *)
Theorem toggleBookmark_flips_current_id (draws : nat -> nat) (draw : nat)
    (s : State) (q : Question) :
  at_index (filteredQuestions s) (currentIndex s) = Some q ->
  let s' := toggleBookmark draws draw s in
  (id q ∈ bookmarkedQuestions s' ↔ id q ∉ bookmarkedQuestions s) ∧
  (∀ i, i ≠ id q ->
        (i ∈ bookmarkedQuestions s' ↔ i ∈ bookmarkedQuestions s)) ∧
  storedBookmarks s' = bookmarkedQuestions s' ∧
  questions s' = questions s ∧ filters s' = filters s ∧
  answeredQuestions s' = answeredQuestions s ∧
  showAnswerFlag s' = false ∧
  historyBack s' = [currentIndex s'] ∧ historyForward s' = [].
Proof.
  intros Hq s'. subst s'. rewrite (toggleBookmark_on_record _ _ _ _ Hq).
  destruct s as [qs view idx back fwd flag ans bm f name stored].
  unfold applyFilters. fields.
  split; [|split; [|repeat split]].
  - case_bool_decide; set_solver.
  - intros i Hi. case_bool_decide; set_solver.
Qed.

(** X9.  In a reachable state with shuffleUnasked off and the bookmark
    filter not at "Bookmarked", toggling the bookmark of the current record
    twice gives back the bookmarks, in the session and in localStorage,
    with the same view and the same current index. *)
Theorem toggleBookmark_twice_restores MOCK (draws1 draws2 : nat -> nat)
    (draw1 draw2 : nat) (s : State) (q : Question) :
  Reachable MOCK s ->
  f_shuffleUnasked (filters s) = false ->
  f_bookmarked (filters s) ≠ "Bookmarked" ->
  at_index (filteredQuestions s) (currentIndex s) = Some q ->
  let s2 := toggleBookmark draws2 draw2 (toggleBookmark draws1 draw1 s) in
  bookmarkedQuestions s2 = bookmarkedQuestions s ∧
  storedBookmarks s2 = storedBookmarks s ∧
  filteredQuestions s2 = filteredQuestions s ∧
  currentIndex s2 = currentIndex s.
Proof.
  intros Hreach Hoff Hbm Hq s2. subst s2.
  destruct (Reachable_sessionInvariant MOCK s Hreach)
    as (_ & _ & _ & Hp & _ & Hview).
  specialize (Hview Hoff). unfold matchingQuestions in Hview.
  rewrite (toggleBookmark_on_record draws1 draw1 s q Hq).
  destruct s as [qs view idx back fwd flag ans bm f name stored].
  unfold bookmarksPersisted in Hp. fields. subst stored. setters.
  set (once := if bool_decide (id q ∈ bm) then bm ∖ {[id q]}
               else bm ∪ {[id q]}).
  rewrite (applyFilters_off draws1) by exact Hoff. cbv zeta.
  rewrite (passesFilters_bookmarks_unused f once bm qs Hbm), <- Hview.
  rewrite (retainedIndex_kept view idx q Hq).
  rewrite (toggleBookmark_on_record draws2 draw2 _ q) by exact Hq.
  setters. rewrite (applyFilters_off draws2) by exact Hoff. cbv zeta. fields.
  subst once. rewrite (flip_twice bm (id q)).
  rewrite <- Hview. rewrite (retainedIndex_kept view idx q Hq).
  repeat split.
Qed.

(** X10.  In a reachable state with the bookmark filter at "Bookmarked",
    the current record is bookmarked, and toggling its bookmark takes every
    record with its id out of the view and leaves the other records of the
    view. *)
Theorem unbookmark_under_filter_drops_record MOCK (draws : nat -> nat)
    (draw : nat) (s : State) (q : Question) :
  Reachable MOCK s ->
  f_bookmarked (filters s) = "Bookmarked" ->
  at_index (filteredQuestions s) (currentIndex s) = Some q ->
  let s' := toggleBookmark draws draw s in
  id q ∈ bookmarkedQuestions s ∧
  (id q ∉ bookmarkedQuestions s') ∧
  (∀ q', q' ∈ filteredQuestions s' -> id q' ≠ id q) ∧
  filteredQuestions s' ≡ₚ filter (λ q', id q' ≠ id q) (filteredQuestions s).
Proof.
  intros Hreach Hbm Hq s'. subst s'.
  destruct (Reachable_sessionInvariant MOCK s Hreach)
    as (_ & _ & _ & _ & Hperm & _).
  assert (Hmarked : id q ∈ bookmarkedQuestions s).
  { pose proof (at_index_elem_of _ _ _ Hq) as Hin. rewrite Hperm in Hin.
    unfold matchingQuestions in Hin.
    apply list_elem_of_In, filter_In in Hin as [_ Hpass].
    apply passesFilters_Matches in Hpass.
    destruct Hpass as (_ & _ & H3 & _). exact (H3 Hbm). }
  rewrite (toggleBookmark_on_record _ _ _ _ Hq).
  rewrite (bool_decide_eq_true_2 _ Hmarked).
  pose proof (applyFilters_viewConsistent draws
    (saveBookmarks
       (set_bookmarkedQuestions (bookmarkedQuestions s ∖ {[id q]}) s)))
    as [Hperm' _].
  set (s' := applyFilters _ _) in *.
  assert (Hbm' : bookmarkedQuestions s' = bookmarkedQuestions s ∖ {[id q]}).
  { subst s'. destruct s. reflexivity. }
  assert (Hm' : matchingQuestions s' =
                filter (λ q', id q' ≠ id q) (matchingQuestions s)).
  { subst s'. destruct s as [qs view idx back fwd flag ans bm f name stored].
    unfold matchingQuestions. fields.
    apply passesFilters_unbookmarked. exact Hbm. }
  rewrite Hm' in Hperm'.
  split; [exact Hmarked|]. split; [rewrite Hbm'; set_solver|]. split.
  - intros q' Hin. rewrite Hperm' in Hin.
    apply list_elem_of_filter in Hin. tauto.
  - rewrite Hperm', Hperm. reflexivity.
Qed.

Lemma or_unknown_idem (a : string) : or_unknown (or_unknown a) = or_unknown a.
Proof.
  unfold or_unknown. destruct (String.eqb_spec a ""); [reflexivity|].
  destruct (String.eqb_spec a ""); [contradiction | reflexivity].
Qed.

Lemma handleBookmarkImport_accepted set ids draws s :
  or_unknown set = or_unknown (sheetName s) ->
  handleBookmarkImport (Payload set ids) draws s =
  (Imported,
   applyFilters draws
     (saveBookmarks
        (set_bookmarkedQuestions (bookmarkedQuestions s ∪ list_to_set ids)
           s))).
Proof.
  intros Hset. unfold handleBookmarkImport. rewrite Hset.
  rewrite String.eqb_refl. reflexivity.
Qed.

(** X11.  A well-formed payload whose set name agrees with the sheet name
    (each read as "unknown" when empty) is merged: afterwards the bookmarks
    are the former ones together with the imported ids, nothing is
    removed, localStorage holds the result, and the questions, filters and
    answered ids are as before; importing the same payload once more
    changes no bookmark. *)
Theorem import_merges_bookmarks (set : string) (ids : list qid)
    (draws draws' : nat -> nat) (s : State) :
  or_unknown set = or_unknown (sheetName s) ->
  let r := handleBookmarkImport (Payload set ids) draws s in
  fst r = Imported ∧
  (∀ i, i ∈ bookmarkedQuestions (snd r) ↔
        i ∈ bookmarkedQuestions s ∨ i ∈ ids) ∧
  storedBookmarks (snd r) = bookmarkedQuestions (snd r) ∧
  questions (snd r) = questions s ∧ filters (snd r) = filters s ∧
  answeredQuestions (snd r) = answeredQuestions s ∧
  bookmarkedQuestions
    (snd (handleBookmarkImport (Payload set ids) draws' (snd r))) =
  bookmarkedQuestions (snd r).
Proof.
  intros Hset r. subst r. rewrite (handleBookmarkImport_accepted _ _ _ _ Hset).
  cbn [fst snd].
  destruct s as [qs view idx back fwd flag ans bm f name stored].
  fields. rewrite handleBookmarkImport_accepted; [|exact Hset].
  cbn [snd]. unfold applyFilters. fields.
  split; [reflexivity|]. split; [intros i; set_solver|].
  repeat split. apply leibniz_equiv. set_solver.
Qed.

(** X12.  Export and import go together: the payload [exportBookmarks]
    writes in one session, imported into a session whose sheet name agrees
    (each read as "unknown" when empty), adds exactly the exported
    bookmarks to those of that session, so that importing a session's own
    export changes no bookmark; imported into a session of another sheet it
    is refused and that session is left as it was. *)
Theorem export_then_import (s s' : State) (draws : nat -> nat) :
  let r := handleBookmarkImport (exportBookmarks s) draws s' in
  (or_unknown (sheetName s) = or_unknown (sheetName s') ->
   fst r = Imported ∧
   bookmarkedQuestions (snd r) =
     bookmarkedQuestions s' ∪ bookmarkedQuestions s) ∧
  (or_unknown (sheetName s) ≠ or_unknown (sheetName s') ->
   r = (SetMismatch, s')) ∧
  bookmarkedQuestions (snd (handleBookmarkImport (exportBookmarks s) draws s))
  = bookmarkedQuestions s.
Proof.
  intros r. subst r. unfold exportBookmarks. split; [|split].
  - intros Hname. rewrite handleBookmarkImport_accepted
      by (rewrite or_unknown_idem; exact Hname).
    cbn [fst snd]. split; [reflexivity|].
    destruct s' as [qs view idx back fwd flag ans bm f name stored].
    unfold applyFilters. fields. apply leibniz_equiv. intros i.
    rewrite !elem_of_union, elem_of_list_to_set, elem_of_elements.
    reflexivity.
  - intros Hname. unfold handleBookmarkImport. rewrite or_unknown_idem.
    destruct (String.eqb_spec (or_unknown (sheetName s))
                (or_unknown (sheetName s'))); [contradiction | reflexivity].
  - rewrite handleBookmarkImport_accepted by apply or_unknown_idem.
    cbn [snd]. destruct s as [qs view idx back fwd flag ans bm f name stored].
    unfold applyFilters. fields. apply leibniz_equiv. intros i.
    rewrite !elem_of_union, elem_of_list_to_set, elem_of_elements. tauto.
Qed.

(** ** Answered ids *)

Lemma answeredQuestions_applyFilters draws s :
  answeredQuestions (applyFilters draws s) = answeredQuestions s.
Proof. destruct s. reflexivity. Qed.

Lemma toggleAnswer_answered_grows s :
  answeredQuestions s ⊆ answeredQuestions (toggleAnswer s).
Proof.
  unfold toggleAnswer.
  destruct (Nat.eqb (length (filteredQuestions s)) 0); [reflexivity|].
  destruct s as [qs view idx back fwd flag ans bm f name stored]. fields.
  destruct (negb flag); [|reflexivity].
  destruct (at_index view idx); fields; set_solver.
Qed.

Lemma nextQuestion_answered_grows draw s :
  answeredQuestions s ⊆ answeredQuestions (nextQuestion draw s).
Proof.
  unfold nextQuestion.
  destruct (negb (showAnswerFlag s)); [apply toggleAnswer_answered_grows|].
  destruct (pop (historyForward s)) as [[i rest]|]; reflexivity.
Qed.

Lemma prevQuestion_answered s :
  answeredQuestions (prevQuestion s) = answeredQuestions s.
Proof.
  unfold prevQuestion.
  destruct (pop (historyBack s)) as [[i rest]|]; reflexivity.
Qed.

(** X13.  The answered ids only grow: every handler of the page leaves in
    [answeredQuestions] all the ids that were in it, except [resetProgress]
    and the change of sheet, which leave it empty. *)
Theorem answered_ids_kept_until_reset MOCK (e : Event) (s : State) :
  (clearsAnswered e = false ->
   answeredQuestions s ⊆ answeredQuestions (handle MOCK e s)) ∧
  (clearsAnswered e = true -> answeredQuestions (handle MOCK e s) = ∅).
Proof.
  split; intros Hclears; destruct e; try discriminate Hclears; cbn [handle].
  - apply nextQuestion_answered_grows.
  - rewrite prevQuestion_answered. reflexivity.
  - apply toggleAnswer_answered_grows.
  - destruct (at_index (filteredQuestions s) (currentIndex s)) as [q|] eqn:E.
    + rewrite (toggleBookmark_on_record _ _ _ _ E).
      rewrite answeredQuestions_applyFilters. destruct s. reflexivity.
    + unfold toggleBookmark. rewrite E. reflexivity.
  - unfold handleFilterChange. destruct dom; [|reflexivity].
    rewrite answeredQuestions_applyFilters. destruct s. reflexivity.
  - unfold shuffleButtonClick. rewrite answeredQuestions_applyFilters.
    destruct s. reflexivity.
  - unfold resetFilters. rewrite answeredQuestions_applyFilters.
    destruct s. reflexivity.
  - unfold resetBookmarks. rewrite answeredQuestions_applyFilters.
    destruct s. reflexivity.
  - unfold handleBookmarkImport. destruct file; try reflexivity.
    destruct (negb _); cbn [snd]; [reflexivity|].
    rewrite answeredQuestions_applyFilters. destruct s. reflexivity.
  - destruct (resetProgress_fields draws s)
      as (_ & _ & _ & _ & _ & Ha & _). exact Ha.
  - unfold sheetSelectorChange. rewrite answeredQuestions_applyFilters.
    match goal with
    | |- answeredQuestions (resetProgress ?d ?x) = ∅ =>
        destruct (resetProgress_fields d x) as (_ & _ & _ & _ & _ & Ha & _);
        exact Ha
    end.
Qed.

(** X14.  With shuffleUnasked on, a shown answer and nothing to replay,
    [nextQuestion] moves to a record whose id is not answered, whenever the
    view holds such a record; the view itself is not touched. *)
Theorem nextQuestion_shuffle_picks_unanswered (draw : nat) (s : State) :
  showAnswerFlag s = true ->
  historyForward s = [] ->
  f_shuffleUnasked (filters s) = true ->
  (∃ q, q ∈ filteredQuestions s ∧ id q ∉ answeredQuestions s) ->
  let s' := nextQuestion draw s in
  filteredQuestions s' = filteredQuestions s ∧
  showAnswerFlag s' = false ∧
  ∃ q', at_index (filteredQuestions s') (currentIndex s') = Some q' ∧
        id q' ∉ answeredQuestions s'.
Proof.
  intros Hflag Hfwd Hon (q & Hin & Hq) s'. subst s'.
  rewrite (nextQuestion_forward draw s Hflag Hfwd). cbv zeta.
  destruct s as [qs view idx back fwd flag ans bm f name stored].
  fields. split; [reflexivity|]. split; [reflexivity|].
  unfold nextIndex. fields. rewrite Hon.
  destruct (List.filter (fun q0 => negb (bool_decide (id q0 ∈ ans))) view)
    as [|q0 unasked] eqn:E.
  { exfalso. assert (Hq' : In q (List.filter
                (fun q0 => negb (bool_decide (id q0 ∈ ans))) view)).
    { apply filter_In. split; [apply list_elem_of_In; exact Hin|].
      rewrite (bool_decide_eq_false_2 _ Hq). reflexivity. }
    rewrite E in Hq'. exact Hq'. }
  set (randomQ := nth _ (q0 :: unasked) q0).
  assert (Hr : In randomQ (q0 :: unasked)).
  { apply nth_In. unfold random_below. apply Nat.mod_upper_bound.
    discriminate. }
  rewrite <- E in Hr. apply filter_In in Hr as [Hrin Hrun].
  apply negb_true_iff, bool_decide_eq_false in Hrun.
  assert (Hex : ∃ x, x ∈ view ∧ id x = id randomQ).
  { exists randomQ. split; [apply list_elem_of_In; exact Hrin | reflexivity]. }
  pose proof (findIndex_from_range (id randomQ) view 0 Hex) as Hrange.
  destruct (findIndex_from_id (id randomQ) view 0 Hex) as (q' & Hq' & Hid).
  exists q'. unfold at_index, findIndex.
  destruct (Z.leb_spec 0 (findIndex_from 0 (id randomQ) view)); [|lia].
  rewrite Z.sub_0_r in Hq'. split; [exact Hq'|]. rewrite Hid. exact Hrun.
Qed.

(** ** Resets *)

(** X15.  [resetProgress] empties the answered ids, so the progress shown
    is 0 answered and 0 percent of the same total; it goes to index 0 with
    the answer hidden, rearranges the view at most (not at all while
    shuffleUnasked is off), and leaves the questions, the filters and the
    bookmarks alone. *)
Theorem resetProgress_clears_progress (draws : nat -> nat) (s : State) :
  let s' := resetProgress draws s in
  answeredQuestions s' = ∅ ∧
  updateProgress s' = mkProgress (length (filteredQuestions s)) 0 0 ∧
  currentIndex s' = Num 0 ∧ showAnswerFlag s' = false ∧
  filteredQuestions s' ≡ₚ filteredQuestions s ∧
  (f_shuffleUnasked (filters s) = false ->
   filteredQuestions s' = filteredQuestions s) ∧
  questions s' = questions s ∧ filters s' = filters s ∧
  bookmarkedQuestions s' = bookmarkedQuestions s.
Proof.
  intros s'. subst s'.
  destruct (resetProgress_fields draws s)
    as (Hq & Hf & Hb & _ & _ & Ha & Hi & Hfl & _ & _ & Hv).
  assert (Hperm : filteredQuestions (resetProgress draws s) ≡ₚ
                  filteredQuestions s).
  { rewrite Hv. destruct (f_shuffleUnasked (filters s));
      [apply shuffleUnasked_Permutation | reflexivity]. }
  split; [exact Ha|]. split.
  { unfold updateProgress. rewrite Ha, (Permutation_length Hperm), size_empty.
    f_equal. destruct (Nat.eqb_spec (length (filteredQuestions s)) 0);
      [reflexivity|].
    apply round_percent_none. assumption. }
  split; [exact Hi|]. split; [exact Hfl|]. split; [exact Hperm|].
  split; [intros Hoff; rewrite Hv, Hoff; reflexivity|].
  split; [exact Hq|]. split; [exact Hf | exact Hb].
Qed.

(** X16.  [resetFilters] puts every dimension at "All", keeps the
    shuffleUnasked switch, and shows every loaded question: the view is a
    rearrangement of [questions], and [questions] itself while
    shuffleUnasked is off; bookmarks and answered ids are kept and the
    answer is hidden. *)
Theorem resetFilters_shows_every_question (draws : nat -> nat) (s : State) :
  let s' := resetFilters draws s in
  allDimensionsAll (filters s') ∧
  f_shuffleUnasked (filters s') = f_shuffleUnasked (filters s) ∧
  filteredQuestions s' ≡ₚ questions s ∧
  (f_shuffleUnasked (filters s) = false -> filteredQuestions s' = questions s) ∧
  bookmarkedQuestions s' = bookmarkedQuestions s ∧
  answeredQuestions s' = answeredQuestions s ∧
  showAnswerFlag s' = false.
Proof.
  intros s'. subst s'.
  destruct s as [qs view idx back fwd flag ans bm f name stored].
  unfold resetFilters, applyFilters. fields. cbn [f_shuffleUnasked].
  assert (Hall : List.filter
            (passesFilters
               (mkFilters "All" "All" "All" "All" "All" (f_shuffleUnasked f))
               bm) qs = qs).
  { apply List_filter_all. intros q. apply passesFilters_allDimensionsAll.
    repeat split. }
  rewrite Hall.
  split; [repeat split|]. split; [reflexivity|]. split.
  - destruct (f_shuffleUnasked f);
      [apply shuffleUnasked_Permutation | reflexivity].
  - split; [intros ->; reflexivity|]. repeat split.
Qed.

(** ** The history right after a view is built *)

(** X17.  [initHistory] puts the current index itself on the back stack.
    So right after [applyFilters] has built a non-empty view, the first
    [prevQuestion] stays on the same record and empties the back stack, a
    second [prevQuestion] changes nothing, and the [nextQuestion] calls
    that follow first show the answer and then replay that same index: the
    session is still on the record it started from. *)
Theorem first_prev_after_applyFilters_stays (draws : nat -> nat)
    (d1 d2 : nat) (s : State) :
  let s0 := applyFilters draws s in
  let p := prevQuestion s0 in
  let again := nextQuestion d2 (nextQuestion d1 p) in
  filteredQuestions s0 ≠ [] ->
  (currentIndex p = currentIndex s0 ∧ historyBack p = [] ∧
   historyForward p = [currentIndex s0]) ∧
  prevQuestion p = p ∧
  (currentIndex again = currentIndex s0 ∧ showAnswerFlag again = false ∧
   historyForward again = []).
Proof.
  intros s0 p again Hne.
  assert (Hs0 : historyBack s0 = push (currentIndex s0) [] ∧
                historyForward s0 = [] ∧ showAnswerFlag s0 = false).
  { subst s0. destruct s. repeat split. }
  destruct Hs0 as (Hback & Hfwd & Hflag).
  assert (Hp : p =
    set_showAnswerFlag false
      (set_currentIndex (currentIndex s0)
         (set_historyBack []
            (set_historyForward (push (currentIndex s0) (historyForward s0))
               s0)))).
  { subst p. apply prevQuestion_pushed. exact Hback. }
  assert (Hpf : currentIndex p = currentIndex s0 ∧ historyBack p = [] ∧
                historyForward p = push (currentIndex s0) [] ∧
                showAnswerFlag p = false ∧
                filteredQuestions p = filteredQuestions s0).
  { rewrite Hp. destruct s0. fields. cbn in Hfwd. rewrite Hfwd.
    repeat split. }
  destruct Hpf as (Hp1 & Hp2 & Hp3 & Hp4 & Hp5).
  split; [repeat split; assumption|]. split.
  { unfold prevQuestion. rewrite Hp2. reflexivity. }
  assert (Hshown : nextQuestion d1 p =
    markAnswered (at_index (filteredQuestions p) (currentIndex p))
      (set_showAnswerFlag true p)).
  { apply nextQuestion_reveal; [rewrite Hp5; exact Hne | exact Hp4]. }
  assert (Hsf : showAnswerFlag (nextQuestion d1 p) = true ∧
                historyForward (nextQuestion d1 p) =
                  push (currentIndex s0) []).
  { rewrite Hshown. rewrite <- Hp3.
    destruct (at_index (filteredQuestions p) (currentIndex p));
      destruct p; split; reflexivity. }
  destruct Hsf as (Hs1 & Hs2).
  subst again. rewrite (nextQuestion_replay d2 _ _ _ Hs1 Hs2).
  repeat split.
Qed.

(** ** Instances on the sample page *)

Lemma Reachable_toggleBookmark MOCK draws draw (s : State) :
  Reachable MOCK s -> Reachable MOCK (toggleBookmark draws draw s).
Proof. intros H. exact (reach_event MOCK (Bookmark draws draw) s H). Qed.

Lemma Reachable_shuffleButtonClick MOCK draws (s : State) :
  Reachable MOCK s -> Reachable MOCK (shuffleButtonClick draws s).
Proof. intros H. exact (reach_event MOCK (ShuffleClick draws) s H). Qed.

Lemma Reachable_bookmarkedOnly : Reachable sampleMock bookmarkedOnly.
Proof.
  unfold bookmarkedOnly. apply Reachable_handleFilterChange.
  apply Reachable_toggleBookmark. exact Reachable_sampleLoaded.
Qed.

Lemma sampleLoaded_current :
  at_index (filteredQuestions sampleLoaded) (currentIndex sampleLoaded)
  = Some mock1.
Proof. vm_compute. reflexivity. Qed.

(** X8 on the first record of the sample page. *)
Lemma toggleBookmark_flips_mock1 :
  at_index (filteredQuestions sampleLoaded) (currentIndex sampleLoaded)
  = Some mock1 ∧
  storedBookmarks (toggleBookmark zeroDraws 0 sampleLoaded) =
  bookmarkedQuestions (toggleBookmark zeroDraws 0 sampleLoaded).
Proof.
  split; [exact sampleLoaded_current|].
  apply (toggleBookmark_flips_current_id zeroDraws 0 sampleLoaded mock1
           sampleLoaded_current).
Defined.

(** X9 on the first record of the sample page. *)
Lemma toggleBookmark_twice_on_mock1 :
  bookmarkedQuestions
    (toggleBookmark zeroDraws 0 (toggleBookmark zeroDraws 0 sampleLoaded)) =
  bookmarkedQuestions sampleLoaded.
Proof.
  apply (toggleBookmark_twice_restores sampleMock zeroDraws zeroDraws 0 0
           sampleLoaded mock1 Reachable_sampleLoaded).
  - vm_compute. reflexivity.
  - vm_compute. discriminate.
  - exact sampleLoaded_current.
Defined.

(** X10 on the sample page showing its one bookmarked record. *)
Lemma unbookmark_drops_mock1 :
  f_bookmarked (filters bookmarkedOnly) = "Bookmarked" ∧
  at_index (filteredQuestions bookmarkedOnly) (currentIndex bookmarkedOnly)
  = Some mock1 ∧
  id mock1 ∉ bookmarkedQuestions (toggleBookmark zeroDraws 0 bookmarkedOnly).
Proof.
  assert (Hf : f_bookmarked (filters bookmarkedOnly) = "Bookmarked").
  { vm_compute. reflexivity. }
  assert (Hq : at_index (filteredQuestions bookmarkedOnly)
                 (currentIndex bookmarkedOnly) = Some mock1).
  { vm_compute. reflexivity. }
  split; [exact Hf|]. split; [exact Hq|].
  apply (unbookmark_under_filter_drops_record sampleMock zeroDraws 0
           bookmarkedOnly mock1 Reachable_bookmarkedOnly Hf Hq).
Defined.

(** X11 on the sample page: the payload its own export would carry. *)
Lemma import_accepts_unknown_on_unnamed_sheet :
  or_unknown "unknown" = or_unknown (sheetName sampleLoaded) ∧
  fst (handleBookmarkImport (Payload "unknown" [IdNum 3; IdNum 62]) zeroDraws
         sampleLoaded) = Imported.
Proof.
  assert (Hset : or_unknown "unknown" = or_unknown (sheetName sampleLoaded)).
  { vm_compute. reflexivity. }
  split; [exact Hset|].
  apply (import_merges_bookmarks "unknown" [IdNum 3; IdNum 62] zeroDraws
           zeroDraws sampleLoaded Hset).
Defined.

(** X12: the export of the sample page goes back into it and is refused by
    the page of sheet "2020". *)
Lemma export_of_sample_page :
  fst (handleBookmarkImport (exportBookmarks sampleLoaded) zeroDraws
         sampleLoaded) = Imported ∧
  handleBookmarkImport (exportBookmarks sampleLoaded) zeroDraws sheet2020
  = (SetMismatch, sheet2020).
Proof.
  split.
  - apply (export_then_import sampleLoaded sampleLoaded zeroDraws).
    reflexivity.
  - apply (export_then_import sampleLoaded sheet2020 zeroDraws).
    vm_compute. discriminate.
Defined.

(** X13 on the sample page: a reveal keeps the answered ids, a reset of
    the progress empties them. *)
Lemma answered_kept_then_cleared :
  answeredQuestions sampleLoaded ⊆
    answeredQuestions (handle sampleMock (Next 0) sampleLoaded) ∧
  answeredQuestions (handle sampleMock (ResetProgress zeroDraws) sampleLoaded)
  = ∅.
Proof.
  split.
  - apply (answered_ids_kept_until_reset sampleMock (Next 0) sampleLoaded).
    reflexivity.
  - apply (answered_ids_kept_until_reset sampleMock (ResetProgress zeroDraws)
             sampleLoaded).
    reflexivity.
Defined.

(** X14 on the shuffled sample page: the view is 3, 62, 66, 99, 1 with
    record 3 answered and shown. *)
Lemma shuffle_moves_to_unanswered :
  showAnswerFlag shuffledShown = true ∧
  historyForward shuffledShown = [] ∧
  f_shuffleUnasked (filters shuffledShown) = true ∧
  showAnswerFlag (nextQuestion 7 shuffledShown) = false.
Proof.
  assert (Hflag : showAnswerFlag shuffledShown = true)
    by (vm_compute; reflexivity).
  assert (Hfwd : historyForward shuffledShown = [])
    by (vm_compute; reflexivity).
  assert (Hon : f_shuffleUnasked (filters shuffledShown) = true)
    by (vm_compute; reflexivity).
  split; [exact Hflag|]. split; [exact Hfwd|]. split; [exact Hon|].
  apply (nextQuestion_shuffle_picks_unanswered 7 shuffledShown Hflag Hfwd Hon).
  exists mock62. split.
  - apply list_elem_of_In. vm_compute. right. left. reflexivity.
  - apply (bool_decide_eq_false_1 (id mock62 ∈ answeredQuestions shuffledShown)).
    vm_compute. reflexivity.
Defined.

(** X17 on the sample page. *)
Lemma first_prev_on_sample_page_stays :
  filteredQuestions (applyFilters zeroDraws sampleLoaded) ≠ [] ∧
  currentIndex (prevQuestion (applyFilters zeroDraws sampleLoaded)) =
  currentIndex (applyFilters zeroDraws sampleLoaded).
Proof.
  assert (Hne : filteredQuestions (applyFilters zeroDraws sampleLoaded) ≠ []).
  { vm_compute. discriminate. }
  split; [exact Hne|].
  pose proof (first_prev_after_applyFilters_stays zeroDraws 0 0 sampleLoaded
                Hne) as ((H1 & _) & _).
  exact H1.
Defined.

(** ** The options of the selects *)

Lemma uniq_fold (l : list string) :
  ∀ seen : list string,
    let out :=
      fold_left
        (fun seen x => if bool_decide (x ∈ seen) then seen else seen ++ [x])
        l seen in
    (∀ x, x ∈ out ↔ x ∈ seen ∨ x ∈ l) ∧ (NoDup seen -> NoDup out).
Proof.
  induction l as [|a l IH]; intros seen; cbn [fold_left].
  - split; [|trivial]. intros x. rewrite elem_of_nil. tauto.
  - case_bool_decide as Ha.
    + destruct (IH seen) as [Hin Hnd]. split; [|exact Hnd].
      intros x. rewrite Hin, elem_of_cons. split; [tauto|].
      intros [H | [-> | H]]; tauto.
    + destruct (IH (seen ++ [a])) as [Hin Hnd]. split.
      * intros x. rewrite Hin, elem_of_app, list_elem_of_singleton, elem_of_cons.
        tauto.
      * intros Hseen. apply Hnd. apply NoDup_app. split; [exact Hseen|].
        split; [|apply NoDup_singleton].
        intros x Hx Hxa. apply list_elem_of_singleton in Hxa. subst x.
        contradiction.
Qed.

Lemma elem_of_uniq (l : list string) (x : string) : x ∈ uniq l ↔ x ∈ l.
Proof.
  unfold uniq. destruct (uniq_fold l []) as [Hin _]. rewrite Hin.
  rewrite elem_of_nil. tauto.
Qed.

Lemma NoDup_uniq (l : list string) : NoDup (uniq l).
Proof. unfold uniq. apply (uniq_fold l []). constructor. Qed.

Lemma elem_of_truthy_map {A : Type} (f : A -> string) (l : list A)
    (x : string) :
  x ∈ List.filter truthy (map f l) ↔ x ≠ "" ∧ ∃ a, a ∈ l ∧ f a = x.
Proof.
  rewrite list_elem_of_In, filter_In, in_map_iff. unfold truthy.
  rewrite negb_true_iff, String.eqb_neq. split.
  - intros [(a & Ha & Hin) Hx]. split; [exact Hx|].
    exists a. split; [apply list_elem_of_In; exact Hin | exact Ha].
  - intros [Hx (a & Hin & Ha)]. split; [|exact Hx].
    exists a. split; [exact Ha | apply list_elem_of_In; exact Hin].
Qed.

Lemma applyFilters_shows (draws : nat -> nat) (s : State) (q : Question) :
  q ∈ questions s ->
  Matches (filters s) (bookmarkedQuestions s) q ->
  filteredQuestions (applyFilters draws s) ≠ [].
Proof.
  intros Hin Hm Hempty.
  destruct (applyFilters_viewConsistent draws s) as [Hperm _].
  rewrite Hempty in Hperm. apply Permutation_length in Hperm.
  assert (Hq : In q (matchingQuestions (applyFilters draws s))).
  { unfold matchingQuestions. apply filter_In.
    split; [apply list_elem_of_In; destruct s; exact Hin|].
    apply passesFilters_Matches. destruct s. exact Hm. }
  destruct (matchingQuestions (applyFilters draws s));
    [exact Hq | discriminate Hperm].
Qed.

(** X18.  The category select offers "All" first and then, each once, the
    non-empty categories of the loaded questions and nothing else; and
    every category it offers selects at least one question: choosing it,
    with the other selects at "All", never leaves an empty view. *)
Theorem category_options_select_questions (sort : list string -> list string)
    (s : State) :
  (∀ l, sort l ≡ₚ l) ->
  let options := populateCategoryFilter sort s in
  head options = Some "All" ∧
  NoDup (tail options) ∧
  (∀ c, c ∈ tail options ↔
        c ≠ "" ∧ ∃ q, q ∈ questions s ∧ category q = c) ∧
  (∀ c v draws,
     c ∈ tail options ->
     cat_value v = c -> bm_value v = "All" -> ast_value v = "All" ->
     civ_value v = "All" ->
     filteredQuestions (handleFilterChange CategoryFilter (Some v) draws s)
     ≠ []).
Proof.
  intros Hsort options. subst options. unfold populateCategoryFilter.
  cbn [head tail].
  assert (Hmem : ∀ c,
    c ∈ sort (uniq (List.filter truthy (map category (questions s)))) ↔
    c ≠ "" ∧ ∃ q, q ∈ questions s ∧ category q = c).
  { intros c. rewrite Hsort, elem_of_uniq. apply elem_of_truthy_map. }
  split; [reflexivity|]. split; [rewrite Hsort; apply NoDup_uniq|].
  split; [exact Hmem|].
  intros c v draws Hc Hcat Hbm Hast Hciv.
  apply Hmem in Hc as [_ (q & Hin & Hq)].
  unfold handleFilterChange. apply (applyFilters_shows _ _ q).
  - destruct s. exact Hin.
  - destruct s. unfold Matches. cbn. rewrite Hbm, Hast, Hciv, Hcat, Hq.
    repeat split; try (right; reflexivity); try (left; reflexivity);
      discriminate.
Qed.

(** X19.  The subcategory select offers "All" first and then, each once,
    the non-empty subcategories of the loaded questions of the category in
    force (of all of them when it is "All") and nothing else; and every
    subcategory it offers selects at least one question: choosing it, with
    the category select on the category in force and the other selects at
    "All", never leaves an empty view. *)
Theorem subcategory_options_select_questions
    (sort : list string -> list string) (s : State) :
  (∀ l, sort l ≡ₚ l) ->
  let options := updateSubCategories sort s in
  head options = Some "All" ∧
  NoDup (tail options) ∧
  (∀ sc, sc ∈ tail options ↔
         sc ≠ "" ∧
         ∃ q, q ∈ questions s ∧
              (f_category (filters s) = "All" ∨
               category q = f_category (filters s)) ∧
              subCategory q = sc) ∧
  (∀ sc v draws,
     sc ∈ tail options ->
     cat_value v = f_category (filters s) -> sub_value v = sc ->
     bm_value v = "All" -> ast_value v = "All" -> civ_value v = "All" ->
     filteredQuestions
       (handleFilterChange SubcategoryFilter (Some v) draws s) ≠ []).
Proof.
  intros Hsort options. subst options. unfold updateSubCategories.
  cbv zeta. cbn [head tail].
  set (filtered := if (f_category (filters s) =? "All")%string then _ else _).
  assert (Hfiltered : ∀ q,
    q ∈ filtered ↔
    q ∈ questions s ∧
    (f_category (filters s) = "All" ∨ category q = f_category (filters s))).
  { intros q. subst filtered.
    destruct (String.eqb_spec (f_category (filters s)) "All") as [E|E].
    - tauto.
    - rewrite list_elem_of_In, filter_In, String.eqb_eq, <- list_elem_of_In.
      tauto. }
  assert (Hmem : ∀ sc,
    sc ∈ sort (uniq (List.filter truthy (map subCategory filtered))) ↔
    sc ≠ "" ∧
    ∃ q, q ∈ questions s ∧
         (f_category (filters s) = "All" ∨
          category q = f_category (filters s)) ∧
         subCategory q = sc).
  { intros sc. rewrite Hsort, elem_of_uniq, elem_of_truthy_map.
    split; intros [Hsc (q & Hq & Hsub)]; (split; [exact Hsc|]); exists q.
    - apply Hfiltered in Hq. tauto.
    - split; [apply Hfiltered; tauto | tauto]. }
  split; [reflexivity|]. split; [rewrite Hsort; apply NoDup_uniq|].
  split; [exact Hmem|].
  intros sc v draws Hsc Hcat Hsub Hbm Hast Hciv.
  apply Hmem in Hsc as [_ (q & Hin & Hc & Hq)].
  unfold handleFilterChange. apply (applyFilters_shows _ _ q).
  - destruct s. exact Hin.
  - destruct s. unfold Matches. cbn in *. rewrite Hbm, Hast, Hciv, Hcat, Hsub.
    split; [tauto|]. split; [right; exact Hq|].
    repeat split; discriminate.
Qed.

(** X18 and X19 on the sample page, with a sort that leaves the list as it
    is. *)
Lemma sample_category_options :
  (∀ l : list string, (fun l => l) l ≡ₚ l) ∧
  head (populateCategoryFilter (fun l => l) sampleLoaded) = Some "All" ∧
  NoDup (tail (populateCategoryFilter (fun l => l) sampleLoaded)).
Proof.
  assert (Hsort : ∀ l : list string, (fun l => l) l ≡ₚ l)
    by (intros l; reflexivity).
  split; [exact Hsort|].
  pose proof (category_options_select_questions (fun l => l) sampleLoaded
                Hsort) as (H1 & H2 & _).
  split; [exact H1 | exact H2].
Defined.

Lemma sample_subcategory_options :
  (∀ l : list string, (fun l => l) l ≡ₚ l) ∧
  head (updateSubCategories (fun l => l) historyChosen) = Some "All" ∧
  NoDup (tail (updateSubCategories (fun l => l) historyChosen)).
Proof.
  assert (Hsort : ∀ l : list string, (fun l => l) l ≡ₚ l)
    by (intros l; reflexivity).
  split; [exact Hsort|].
  pose proof (subcategory_options_select_questions (fun l => l) historyChosen
                Hsort) as (H1 & H2 & _).
  split; [exact H1 | exact H2].
Defined.

(** ** Escaping *)

Lemma list_ascii_of_string_app (a b : string) :
  String.list_ascii_of_string (a ++ b)%string =
  String.list_ascii_of_string a ++ String.list_ascii_of_string b.
Proof.
  induction a as [|c a IH]; [reflexivity|].
  change (String.list_ascii_of_string (String c (a ++ b)%string) =
          (c :: String.list_ascii_of_string a) ++
          String.list_ascii_of_string b).
  cbn [String.list_ascii_of_string app]. rewrite IH. reflexivity.
Qed.

Ltac escape_cases :=
  unfold escapeChar;
  repeat match goal with
         | |- context [Ascii.eqb ?c ?d] => destruct (Ascii.eqb_spec c d); subst
         end.

Lemma escapeChar_clean (c x : ascii) :
  x = "<"%char ∨ x = ">"%char ∨ x = "034"%char ∨ x = "'"%char ->
  ¬ occurs x (escapeChar c).
Proof.
  unfold occurs. intros Hx. escape_cases; cbn; intros Hin;
    repeat (destruct Hin as [Hin | Hin]; [subst x|]); try contradiction;
    destruct Hx as [Hx | [Hx | [Hx | Hx]]];
    first [discriminate Hx | congruence].
Qed.

Lemma escapeChar_prefix (c1 c2 : ascii) (r1 r2 : string) :
  (escapeChar c1 ++ r1)%string = (escapeChar c2 ++ r2)%string ->
  c1 = c2 ∧ r1 = r2.
Proof.
  escape_cases; cbv [String.append]; intros H; inversion H; subst;
    first [split; reflexivity | congruence].
Qed.

Lemma escapeChar_nonempty (c : ascii) (r : string) :
  (escapeChar c ++ r)%string ≠ "".
Proof. escape_cases; discriminate. Qed.

(** X20.  The text [escapeHtml] returns holds no angle bracket, no double
    quote and no apostrophe, whatever text it is given; and it tells texts
    apart: two texts with the same escaped form are the same text. *)
Theorem escapeHtml_leaves_no_markup (str : string) :
  (∀ x : ascii,
     x = "<"%char ∨ x = ">"%char ∨ x = "034"%char ∨ x = "'"%char ->
     ¬ occurs x (escapeHtml str)) ∧
  (∀ str' : string, escapeHtml str = escapeHtml str' -> str = str').
Proof.
  split.
  - intros x Hx. induction str as [|c str IH]; [intros []|].
    unfold occurs in *. cbn [escapeHtml].
    rewrite list_ascii_of_string_app, in_app_iff.
    intros [Hin | Hin]; [|exact (IH Hin)].
    exact (escapeChar_clean c x Hx Hin).
  - induction str as [|c str IH]; intros [|c' str'] H; cbn [escapeHtml] in H.
    + reflexivity.
    + symmetry in H. apply escapeChar_nonempty in H. contradiction.
    + apply escapeChar_nonempty in H. contradiction.
    + apply escapeChar_prefix in H as [-> H]. f_equal. apply IH. exact H.
Qed.

(** ** Text for speech *)

Lemma chunkLoop_concat {A : Type} (size : nat) (text : list A) :
  (0 < size)%nat ->
  ∀ fuel i : nat,
    (length text - i ≤ fuel)%nat ->
    concat (chunkLoop size fuel i text) = drop i text.
Proof.
  intros Hsize. induction fuel as [|fuel IH]; intros i Hfuel;
    cbn [chunkLoop].
  - rewrite drop_ge by lia. reflexivity.
  - destruct (Nat.ltb_spec i (length text)) as [Hlt|Hge].
    + cbn [concat]. rewrite IH by lia.
      rewrite <- (drop_drop text size i). apply take_drop.
    + rewrite drop_ge by lia. reflexivity.
Qed.

Lemma chunkLoop_lookup {A : Type} (size : nat) (text : list A) :
  ∀ (fuel i k : nat) (c : list A),
    chunkLoop size fuel i text !! k = Some c ->
    c = take size (drop (i + k * size) text) ∧ (i + k * size < length text)%nat.
Proof.
  induction fuel as [|fuel IH]; intros i k c; cbn [chunkLoop];
    [intros H; discriminate|].
  destruct (Nat.ltb_spec i (length text)) as [Hlt|Hge];
    [|intros H; discriminate].
  destruct k as [|k]; cbn [lookup list_lookup].
  - intros H. injection H as <-. rewrite Nat.add_0_r. split; [reflexivity|lia].
  - intros H. apply IH in H as [-> Hk].
    replace (i + size + k * size)%nat with (i + S k * size)%nat in * by lia.
    split; [reflexivity | exact Hk].
Qed.

(** X21.  The chunks [speakText] hands to the speech engine are the text
    cut at every 200th character: put together again they give the
    sanitized text, so nothing is lost or repeated; each chunk has at least
    one and at most 200 characters, the [k]-th one being the 200 characters
    from position [200 k] on; and an empty text gives no chunk. *)
Theorem speechChunks_cover_text {A : Type} (plainText : list A) :
  let chunks := speechChunks plainText in
  concat chunks = plainText ∧
  (∀ (k : nat) (c : list A),
     chunks !! k = Some c ->
     c = take 200 (drop (200 * k) plainText) ∧
     (1 ≤ length c ≤ 200)%nat) ∧
  (plainText = [] -> chunks = []).
Proof.
  intros chunks. subst chunks. unfold speechChunks.
  split; [|split].
  - rewrite chunkLoop_concat; [reflexivity | unfold CHUNK_SIZE; lia | lia].
  - intros k c Hc. apply chunkLoop_lookup in Hc as [-> Hk].
    change CHUNK_SIZE with 200%nat in *. cbn [Nat.add] in *.
    replace (k * 200)%nat with (200 * k)%nat in * by lia.
    split; [reflexivity|].
    rewrite length_take, length_drop. lia.
  - intros ->. reflexivity.
Qed.

Lemma dropWhile_suffix {A : Type} (p : A -> bool) (l : list A) :
  ∃ pre, l = pre ++ dropWhile p l.
Proof.
  induction l as [|c l (pre & IH)]; [exists []; reflexivity|].
  cbn [dropWhile]. destruct (p c).
  - exists (c :: pre). cbn. f_equal. exact IH.
  - exists []. reflexivity.
Qed.

Lemma dropWhile_head {A : Type} (p : A -> bool) (l : list A) (c : A) :
  head (dropWhile p l) = Some c -> p c = false.
Proof.
  induction l as [|a l IH]; [discriminate|].
  cbn [dropWhile]. destruct (p a) eqn:E; [exact IH|].
  cbn. intros H. injection H as <-. exact E.
Qed.

Lemma stripTags_elem_of (text : list N) :
  ∀ (inTag : bool) (x : N), x ∈ stripTags inTag text -> x ∈ text.
Proof.
  induction text as [|c text IH]; intros inTag x; cbn [stripTags];
    [trivial|].
  destruct inTag.
  - destruct (c =? 62)%N; intros H; apply IH in H; apply elem_of_cons; tauto.
  - destruct ((c =? 60)%N && existsb (N.eqb 62) text).
    + intros H; apply IH in H; apply elem_of_cons; tauto.
    + rewrite !elem_of_cons. intros [-> | H]; [tauto|].
      right. exact (IH _ _ H).
Qed.

Lemma noTag_cons (c : N) (text : list N) :
  noTag text -> (c = 60%N -> 62%N ∉ text) -> noTag (c :: text).
Proof.
  intros Htext Hc l1 l2 l3 E. destruct l1 as [|a l1]; cbn in E.
  - injection E as -> E. apply (Hc eq_refl). rewrite E.
    apply elem_of_app. right. apply elem_of_cons. left. reflexivity.
  - injection E as _ E. exact (Htext l1 l2 l3 E).
Qed.

Lemma stripTags_noTag (text : list N) :
  ∀ inTag : bool, noTag (stripTags inTag text).
Proof.
  induction text as [|c text IH]; intros inTag; cbn [stripTags].
  - intros l1 l2 l3 E. destruct l1; discriminate.
  - destruct inTag; [destruct (c =? 62)%N; apply IH|].
    destruct (N.eqb_spec c 60) as [->|Hc]; cbn [andb].
    + destruct (existsb (N.eqb 62) text) eqn:E; [apply IH|].
      apply noTag_cons; [apply IH|]. intros _ Hin.
      apply stripTags_elem_of in Hin.
      assert (Hex : existsb (N.eqb 62) text = true).
      { apply existsb_exists. exists 62%N.
        split; [apply list_elem_of_In; exact Hin | apply N.eqb_refl]. }
      congruence.
    + apply noTag_cons; [apply IH|]. intros ->. contradiction.
Qed.

Lemma noTag_part (pre text post : list N) :
  noTag (pre ++ text ++ post) -> noTag text.
Proof.
  intros H l1 l2 l3 E. apply (H (pre ++ l1) l2 (l3 ++ post)).
  rewrite E. rewrite <- !app_assoc. cbn. rewrite <- app_assoc. reflexivity.
Qed.

Lemma stripLeadingNumber_suffix (text : list N) :
  ∃ pre, text = pre ++ stripLeadingNumber text.
Proof.
  unfold stripLeadingNumber. destruct text as [|c rest]; [exists []; reflexivity|].
  destruct (isDigit c); [|exists []; reflexivity].
  destruct (dropWhile_suffix isDigit (c :: rest)) as (pre & Hpre).
  destruct (dropWhile isDigit (c :: rest)) as [|d tail];
    [exists []; reflexivity|].
  destruct (d =? 46)%N; [|exists []; reflexivity].
  destruct (dropWhile_suffix isSpace tail) as (pre' & Hpre').
  exists (pre ++ d :: pre'). rewrite Hpre at 1. rewrite Hpre' at 1.
  rewrite <- app_assoc. reflexivity.
Qed.

Lemma trim_part (text : list N) :
  ∃ pre post, text = pre ++ trim text ++ post.
Proof.
  unfold trim.
  destruct (dropWhile_suffix isSpace text) as (pre & Hpre).
  destruct (dropWhile_suffix isSpace (rev (dropWhile isSpace text)))
    as (post & Hpost).
  exists pre, (rev post). rewrite Hpre at 1. f_equal.
  rewrite <- rev_app_distr, <- Hpost, rev_involutive. reflexivity.
Qed.

Lemma trim_ends (text : list N) (c : N) :
  (head (trim text) = Some c -> isSpace c = false) ∧
  (last (trim text) = Some c -> isSpace c = false).
Proof.
  unfold trim.
  set (m := dropWhile isSpace text).
  destruct (dropWhile_suffix isSpace (rev m)) as (post & Hpost).
  split.
  - intros Hhead. apply (dropWhile_head isSpace text). fold m.
    apply (f_equal (@rev N)) in Hpost.
    rewrite rev_involutive, rev_app_distr in Hpost. rewrite Hpost.
    destruct (rev (dropWhile isSpace (rev m))); [discriminate | exact Hhead].
  - intros Hlast. apply (dropWhile_head isSpace (rev m)).
    destruct (dropWhile isSpace (rev m)) as [|a r]; [discriminate|].
    cbn [rev] in Hlast. rewrite last_snoc in Hlast. exact Hlast.
Qed.

(** X22.  The text [sanitizeTextForSpeech] returns is one stretch of the
    text with its tags taken out; no [<] in it is followed by a [>], so no
    tag is left to be read aloud; and it neither begins nor ends with
    white space. *)
Theorem sanitizeTextForSpeech_clean (text : list N) :
  let out := sanitizeTextForSpeech text in
  noTag out ∧
  (∃ pre post, stripTags false text = pre ++ out ++ post) ∧
  (∀ c, head out = Some c -> isSpace c = false) ∧
  (∀ c, last out = Some c -> isSpace c = false).
Proof.
  intros out. subst out. unfold sanitizeTextForSpeech.
  destruct text as [|c0 text].
  { split; [intros l1 l2 l3 E; destruct l1; discriminate|].
    split; [exists [], []; reflexivity|]. split; intros c H; discriminate. }
  set (stripped := stripTags false (c0 :: text)).
  assert (Hpart : ∃ pre post,
            stripped = pre ++ trim (stripLeadingNumber stripped) ++ post).
  { destruct (stripLeadingNumber_suffix stripped) as (pre & Hpre).
    destruct (trim_part (stripLeadingNumber stripped)) as (pre' & post & Ht).
    exists (pre ++ pre'), post. rewrite Hpre at 1. rewrite Ht at 1.
    rewrite <- app_assoc. reflexivity. }
  split; [|split; [exact Hpart|]].
  - destruct Hpart as (pre & post & Hpart).
    apply (noTag_part pre _ post). rewrite <- Hpart.
    apply stripTags_noTag.
  - split; intros c; apply trim_ends.
Qed.

(** ** Theme *)

(** X23.  After [toggleTheme] the theme shown is "dark" or "light" and
    localStorage holds it; a reload, which starts without the attribute
    and runs [initTheme], shows that same theme; each further
    [toggleTheme] changes the theme and two of them bring it back; and a
    first visit, with nothing stored, starts in "light". *)
Theorem toggleTheme_persists (t : Theme) :
  let t1 := toggleTheme t in
  (dataTheme t1 = Some "dark" ∨ dataTheme t1 = Some "light") ∧
  storedTheme t1 = dataTheme t1 ∧
  initTheme (mkTheme None (storedTheme t1)) = t1 ∧
  dataTheme (toggleTheme t1) ≠ dataTheme t1 ∧
  toggleTheme (toggleTheme t1) = t1 ∧
  dataTheme (initTheme (mkTheme None None)) = Some "light".
Proof.
  unfold toggleTheme, initTheme. destruct t as [[v|] st]; cbn.
  - destruct (String.eqb_spec v "dark"); cbn;
      repeat split; first [left; reflexivity | right; reflexivity
                          | discriminate].
  - repeat split; first [left; reflexivity | discriminate].
Qed.

(** ** Records of a sheet *)

(** X24.  The records [transformSheetsData] builds have pairwise distinct
    ids and a non-empty question; with two rows or more the first row is a
    header and the record with id [n] comes from the row after the [n]-th
    one, so the ids of skipped rows are not reused; a sheet of a single row
    has that row taken as data, with id 1; and missing or empty values
    give no record. *)
Theorem transformSheetsData_records (trim lower : string -> string)
    (values : option (list (list string))) :
  let out := transformSheetsData trim lower values in
  NoDup (map id out) ∧
  (∀ q, q ∈ out -> question q ≠ "") ∧
  (∀ rows q, values = Some rows -> (2 ≤ length rows)%nat -> q ∈ out ->
     ∃ (i : nat) (row : list string),
       rows !! S i = Some row ∧ q = rowToQuestion trim lower i row ∧
       id q = IdNum (Z.of_nat i + 1)) ∧
  (∀ row, values = Some [row] ->
     out = if (trim (cell row 2) =? "")%string then []
           else [rowToQuestion trim lower 0 row]) ∧
  (values = None ∨ values = Some [] -> out = []).
Proof.
  intros out. split; [apply transformSheetsData_NoDup|].
  subst out. unfold transformSheetsData.
  split; [|split; [|split]].
  - intros q. destruct values as [rows|]; [|intros H; inversion H].
    destruct (length rows <? 1)%nat; [intros H; inversion H|]. cbv zeta.
    rewrite list_elem_of_In, filter_In, negb_true_iff, String.eqb_neq. tauto.
  - intros rows q -> Hlen.
    destruct (Nat.ltb_spec (length rows) 1); [lia|].
    destruct (Nat.ltb_spec 1 (length rows)); [|lia]. cbv zeta.
    rewrite list_elem_of_In, filter_In, <- list_elem_of_In.
    intros [Hin _]. apply elem_of_lookup_imap in Hin as (i & row & -> & Hrow).
    exists i, row. rewrite lookup_drop in Hrow.
    split; [exact Hrow|]. split; reflexivity.
  - intros row ->. cbn. destruct (trim (cell row 2) =? "")%string; reflexivity.
  - intros [-> | ->]; reflexivity.
Qed.

(** ** Applying the filters again *)

Lemma retainedIndex_idem (view : list Question) (i : jsnum) :
  retainedIndex view (retainedIndex view i) = retainedIndex view i.
Proof.
  rewrite (retainedIndex_position view i).
  destruct (at_index view i) as [q|] eqn:E.
  - apply (retainedIndex_kept view i q E).
  - apply retainedIndex_zero.
Qed.

(** X25.  With shuffleUnasked off, [applyFilters] run a second time changes
    nothing: the state it leaves is the state it finds. *)
Theorem applyFilters_twice_is_once (draws1 draws2 : nat -> nat) (s : State) :
  f_shuffleUnasked (filters s) = false ->
  applyFilters draws2 (applyFilters draws1 s) = applyFilters draws1 s.
Proof.
  destruct s as [qs view idx back fwd flag ans bm f name stored]. fields.
  intros Hoff. rewrite (applyFilters_off draws1) by exact Hoff. cbv zeta.
  rewrite (applyFilters_off draws2) by exact Hoff. cbv zeta.
  rewrite retainedIndex_idem. reflexivity.
Qed.

(** X25 on the sample page. *)
Lemma applyFilters_twice_on_sample_page :
  f_shuffleUnasked (filters sampleLoaded) = false ∧
  applyFilters zeroDraws (applyFilters zeroDraws sampleLoaded) =
  applyFilters zeroDraws sampleLoaded.
Proof.
  assert (Hoff : f_shuffleUnasked (filters sampleLoaded) = false).
  { vm_compute. reflexivity. }
  split; [exact Hoff|].
  exact (applyFilters_twice_is_once zeroDraws zeroDraws sampleLoaded Hoff).
Defined.

(** ** The session a change of sheet starts *)

Lemma applyFilters_all_dimensions draws qs view idx back fwd flag ans bm
    shuffle name st :
  applyFilters draws
    (mkState qs view idx back fwd flag ans bm
       (mkFilters "All" "All" "All" "All" "All" shuffle) name st) =
  let shown := if shuffle then shuffleUnasked draws ans qs else qs in
  mkState qs shown (retainedIndex shown idx) [retainedIndex shown idx] []
    false ans bm (mkFilters "All" "All" "All" "All" "All" shuffle) name st.
Proof.
  unfold applyFilters. setters. cbn [f_shuffleUnasked].
  rewrite List_filter_all; [reflexivity|].
  intros q. apply passesFilters_allDimensionsAll. repeat split.
Qed.

Lemma resetProgress_state draws qs view idx back fwd flag ans bm f name st :
  resetProgress draws (mkState qs view idx back fwd flag ans bm f name st) =
  mkState qs
    (if f_shuffleUnasked f then shuffleUnasked draws ∅ view else view)
    (Num 0) [Num 0] [] false ∅ bm f name st.
Proof.
  unfold resetProgress. fields. destruct (f_shuffleUnasked f); reflexivity.
Qed.

(** X26.  A change of sheet in the selector starts a session on the
    records of that sheet (on the built-in table when the request fails or
    the name is empty): every filter at "All" with the shuffleUnasked
    switch as it was, nothing answered, no bookmark in the session or in
    localStorage, index 0 with the answer hidden and the history at [0],
    and every record of the sheet in the view, in sheet order while
    shuffleUnasked is off and rearranged otherwise. *)
Theorem sheet_change_starts_fresh_session MOCK (value : string)
    (fetched : option (list Question)) (rnd : nat -> nat -> nat)
    (s : State) :
  let s' := sheetSelectorChange MOCK value fetched rnd s in
  sheetName s' = value ∧
  questions s' =
    loadQuestionsFromSelectedSheet MOCK fetched (set_sheetName value s) ∧
  filters s' =
    mkFilters "All" "All" "All" "All" "All" (f_shuffleUnasked (filters s)) ∧
  answeredQuestions s' = ∅ ∧
  bookmarkedQuestions s' = ∅ ∧ storedBookmarks s' = ∅ ∧
  currentIndex s' = Num 0 ∧ showAnswerFlag s' = false ∧
  historyBack s' = [Num 0] ∧ historyForward s' = [] ∧
  filteredQuestions s' ≡ₚ questions s' ∧
  (f_shuffleUnasked (filters s) = false ->
   filteredQuestions s' = questions s').
Proof.
  intros s'. subst s'. unfold sheetSelectorChange.
  set (loaded := loadQuestionsFromSelectedSheet MOCK fetched
                   (set_sheetName value s)).
  destruct s as [qs view idx back fwd flag ans bm f name stored].
  generalize loaded. clear loaded. intros loaded.
  unfold initializeBookmarks. setters.
  unfold resetFilters. setters.
  rewrite applyFilters_all_dimensions. cbv zeta.
  unfold resetBookmarks. setters.
  rewrite applyFilters_all_dimensions. cbv zeta.
  rewrite resetProgress_state. cbn [f_shuffleUnasked].
  rewrite applyFilters_all_dimensions. cbv zeta. fields.
  rewrite retainedIndex_zero.
  repeat split.
  - destruct (f_shuffleUnasked f);
      [apply shuffleUnasked_Permutation | reflexivity].
  - intros ->. reflexivity.
Qed.
